(** * Retrieval-and-selection pipeline of the textbook RAG backend

    A shallow embedding of the chunker ([backend/ingestion/chunker.py]),
    the retrieval service, the selection handler, the response generator's
    confidence heuristic, the query model and the RAG orchestrator
    ([backend/services/*.py], [backend/models/query.py]), then of the query
    route, the ChatKit tool handler and the ingestion side (embedder and
    vector-store batching, the Markdown section loop, the two ingestion
    scripts), followed by the properties proved about them.

    Conventions of the embedding.
    - A Python [str] is a Rocq [string]; a character stands for a code point
      below 256.  [isspace] and [char_lower] are Python's [str.isspace] and
      [str.lower] on that range.
    - A Python [int] is a [Z]; list and string positions that Python keeps
      non-negative are [nat].
    - A Python [float] score is idealised as a rational number ([Q]); the
      comparison [x > len(text) * 0.5] is written [len < 2 * x].  Where the
      order of results depends on the rounding of float arithmetic (the
      ranking of the selection handler), module [F64] gives the operations
      of binary64.
    - A [dict] used as a map is a [gmap]; a [set] is a [gset]; a [dict]
      whose iteration order matters is the list of its items.
    - The remote capabilities (embedding, vector search, completion) are
      parameters; every call to one of them is recorded in a trace. *)

From Stdlib Require Import ZArith QArith Qminmax List String Ascii Bool Lia.
From Stdlib Require Import Permutation Sorted.
From stdpp Require Import base option list gmap strings pretty.

Local Open Scope string_scope.
Local Open Scope list_scope.
Local Open Scope Z_scope.

(* ===================================================================== *)
(** * Python text primitives *)
(* ===================================================================== *)

Module PyStr.

(** [str.isspace] for one code point below 256. *)
Definition isspace (c : ascii) : bool :=
  let n := N_of_ascii c in
  ((9 <=? n) && (n <=? 13) || (28 <=? n) && (n <=? 32)
   || (n =? 133) || (n =? 160))%N.

(** [str.lower] for one code point below 256. *)
Definition char_lower (c : ascii) : ascii :=
  let n := N_of_ascii c in
  if ((65 <=? n) && (n <=? 90)
      || (192 <=? n) && (n <=? 222) && negb (n =? 215))%N
  then ascii_of_N (n + 32) else c.

Fixpoint lower (s : string) : string :=
  match s with
  | EmptyString => EmptyString
  | String c s' => String (char_lower c) (lower s')
  end.

Fixpoint lstrip (s : string) : string :=
  match s with
  | EmptyString => EmptyString
  | String c s' => if isspace c then lstrip s' else s
  end.

Definition rstrip (s : string) : string :=
  String.rev (lstrip (String.rev s)).

(** [s.strip()] *)
Definition strip (s : string) : string := rstrip (lstrip s).

(** [s.split()]: maximal runs of non-whitespace characters, in order.
    [cur] is the word being read, most recent character first. *)
Fixpoint split_go (cur : string) (s : string) : list string :=
  match s with
  | EmptyString =>
      match cur with EmptyString => [] | _ => [String.rev cur] end
  | String c s' =>
      if isspace c then
        match cur with
        | EmptyString => split_go EmptyString s'
        | _ => String.rev cur :: split_go EmptyString s'
        end
      else split_go (String c cur) s'
  end.

Definition split (s : string) : list string := split_go EmptyString s.

(** [sep.join(l)] *)
Definition join (sep : string) (l : list string) : string :=
  String.concat sep l.

(** [len(s)] *)
Definition len (s : string) : nat := String.length s.

(** [s[:k]] for [0 <= k] *)
Definition take (k : nat) (s : string) : string := substring 0 k s.

(** [needle in hay] *)
Fixpoint contains (needle hay : string) : bool :=
  String.prefix needle hay
  || match hay with
     | EmptyString => false
     | String _ hay' => contains needle hay'
     end.

(** [hay.find(needle)], [None] for -1; also the start of
    [re.search(needle, hay)] for a pattern without metacharacters. *)
Fixpoint find (needle hay : string) : option nat :=
  if String.prefix needle hay then Some O
  else match hay with
       | EmptyString => None
       | String _ hay' => option_map S (find needle hay')
       end.

(** [s.replace(a, b)] for single characters [a] and [b]. *)
Fixpoint replace_char (a b : ascii) (s : string) : string :=
  match s with
  | EmptyString => EmptyString
  | String c s' => String (if Ascii.eqb c a then b else c) (replace_char a b s')
  end.

(** Length of the longest whitespace prefix. *)
Fixpoint span_space (s : string) : nat :=
  match s with
  | String c s' => if isspace c then S (span_space s') else O
  | EmptyString => O
  end.

Definition newline : string := String "010" EmptyString.

End PyStr.

(** Python sequence slicing [l[start:stop]] with integer bounds: a negative
    bound counts from the end, and both are clamped to the sequence. *)
Module PySeq.

Definition len {A} (l : list A) : Z := Z.of_nat (length l).

Definition clamp (n i : Z) : Z :=
  if i <? 0 then Z.max (i + n) 0 else Z.min i n.

Definition slice {A} (l : list A) (start stop : Z) : list A :=
  let s := clamp (len l) start in
  let e := clamp (len l) stop in
  firstn (Z.to_nat (e - s)) (skipn (Z.to_nat s) l).

(** [l[:stop]] *)
Definition prefix {A} (l : list A) (stop : Z) : list A := slice l 0 stop.

End PySeq.

(* ===================================================================== *)
(** * Chunker ([backend/ingestion/chunker.py]) *)
(* ===================================================================== *)

Record TextChunker : Type := {
  chunk_size : Z;
  overlap_size : Z;
  respect_boundaries : bool
}.

(** The constructor's defaults. *)
Definition TextChunker_default : TextChunker :=
  {| chunk_size := 500; overlap_size := 100; respect_boundaries := true |}.

Definition is_sentence_end (c : ascii) : bool :=
  (Ascii.eqb c "." || Ascii.eqb c "!" || Ascii.eqb c "?")%char.

(** [re.finditer(r"[.!?]\s+", text)] as the list of (start, end) spans, left
    to right.  A match is one punctuation mark and the whole whitespace run
    after it; no match can start inside that run (whitespace is not
    punctuation), so scanning every position finds the same matches as
    resuming after each match. *)
Fixpoint sentence_matches_from (i : nat) (s : string) : list (nat * nat) :=
  match s with
  | EmptyString => []
  | String c s' =>
      if is_sentence_end c && (0 <? PyStr.span_space s')%nat
      then (i, (i + 1 + PyStr.span_space s')%nat) :: sentence_matches_from (S i) s'
      else sentence_matches_from (S i) s'
  end.

Definition sentence_matches (text : string) : list (nat * nat) :=
  sentence_matches_from O text.

Definition paragraph_break : string := PyStr.newline +:+ PyStr.newline.

(** [TextChunker._adjust_to_boundary] *)
Definition _adjust_to_boundary (text : string) : string :=
  let n := PyStr.len text in
  let paragraph_match := PyStr.find paragraph_break text in
  let paragraph_end :=
    match paragraph_match with
    | Some p => if (n <? 2 * p)%nat then Some p else None
    | None => None
    end in
  match paragraph_end with
  | Some p => PyStr.take p text
  | None =>
      match List.find (fun m => (n <? 2 * snd m)%nat) (rev (sentence_matches text)) with
      | Some m => PyStr.strip (PyStr.take (snd m) text)
      | None => text
      end
  end.

(** The body of the [while] loop of [chunk_text].  [fuel] bounds the number
    of iterations; [None] means the bound was reached before the loop
    ended. *)
Fixpoint chunk_loop (c : TextChunker) (fuel : nat) (words : list string)
    (start_idx : Z) (chunks : list string) : option (list string) :=
  match fuel with
  | O => None
  | S fuel' =>
      if start_idx <? PySeq.len words then
        let end_idx := Z.min (start_idx + chunk_size c) (PySeq.len words) in
        let chunk_words := PySeq.slice words start_idx end_idx in
        let chunk_text := PyStr.join " " chunk_words in
        let chunk_text :=
          if respect_boundaries c && (end_idx <? PySeq.len words)
          then _adjust_to_boundary chunk_text else chunk_text in
        let chunks := chunks ++ [chunk_text] in
        if end_idx >=? PySeq.len words then Some chunks
        else chunk_loop c fuel' words (end_idx - overlap_size c) chunks
      else Some chunks
  end.

(** [TextChunker.chunk_text] (the [section_type] argument is unused). *)
Definition chunk_text (c : TextChunker) (fuel : nat) (text : string)
    : option (list string) :=
  match PyStr.strip text with
  | EmptyString => Some []
  | _ =>
      let words := PyStr.split text in
      if PySeq.len words <=? chunk_size c then Some [text]
      else chunk_loop c fuel words 0 []
  end.

(** [TextChunker.get_word_count] *)
Definition get_word_count (text : string) : Z := PySeq.len (PyStr.split text).

(** Ghost view of the loop: the (start, end) word windows it visits.  It
    depends on the word count only. *)
Fixpoint chunk_windows (c : TextChunker) (fuel : nat) (n start_idx : Z)
    : option (list (Z * Z)) :=
  match fuel with
  | O => None
  | S fuel' =>
      if start_idx <? n then
        let end_idx := Z.min (start_idx + chunk_size c) n in
        if end_idx >=? n then Some [(start_idx, end_idx)]
        else option_map (cons (start_idx, end_idx))
               (chunk_windows c fuel' n (end_idx - overlap_size c))
      else Some []
  end.

(** The text emitted for one window. *)
Definition emit_window (c : TextChunker) (words : list string) (w : Z * Z)
    : string :=
  let chunk_text := PyStr.join " " (PySeq.slice words (fst w) (snd w)) in
  if respect_boundaries c && (snd w <? PySeq.len words)
  then _adjust_to_boundary chunk_text else chunk_text.

(* ===================================================================== *)
(** * Data model ([backend/models/query.py] and the search results) *)
(* ===================================================================== *)

(** A search result: the dict built by [VectorStore.search] with the keys
    [id], [score] and [payload], and, once the selection handler has scored
    it, [combined_score] and [text_overlap].  Only string-valued payload
    fields are read by the code below. *)
Record Chunk : Type := {
  chunk_id : Z;
  score : Q;
  payload : gmap string string;
  combined_score : option Q;
  text_overlap : option Q
}.

(** [d.get(key, default)] on a payload. *)
Definition payload_get (p : gmap string string) (key dflt : string) : string :=
  default dflt (p !! key).

Inductive Err : Type :=
| ValidationError (field : string).

Record SourceCitation : Type := {
  chapter_id : string;
  chapter_title : string;
  module_id : string;
  section_type : string;
  file_path : string;
  citation_text : string;
  relevance_score : Q
}.

(** The [SourceCitation(...)] constructor: pydantic checks
    [relevance_score] against [ge=0.0, le=1.0]. *)
Definition SourceCitation_new (c : SourceCitation) : Err + SourceCitation :=
  if Qle_bool 0 (relevance_score c) && Qle_bool (relevance_score c) 1
  then inr c else inl (ValidationError "relevance_score").

Record QueryResponse : Type := {
  response_text : string;
  source_citations : list SourceCitation;
  confidence_score : Q;
  response_session_id : option string;
  retrieved_chunks : Z
}.

(** The [QueryResponse(...)] constructor: [confidence_score] in [0, 1] and
    [retrieved_chunks >= 0]. *)
Definition QueryResponse_new (r : QueryResponse) : Err + QueryResponse :=
  if negb (Qle_bool 0 (confidence_score r) && Qle_bool (confidence_score r) 1)
  then inl (ValidationError "confidence_score")
  else if retrieved_chunks r <? 0 then inl (ValidationError "retrieved_chunks")
  else inr r.

Record QueryRequest : Type := {
  query_text : string;
  query_mode : string;
  session_id : option string;
  selected_text : option string;
  max_results : Z
}.

(** A field of the incoming data: left out, or given. *)
Inductive Field (A : Type) : Type :=
| Missing
| Given (a : A).
Arguments Missing {A}.
Arguments Given {A} a.

(** The keyword arguments (or JSON body) a [QueryRequest] is built from. *)
Record QueryInput : Type := {
  in_query_text : string;
  in_query_mode : Field string;
  in_session_id : option string;
  in_selected_text : Field (option string);
  in_max_results : Field Z
}.

(** [QueryRequest.validate_selected_text]; [data_query_mode] is
    [info.data.get("query_mode")], absent when that field failed its own
    validation. *)
Definition validate_selected_text (data_query_mode : option string)
    (v : option string) : Err + option string :=
  let falsy := match v with None => true | Some EmptyString => true | _ => false end in
  if bool_decide (data_query_mode = Some "selected-text") && falsy
  then inl (ValidationError "selected_text is required when query_mode='selected-text'")
  else
    match v with
    | Some (String _ _ as t) =>
        let word_count := PySeq.len (PyStr.split t) in
        if word_count <? 20
        then inl (ValidationError "selected_text must contain at least 20 words")
        else if word_count >? 2000
        then inl (ValidationError "selected_text must not exceed 2000 words")
        else inr v
    | _ => inr v
    end.

(** Per-field validation of [QueryRequest], in declaration order.  Field
    constraints ([min_length], [max_length], [ge], [le], [Literal]) are
    checked first; the field validator runs after them, and only on a value
    that was given (defaults are not validated). *)
Definition field_query_text (s : string) : option string :=
  if (1 <=? PyStr.len s)%nat && (PyStr.len s <=? 2000)%nat then Some s else None.

Definition field_query_mode (f : Field string) : option string :=
  match f with
  | Missing => Some "full-book"
  | Given m =>
      if bool_decide (m = "full-book") || bool_decide (m = "selected-text")
      then Some m else None
  end.

Definition field_selected_text (data_query_mode : option string)
    (f : Field (option string)) : option (option string) :=
  match f with
  | Missing => Some None
  | Given None =>
      match validate_selected_text data_query_mode None with
      | inr v => Some v | inl _ => None
      end
  | Given (Some t) =>
      if (20 <=? PyStr.len t)%nat && (PyStr.len t <=? 2000)%nat then
        match validate_selected_text data_query_mode (Some t) with
        | inr v => Some v | inl _ => None
        end
      else None
  end.

Definition field_max_results (f : Field Z) : option Z :=
  match f with
  | Missing => Some 5
  | Given n => if (1 <=? n) && (n <=? 20) then Some n else None
  end.

(** The [QueryRequest(...)] constructor. *)
Definition QueryRequest_new (i : QueryInput) : Err + QueryRequest :=
  let qt := field_query_text (in_query_text i) in
  let qm := field_query_mode (in_query_mode i) in
  let st := field_selected_text qm (in_selected_text i) in
  let mr := field_max_results (in_max_results i) in
  match qt, qm, st, mr with
  | Some qt, Some qm, Some st, Some mr =>
      inr {| query_text := qt; query_mode := qm; session_id := in_session_id i;
             selected_text := st; max_results := mr |}
  | _, _, _, _ => inl (ValidationError "QueryRequest")
  end.

(* ===================================================================== *)
(** * Stable descending sort ([list.sort(key=..., reverse=True)]) *)
(* ===================================================================== *)

Section StableSort.
Context {A : Type} (key : A -> Q).

(** [x] stood before every element of [l]: it stays before the first
    element whose key is not larger. *)
Fixpoint insert_desc (x : A) (l : list A) : list A :=
  match l with
  | [] => [x]
  | y :: l' =>
      if Qle_bool (key y) (key x) then x :: y :: l'
      else y :: insert_desc x l'
  end.

Definition sort_desc (l : list A) : list A := fold_right insert_desc [] l.
End StableSort.

(* ===================================================================== *)
(** * Selection handler ([backend/services/selection_handler.py]) *)
(* ===================================================================== *)

Record SelectionHandler : Type := { similarity_threshold : Q }.

Definition SelectionHandler_default : SelectionHandler :=
  {| similarity_threshold := 3 # 10 |}.

Definition stop_words : gset string :=
  list_to_set
    ["the"; "a"; "an"; "and"; "or"; "but"; "in"; "on"; "at"; "to"; "for";
     "of"; "with"; "by"; "from"; "as"; "is"; "was"; "are"; "were"; "been";
     "be"; "have"; "has"; "had"; "do"; "does"; "did"; "will"; "would";
     "could"; "should"; "may"; "might"; "can"; "this"; "that"; "these";
     "those"; "i"; "you"; "he"; "she"; "it"; "we"; "they"; "what"; "which";
     "who"; "when"; "where"; "why"; "how"].

(** [set(text.lower().split())] *)
Definition token_set (text : string) : gset string :=
  list_to_set (PyStr.split (PyStr.lower text)).

(** [SelectionHandler._extract_keywords] *)
Definition _extract_keywords (text : string) : gset string :=
  let words := PyStr.split (PyStr.lower text) in
  list_to_set
    (List.filter
       (fun word => negb (bool_decide (word ∈ stop_words)) && (2 <? PyStr.len word)%nat)
       words).

(** [SelectionHandler._calculate_overlap_score] *)
Definition _calculate_overlap_score (chunk_text : string)
    (selected_keywords : gset string) : Q :=
  if bool_decide (selected_keywords = ∅) then 0
  else
    let chunk_words := token_set chunk_text in
    let intersection := size (chunk_words ∩ selected_keywords) in
    let union := size (chunk_words ∪ selected_keywords) in
    if (union =? 0)%nat then 0
    else inject_Z (Z.of_nat intersection) / inject_Z (Z.of_nat union).

(** One iteration of the scoring loop: [{**chunk, "combined_score": ...,
    "text_overlap": ...}]. *)
Definition score_chunk (selected_words : gset string) (chunk : Chunk) : Chunk :=
  let chunk_text := payload_get (payload chunk) "chunk_text" "" in
  let overlap_score := _calculate_overlap_score chunk_text selected_words in
  let vector_score := score chunk in
  let combined := (vector_score * (6 # 10) + overlap_score * (4 # 10))%Q in
  {| chunk_id := chunk_id chunk; score := score chunk; payload := payload chunk;
     combined_score := Some combined; text_overlap := Some overlap_score |}.

(** [x["combined_score"]] and [x["text_overlap"]] on a scored chunk. *)
Definition combined_of (c : Chunk) : Q := default 0%Q (combined_score c).
Definition overlap_of (c : Chunk) : Q := default 0%Q (text_overlap c).

Definition meets_threshold (h : SelectionHandler) (c : Chunk) : bool :=
  Qle_bool (similarity_threshold h) (overlap_of c).

Definition is_nil {A} (l : list A) : bool :=
  match l with [] => true | _ => false end.

(** [SelectionHandler.filter_chunks_by_selection] *)
Definition filter_chunks_by_selection (h : SelectionHandler)
    (retrieved_chunks : list Chunk) (selected_text : string) (max_results : Z)
    : list Chunk :=
  if bool_decide (selected_text = "") || is_nil retrieved_chunks
  then PySeq.prefix retrieved_chunks max_results
  else
    let selected_words := _extract_keywords selected_text in
    let scored_chunks := List.map (score_chunk selected_words) retrieved_chunks in
    let scored_chunks := sort_desc combined_of scored_chunks in
    let filtered_chunks := List.filter (meets_threshold h) scored_chunks in
    let filtered_chunks :=
      if is_nil filtered_chunks && negb (is_nil scored_chunks)
      then PySeq.prefix scored_chunks max_results
      else filtered_chunks in
    PySeq.prefix filtered_chunks max_results.

(** [SelectionHandler.enhance_context_with_selection] *)
Definition enhance_context_with_selection (base_context selected_text : string)
    : string :=
  let nl := PyStr.newline in
  "HIGHLIGHTED PASSAGE (User's Focus):" +:+ nl +:+ selected_text +:+ nl +:+ nl
  +:+ "---" +:+ nl +:+ nl +:+ "RELATED CONTENT FROM TEXTBOOK:" +:+ nl
  +:+ base_context.

(* ===================================================================== *)
(** * Remote calls and their trace *)
(* ===================================================================== *)

(** One request sent to a remote capability. *)
Inductive Call : Type :=
| CallEmbed (input : string)
| CallSearch (query_vector : list Q) (limit : Z) (score_threshold : option Q)
| CallComplete (system_prompt user_message : string) (max_tokens : Z).

(** A computation that may raise and that appends the remote calls it makes
    to the trace it is given. *)
Definition M (A : Type) : Type := list Call -> (Err + A) * list Call.

Definition ret {A} (a : A) : M A := fun t => (inr a, t).

Definition raise {A} (e : Err) : M A := fun t => (inl e, t).

Definition bind {A B} (m : M A) (k : A -> M B) : M B :=
  fun t =>
    match m t with
    | (inl e, t') => (inl e, t')
    | (inr a, t') => k a t'
    end.

Definition lift {A} (r : Err + A) : M A :=
  match r with inl e => raise e | inr a => ret a end.

(** Send [c] and receive [answer]. *)
Definition remote {A} (c : Call) (answer : A) : M A :=
  fun t => (inr answer, t ++ [c]).

Notation "'let*' x ':=' m 'in' k" := (bind m (fun x => k))
  (at level 10, x name, m at level 100, k at level 200).

Fixpoint mapM {A B} (f : A -> M B) (l : list A) : M (list B) :=
  match l with
  | [] => ret []
  | x :: l' => let* y := f x in let* ys := mapM f l' in ret (y :: ys)
  end.

(** Run from the empty trace. *)
Definition run {A} (m : M A) : (Err + A) * list Call := m [].

(** The result handed back to the ChatKit session by
    [handle_search_textbook]: the answer its success dict is formatted from,
    or the error status. *)
Inductive ToolResult : Type :=
| ToolSuccess (answer : QueryResponse)
| ToolError (e : Err).

Section Pipeline.

(** The remote capabilities: the embedding provider, the vector index
    ([query_points] with payloads), and the chat-completion provider.  A
    provider that fails raises in the source and ends the request; the
    functions below describe the requests that are answered. *)
Variable embed_remote : string -> list Q.
Variable search_remote : list Q -> Z -> option Q -> list Chunk.
Variable complete_remote : string -> string -> Z -> string.

(** [f"{score:.2f}"], and the two system prompts of the response
    generator; their text plays no role below. *)
Variable format_2f : Q -> string.
Variable default_system_prompt : string.
Variable selected_text_system_prompt : string.

(** ** Embedder and vector store adapters *)

(** [EmbeddingGenerator.generate_embedding] *)
Definition generate_embedding (text : string) : M (list Q) :=
  let text := PyStr.replace_char "010" " " text in
  remote (CallEmbed text) (embed_remote text).

(** [VectorStore.search] (no metadata filter is ever passed here). *)
Definition search (query_vector : list Q) (limit : Z)
    (score_threshold : option Q) : M (list Chunk) :=
  remote (CallSearch query_vector limit score_threshold)
         (search_remote query_vector limit score_threshold).

(** ** Retrieval service ([backend/services/retrieval_service.py]) *)

(** [RetrievalService.retrieve_relevant_chunks] *)
Definition retrieve_relevant_chunks (query_text : string) (max_results : Z)
    (score_threshold : Q) : M (list Chunk) :=
  let* query_embedding := generate_embedding query_text in
  search query_embedding max_results (Some score_threshold).

(** [[(q + s) / 2 for q, s in zip(query_embedding, selected_embedding)]] *)
Definition blend (query_embedding selected_embedding : list Q) : list Q :=
  List.map (fun qs => ((fst qs + snd qs) / 2)%Q)
           (combine query_embedding selected_embedding).

(** The lexical test of the filtering loop: [overlap > 3]. *)
Definition shares_words (selected_text : string) (result : Chunk) : bool :=
  let chunk_text := payload_get (payload result) "chunk_text" "" in
  let selected_words := token_set selected_text in
  let chunk_words := token_set chunk_text in
  let overlap := size (selected_words ∩ chunk_words) in
  (3 <? overlap)%nat.

(** [RetrievalService.retrieve_for_selected_text] *)
Definition retrieve_for_selected_text (query_text selected_text : string)
    (max_results : Z) : M (list Chunk) :=
  let* selected_embedding := generate_embedding selected_text in
  let* query_embedding := generate_embedding query_text in
  let combined_embedding := blend query_embedding selected_embedding in
  let* results := search combined_embedding max_results (Some (6 # 10)) in
  let filtered_results := List.filter (shares_words selected_text) results in
  ret (PySeq.prefix filtered_results max_results).

(** [RetrievalService.format_context_for_llm] *)
Definition format_context_for_llm (retrieved_chunks : list Chunk) : string :=
  match retrieved_chunks with
  | [] => ""
  | _ =>
      let nl := PyStr.newline in
      let part (i : nat) (chunk : Chunk) : string :=
        let p := payload chunk in
        "[Source " +:+ pretty (S i) +:+ ": "
        +:+ payload_get p "chapter_title" "Unknown" +:+ " - "
        +:+ payload_get p "section_type" "Unknown" +:+ " (relevance: "
        +:+ format_2f (score chunk) +:+ ")]" +:+ nl
        +:+ payload_get p "chunk_text" "" +:+ nl in
      PyStr.join (nl +:+ "---" +:+ nl) (imap part retrieved_chunks)
  end.

(** ** Response generator ([backend/services/response_generator.py]) *)

Definition uncertainty_phrases : list string :=
  ["I don't have enough information"; "I'm not sure"; "unclear";
   "cannot answer"].

(** [ResponseGenerator._estimate_confidence] *)
Definition _estimate_confidence (response context : string) : Q :=
  let confidence := (5 # 10)%Q in
  let confidence :=
    if PyStr.contains "Source" response || PyStr.contains "According to" response
    then (confidence + (2 # 10))%Q else confidence in
  let confidence :=
    if existsb (fun phrase => PyStr.contains (PyStr.lower phrase) (PyStr.lower response))
               uncertainty_phrases
    then (confidence - (3 # 10))%Q else confidence in
  let confidence :=
    if negb (bool_decide (context = "")) && (500 <? PyStr.len context)%nat
    then (confidence + (1 # 10))%Q else confidence in
  Qmax 0 (Qmin 1 confidence).

(** [ResponseGenerator._build_user_message] *)
Definition _build_user_message (query context : string) : string :=
  let nl := PyStr.newline in
  match context with
  | EmptyString =>
      "Question: " +:+ query +:+ nl +:+ nl
      +:+ "Context: No relevant information found in the textbook." +:+ nl +:+ nl
      +:+ "Please answer based on the available context."
  | _ =>
      "Context from textbook:" +:+ nl +:+ nl +:+ context +:+ nl +:+ nl
      +:+ "---" +:+ nl +:+ nl +:+ "Question: " +:+ query +:+ nl +:+ nl
      +:+ "Please answer the question using ONLY the information from the context above. Cite specific sources when possible."
  end.

(** [ResponseGenerator.generate_response] with the default prompt. *)
Definition generate_response (query context : string) : M (string * Q) :=
  let user_message := _build_user_message query context in
  let* response_text :=
    remote (CallComplete default_system_prompt user_message 1000)
           (complete_remote default_system_prompt user_message 1000) in
  ret (response_text, _estimate_confidence response_text context).

(** [ResponseGenerator.generate_response_with_selected_text] *)
Definition generate_response_with_selected_text
    (query context selected_text : string) : M (string * Q) :=
  let nl := PyStr.newline in
  let user_message :=
    "Highlighted passage:" +:+ nl +:+ selected_text +:+ nl +:+ nl
    +:+ "---" +:+ nl +:+ nl +:+ "Additional context from textbook:" +:+ nl
    +:+ context +:+ nl +:+ nl +:+ "---" +:+ nl +:+ nl
    +:+ "Question: " +:+ query +:+ nl +:+ nl
    +:+ "Please answer the question focusing primarily on the highlighted passage above." in
  let* response_text :=
    remote (CallComplete selected_text_system_prompt user_message 800)
           (complete_remote selected_text_system_prompt user_message 800) in
  ret (response_text, _estimate_confidence response_text context).

(** ** RAG orchestrator ([backend/services/rag_service.py]) *)

(** The citation built for one chunk, before the constructor's checks. *)
Definition citation_of (chunk : Chunk) : SourceCitation :=
  let p := payload chunk in
  {| chapter_id := payload_get p "chapter_id" "unknown";
     chapter_title := payload_get p "chapter_title" "Unknown Chapter";
     module_id := payload_get p "module_id" "unknown-module";
     section_type := payload_get p "section_type" "general";
     file_path := payload_get p "file_path" "";
     citation_text := payload_get p "chunk_text" "";
     relevance_score := score chunk |}.

(** [RAGService._extract_source_citations] *)
Definition _extract_source_citations (retrieved_chunks : list Chunk)
    : M (list SourceCitation) :=
  mapM (fun chunk => lift (SourceCitation_new (citation_of chunk))) retrieved_chunks.

(** [request.query_mode == "selected-text" and request.selected_text] *)
Definition selection_of (request : QueryRequest) : option string :=
  if bool_decide (query_mode request = "selected-text") then
    match selected_text request with
    | Some (String _ _ as t) => Some t
    | _ => None
    end
  else None.

(** Step 1 of [process_query]: the final result list. *)
Definition retrieve_step (request : QueryRequest) : M (list Chunk) :=
  match selection_of request with
  | Some sel =>
      let* initial_chunks :=
        retrieve_for_selected_text (query_text request) sel (max_results request * 2) in
      ret (filter_chunks_by_selection SelectionHandler_default
             initial_chunks sel (max_results request))
  | None =>
      retrieve_relevant_chunks (query_text request) (max_results request) (7 # 10)
  end.

(** [RAGService.process_query] *)
Definition process_query (request : QueryRequest) : M QueryResponse :=
  let* retrieved_chunks := retrieve_step request in
  let base_context := format_context_for_llm retrieved_chunks in
  let context :=
    match selection_of request with
    | Some sel => enhance_context_with_selection base_context sel
    | None => base_context
    end in
  let* generated :=
    match selection_of request with
    | Some sel => generate_response_with_selected_text (query_text request) context sel
    | None => generate_response (query_text request) context
    end in
  let* source_citations := _extract_source_citations retrieved_chunks in
  lift (QueryResponse_new
          {| response_text := fst generated;
             source_citations := source_citations;
             confidence_score := snd generated;
             response_session_id := session_id request;
             retrieved_chunks := PySeq.len retrieved_chunks |}).

(** ** ChatKit tool handler ([backend/services/chatkit_tools.py]) *)

(** [ChatKitToolHandler.handle_search_textbook]: the request is built
    first; whatever is raised is turned into an error status. *)
Definition handle_search_textbook (query : string)
    (selected : option string) (max_results : Z) : M ToolResult :=
  let truthy := match selected with Some (String _ _) => true | _ => false end in
  let query_mode := if truthy then "selected-text" else "full-book" in
  match QueryRequest_new
          {| in_query_text := query; in_query_mode := Given query_mode;
             in_session_id := None; in_selected_text := Given selected;
             in_max_results := Given max_results |} with
  | inl e => ret (ToolError e)
  | inr request =>
      fun t =>
        match process_query request t with
        | (inl e, t') => (inr (ToolError e), t')
        | (inr answer, t') => (inr (ToolSuccess answer), t')
        end
  end.

End Pipeline.

(* ===================================================================== *)
(** * Specification vocabulary and sample inputs *)
(* ===================================================================== *)

(** Empty or whitespace-only text. *)
Fixpoint blank (s : string) : bool :=
  match s with
  | EmptyString => true
  | String c s' => PyStr.isspace c && blank s'
  end.

(** The windows the loop visits from [start] on a text of [n] words: full
    windows of [chunk_size] words, each starting [overlap_size] words before
    the end of the previous one, closed by a window that ends at [n]. *)
Inductive window_chain (c : TextChunker) (n : Z) : Z -> list (Z * Z) -> Prop :=
| chain_last (s : Z) :
    s < n -> n <= s + chunk_size c -> window_chain c n s [(s, n)]
| chain_step (s : Z) (ws : list (Z * Z)) :
    s + chunk_size c < n ->
    window_chain c n (s + chunk_size c - overlap_size c) ws ->
    window_chain c n s ((s, s + chunk_size c) :: ws).

(** The same chunker with the boundary flag set to [flag]. *)
Definition with_boundaries (c : TextChunker) (flag : bool) : TextChunker :=
  {| chunk_size := chunk_size c; overlap_size := overlap_size c;
     respect_boundaries := flag |}.

Definition chunker_3_1 : TextChunker :=
  {| chunk_size := 3; overlap_size := 1; respect_boundaries := true |}.

Definition seven_words : string := "one two three four five six seven".

(** Every character of [s] satisfies [p]. *)
Fixpoint all_chars (p : ascii -> bool) (s : string) : bool :=
  match s with
  | EmptyString => true
  | String c s' => p c && all_chars p s'
  end.

Definition not_space (c : ascii) : bool := negb (PyStr.isspace c).

Definition not_newline (c : ascii) : bool := negb (Ascii.eqb c "010").

(** A text with two paragraph breaks, the first in its front half. *)
Definition three_paragraphs : string :=
  "a" +:+ paragraph_break +:+ "bcdefgh" +:+ paragraph_break +:+ "x".

Definition chunker_4_1 : TextChunker :=
  {| chunk_size := 4; overlap_size := 1; respect_boundaries := true |}.

(** Five words, with a paragraph break between the third and the fourth. *)
Definition two_paragraphs : string :=
  "aaa bbb ccc" +:+ paragraph_break +:+ "ddd eee".

(** [l] is in descending order of [key]. *)
Definition sorted_desc {A} (key : A -> Q) (l : list A) : Prop :=
  StronglySorted (fun a b => (key b <= key a)%Q) l.

(** The elements whose key equals [k], in list order. *)
Definition with_key {A} (key : A -> Q) (k : Q) (l : list A) : list A :=
  List.filter (fun a => Qeq_bool (key a) k) l.

(** Jaccard similarity of two token sets, 0 when both are empty. *)
Definition jaccard (a b : gset string) : Q :=
  if (size (a ∪ b) =? 0)%nat then 0
  else inject_Z (Z.of_nat (size (a ∩ b))) / inject_Z (Z.of_nat (size (a ∪ b))).

(** The chunk text a result carries. *)
Definition chunk_text_of (c : Chunk) : string :=
  payload_get (payload c) "chunk_text" "".

(** The ranking of [filter_chunks_by_selection] before filtering. *)
Definition ranked_chunks (retrieved : list Chunk) (sel : string) : list Chunk :=
  sort_desc combined_of (List.map (score_chunk (_extract_keywords sel)) retrieved).

(** The combined score the specification assigns to a candidate. *)
Definition combined_spec (sel : string) (c : Chunk) : Q :=
  ((6 # 10) * score c
   + (4 # 10) * jaccard (token_set (chunk_text_of c)) (_extract_keywords sel))%Q.

(** A search result with the given id, score and chunk text. *)
Definition tchunk (i : Z) (s : Q) (t : string) : Chunk :=
  {| chunk_id := i; score := s; payload := {[ "chunk_text" := t ]};
     combined_score := None; text_overlap := None |}.

(** A selection of twenty words. *)
Definition sel20 : string :=
  "alpha beta gamma delta epsilon zeta eta theta iota kappa lambda mu nu xi omicron pi rho sigma tau upsilon".

Definition two_candidates : list Chunk :=
  [tchunk 1 (7 # 10) "alpha beta gamma delta other words";
   tchunk 2 (9 # 10) "alpha beta gamma delta epsilon zeta eta theta iota kappa"].

Definition off_topic_candidates : list Chunk :=
  [tchunk 1 (7 # 10) "alpha beta gamma delta other words";
   tchunk 2 (9 # 10) "nothing in common"].


(** [generate_embedding] sends the text with newlines replaced by spaces. *)
Definition embedding_input (text : string) : string :=
  PyStr.replace_char "010" " " text.

Definition demo_embed (text : string) : list Q := [1 # 2; 1 # 3].

Definition demo_search (v : list Q) (limit : Z) (thr : option Q) : list Chunk :=
  two_candidates.

Definition demo_complete (system user : string) (max_tokens : Z) : string :=
  "According to Source 1, the passage is about letters.".

Definition demo_format (s : Q) : string := "0.90".

Definition demo_request : QueryRequest :=
  {| query_text := "what is this about?"; query_mode := "selected-text";
     session_id := None; selected_text := Some sel20; max_results := 3 |}.

(** The result list of step 1 on [demo_request]: the one candidate that the
    selection handler keeps. *)
Definition demo_final : list Chunk :=
  filter_chunks_by_selection SelectionHandler_default two_candidates sel20 3.

Definition demo_trace : list Call :=
  [CallEmbed sel20; CallEmbed "what is this about?";
   CallSearch (blend [1 # 2; 1 # 3] [1 # 2; 1 # 3]) 6 (Some (6 # 10))].

(* ===================================================================== *)
(** * Further specification vocabulary *)
(* ===================================================================== *)

(** [s] is [p] followed by something. *)
Definition is_prefix_of (p s : string) : Prop := exists tail, s = p +:+ tail.

(** A word as [str.split] produces them: not empty, no whitespace. *)
Definition clean_word (w : string) : Prop :=
  w <> "" /\ all_chars not_space w = true.

(** The word list rebuilt from the word lists of consecutive chunks: the
    first one whole, every later one without its first [overlap] words. *)
Definition rebuild_words (overlap : nat) (chunks : list (list string)) : list string :=
  match chunks with
  | [] => []
  | first :: rest => first ++ List.concat (List.map (skipn overlap) rest)
  end.

(* ===================================================================== *)
(** * Chunker, continued ([backend/ingestion/chunker.py]) *)
(* ===================================================================== *)

(** [enumerate(l)] *)
Definition enumerate {A} (l : list A) : list (nat * A) :=
  combine (seq 0 (length l)) l.

(** [TextChunker.chunk_document_sections].  The [sections] dict is given as
    its items in iteration order; [None] when some [chunk_text] call runs
    out of fuel. *)
Fixpoint chunk_document_sections (c : TextChunker) (fuel : nat)
    (sections : list (string * string)) : option (list (string * string * nat)) :=
  match sections with
  | [] => Some []
  | (section_type, content) :: rest =>
      match chunk_text c fuel content with
      | None => None
      | Some chunks =>
          option_map
            (app (List.map (fun ic => (section_type, snd ic, fst ic)) (enumerate chunks)))
            (chunk_document_sections c fuel rest)
      end
  end.

(** The number of chunks [chunk_text] makes of [n] words. *)
Definition chunk_count (c : TextChunker) (n : Z) : Z :=
  if n =? 0 then 0
  else if n <=? chunk_size c then 1
  else (n - chunk_size c + (chunk_size c - overlap_size c) - 1)
         / (chunk_size c - overlap_size c) + 1.

(* ===================================================================== *)
(** * Selection handler, continued ([backend/services/selection_handler.py]) *)
(* ===================================================================== *)

(** [SelectionHandler.validate_selection_focus] *)
Definition validate_selection_focus (response_text selected_text : string) : Q :=
  let selected_keywords := _extract_keywords selected_text in
  let response_words := token_set response_text in
  if bool_decide (selected_keywords = ∅) then 5 # 10
  else
    let keywords_in_response := size (selected_keywords ∩ response_words) in
    let focus_score :=
      (inject_Z (Z.of_nat keywords_in_response)
       / inject_Z (Z.of_nat (size selected_keywords)))%Q in
    Qmin 1 focus_score.

(** What a search result is, apart from the scores the handler adds. *)
Definition chunk_core (c : Chunk) : Z * Q * gmap string string :=
  (chunk_id c, score c, payload c).

(** The character [c] is unchanged by [str.lower]. *)
Definition is_lower (c : ascii) : bool := Ascii.eqb (PyStr.char_lower c) c.

(* ===================================================================== *)
(** * Query route ([backend/api/routes/query.py]) *)
(* ===================================================================== *)

(** What the body of the route's [try] raises: the guard's
    [HTTPException], or what [RAGService.process_query] raises, a
    validation error of pydantic, which is a [ValueError]. *)
Inductive Raised : Type :=
| HTTPException (status_code : Z)
| ValueError (e : Err).

Section Route.
Variable embed_remote : string -> list Q.
Variable search_remote : list Q -> Z -> option Q -> list Chunk.
Variable complete_remote : string -> string -> Z -> string.
Variable format_2f : Q -> string.
Variable default_system_prompt : string.
Variable selected_text_system_prompt : string.

(** The body of the [try] block of the route's [process_query]. *)
Definition route_body (request : QueryRequest)
    : list Call -> (Raised + QueryResponse) * list Call :=
  fun t =>
    let no_selection :=
      match selected_text request with Some (String _ _) => false | _ => true end in
    if bool_decide (query_mode request = "selected-text") && no_selection
    then (inl (HTTPException 400), t)
    else
      match process_query embed_remote search_remote complete_remote format_2f
              default_system_prompt selected_text_system_prompt request t with
      | (inl e, t') => (inl (ValueError e), t')
      | (inr response, t') => (inr response, t')
      end.

(** The route [process_query] of [POST /query], given the validated request:
    the HTTP status and the body of a success.  [except ValueError] answers
    400; [except Exception], which also catches the guard's own
    [HTTPException], answers 500. *)
Definition route_process_query (request : QueryRequest)
    : list Call -> (Z * option QueryResponse) * list Call :=
  fun t =>
    match route_body request t with
    | (inr response, t') => ((200, Some response), t')
    | (inl (ValueError _), t') => ((400, None), t')
    | (inl _, t') => ((500, None), t')
    end.

End Route.

(* ===================================================================== *)
(** * Ingestion data ([backend/models/embedding.py]) *)
(* ===================================================================== *)

(** What the ingestion code raises: [range] with a zero step, the
    [ValueError] of [upsert_chunks], a validation error of a model, an
    exception of the Qdrant client. *)
Inductive IngestError : Type :=
| RangeStepZero
| NoEmbedding (chunk : string)
| Invalid (model : string)
| ClientError (message : string).

Module Embedding.

Record EmbeddingMetadata : Type := {
  chapter_id : string;
  chapter_title : string;
  module_id : string;
  section_type : string;
  chunk_index : Z;
  file_path : string;
  topics : list string;
  chunk_text : string;
  word_count : option Z
}.

Record DocumentChunk : Type := {
  chunk_id : string;
  text : string;
  embedding : option (list Q);
  metadata : EmbeddingMetadata
}.

(** The [EmbeddingMetadata(...)] constructor: [chunk_index >= 0],
    [chunk_text] of at least one character, [word_count >= 0] when given. *)
Definition EmbeddingMetadata_new (m : EmbeddingMetadata)
    : IngestError + EmbeddingMetadata :=
  if (chunk_index m <? 0)
     || (PyStr.len (chunk_text m) <? 1)%nat
     || match word_count m with Some n => n <? 0 | None => false end
  then inl (Invalid "EmbeddingMetadata") else inr m.

(** The [DocumentChunk(...)] constructor, given validated metadata: [text]
    of at least one character. *)
Definition DocumentChunk_new (d : DocumentChunk) : IngestError + DocumentChunk :=
  if (PyStr.len (text d) <? 1)%nat then inl (Invalid "DocumentChunk") else inr d.

(** [chunk.embedding = embedding] *)
Definition set_embedding (d : DocumentChunk) (e : list Q) : DocumentChunk :=
  {| chunk_id := chunk_id d; text := text d; embedding := Some e;
     metadata := metadata d |}.

End Embedding.

(** A value stored in the payload of a point. *)
Inductive PayloadValue : Type :=
| PStr (s : string)
| PInt (n : Z)
| PNone
| PList (l : list string).

Module Qdrant.

Record PointStruct : Type := {
  id : Z;
  vector : list Q;
  payload : gmap string PayloadValue
}.

End Qdrant.

(** [range(start, stop, step)] *)
Definition py_range (start stop step : Z) : IngestError + list Z :=
  if step =? 0 then inl RangeStepZero
  else
    let count :=
      if 0 <? step
      then (if start <? stop then (stop - start - 1) / step + 1 else 0)
      else (if stop <? start then (start - stop - 1) / (- step) + 1 else 0) in
    inr (List.map (fun k => start + Z.of_nat k * step) (seq 0 (Z.to_nat count))).

(** The slice that the loop [for i in range(0, len(l), size)] takes at its
    iteration [k]: [l[i : i + size]] for [i = k * size]. *)
Definition batch_at {A} (l : list A) (size : Z) (k : nat) : list A :=
  PySeq.slice l (0 + Z.of_nat k * size) (0 + Z.of_nat k * size + size).

(* ===================================================================== *)
(** * Embedder, continued ([backend/ingestion/embedder.py]) *)
(* ===================================================================== *)

Section Embedder.

(** The embeddings endpoint: the embeddings in [response.data] for one
    request with the given inputs. *)
Variable embed_batch_remote : list string -> list (list Q).

(** [EmbeddingGenerator.generate_embeddings_async] (and [_sync], which runs
    it), with [self.batch_size] as argument.  The second component lists
    the inputs of the requests made, in order. *)
Definition generate_embeddings_async (batch_size : Z) (texts : list string)
    : (IngestError + list (list Q)) * list (list string) :=
  match py_range 0 (PySeq.len texts) batch_size with
  | inl e => (inl e, [])
  | inr starts =>
      let body (state : list (list Q) * list (list string)) (i : Z) :=
        let batch := PySeq.slice texts i (i + batch_size) in
        let cleaned_batch := List.map (PyStr.replace_char "010" " ") batch in
        let batch_embeddings := embed_batch_remote cleaned_batch in
        (fst state ++ batch_embeddings, snd state ++ [cleaned_batch]) in
      let final := fold_left body starts ([], []) in
      (inr (fst final), snd final)
  end.

End Embedder.

(* ===================================================================== *)
(** * Vector store, continued ([backend/ingestion/vector_store.py]) *)
(* ===================================================================== *)

Section VectorStore.

(** [hash] on strings: salted per process, so left open. *)
Variable py_hash : string -> Z.

(** The point built for one chunk that has an embedding. *)
Definition point_of (chunk : Embedding.DocumentChunk) (embedding : list Q)
    : Qdrant.PointStruct :=
  let m := Embedding.metadata chunk in
  {| Qdrant.id := py_hash (Embedding.chunk_id chunk) mod 2 ^ 63;
     Qdrant.vector := embedding;
     Qdrant.payload :=
       <[ "chapter_id" := PStr (Embedding.chapter_id m) ]>
       (<[ "chapter_title" := PStr (Embedding.chapter_title m) ]>
       (<[ "module_id" := PStr (Embedding.module_id m) ]>
       (<[ "section_type" := PStr (Embedding.section_type m) ]>
       (<[ "chunk_index" := PInt (Embedding.chunk_index m) ]>
       (<[ "file_path" := PStr (Embedding.file_path m) ]>
       (<[ "topics" := PList (Embedding.topics m) ]>
       (<[ "chunk_text" := PStr (Embedding.chunk_text m) ]>
       (<[ "word_count" := match Embedding.word_count m with
                           | Some n => PInt n | None => PNone end ]>
        ∅)))))))) |}.

(** The first loop of [upsert_chunks]: it raises at the first chunk
    without an embedding. *)
Fixpoint build_points (chunks : list Embedding.DocumentChunk)
    : IngestError + list Qdrant.PointStruct :=
  match chunks with
  | [] => inr []
  | chunk :: rest =>
      match Embedding.embedding chunk with
      | None => inl (NoEmbedding (Embedding.chunk_id chunk))
      | Some e =>
          match build_points rest with
          | inl err => inl err
          | inr points => inr (point_of chunk e :: points)
          end
      end
  end.

(** [client.upsert] for one batch: [None] when the request is answered,
    the exception's message when the client raises. *)
Variable upsert_remote : list Qdrant.PointStruct -> option string.

(** The second loop of [upsert_chunks], over the batches still to send: an
    exception of the client ends it, and the batches already answered stay
    stored.  The second component lists the batches stored, in order. *)
Fixpoint upsert_batches (batches : list (list Qdrant.PointStruct))
    : (IngestError + unit) * list (list Qdrant.PointStruct) :=
  match batches with
  | [] => (inr tt, [])
  | batch :: rest =>
      match upsert_remote batch with
      | Some message => (inl (ClientError message), [])
      | None =>
          let (result, stored) := upsert_batches rest in
          (result, batch :: stored)
      end
  end.

(** [VectorStore.upsert_chunks]; the second component lists the batches
    that [client.upsert] has stored, in order. *)
Definition upsert_chunks (chunks : list Embedding.DocumentChunk)
    : (IngestError + unit) * list (list Qdrant.PointStruct) :=
  match build_points chunks with
  | inl e => (inl e, [])
  | inr points =>
      let batch_size := 100 in
      match py_range 0 (PySeq.len points) batch_size with
      | inl e => (inl e, [])
      | inr starts =>
          upsert_batches
            (List.map (fun i => PySeq.slice points i (i + batch_size)) starts)
      end
  end.

End VectorStore.

(** The payload of a search hit as the query side reads it: its string
    fields. *)
Definition payload_strings (p : gmap string PayloadValue) : gmap string string :=
  omap (fun v => match v with PStr s => Some s | _ => None end) p.

(** The search hit that [VectorStore.search] builds for a stored point that
    the index returns with the given score. *)
Definition hit_of (point : Qdrant.PointStruct) (score : Q) : Chunk :=
  {| chunk_id := Qdrant.id point; score := score;
     payload := payload_strings (Qdrant.payload point);
     combined_score := None; text_overlap := None |}.

(* ===================================================================== *)
(** * Ingestion script ([backend/scripts/ingest_content.py]) *)
(* ===================================================================== *)

Module Markdown.

(** What [main] reads of a [MarkdownDocument]. *)
Record MarkdownDocument : Type := {
  file_path : string;
  content : string;
  title : string;
  module_id : string;
  chapter_id : string
}.

End Markdown.

(** The arguments that step 2 of [main] gives to [EmbeddingMetadata] for one
    item of [section_chunks]. *)
Definition metadata_of (doc : Markdown.MarkdownDocument)
    (item : string * string * nat) : Embedding.EmbeddingMetadata :=
  let '(section_type, chunk_text, chunk_idx) := item in
  {| Embedding.chapter_id := Markdown.chapter_id doc;
     Embedding.chapter_title := Markdown.title doc;
     Embedding.module_id := Markdown.module_id doc;
     Embedding.section_type := section_type;
     Embedding.chunk_index := Z.of_nat chunk_idx;
     Embedding.file_path := Markdown.file_path doc;
     Embedding.topics := [];
     Embedding.chunk_text := chunk_text;
     Embedding.word_count := Some (get_word_count chunk_text) |}.

(** The arguments it gives to [DocumentChunk]. *)
Definition chunk_of (doc : Markdown.MarkdownDocument)
    (item : string * string * nat) (metadata : Embedding.EmbeddingMetadata)
    : Embedding.DocumentChunk :=
  let '(section_type, chunk_text, chunk_idx) := item in
  {| Embedding.chunk_id :=
       Markdown.chapter_id doc +:+ "_" +:+ section_type +:+ "_" +:+ pretty chunk_idx;
     Embedding.text := chunk_text;
     Embedding.embedding := None;
     Embedding.metadata := metadata |}.

(** The inner loop of step 2 of [main]: one chunk per item; a constructor
    that raises ends the script. *)
Fixpoint make_chunks (doc : Markdown.MarkdownDocument)
    (section_chunks : list (string * string * nat))
    : IngestError + list Embedding.DocumentChunk :=
  match section_chunks with
  | [] => inr []
  | item :: rest =>
      match Embedding.EmbeddingMetadata_new (metadata_of doc item) with
      | inl e => inl e
      | inr metadata =>
          match Embedding.DocumentChunk_new (chunk_of doc item metadata) with
          | inl e => inl e
          | inr chunk =>
              match make_chunks doc rest with
              | inl e => inl e
              | inr chunks => inr (chunk :: chunks)
              end
          end
      end
  end.

(** [if not sections: sections = {"general": doc.content}] *)
Definition sections_or_general (doc : Markdown.MarkdownDocument)
    (sections : list (string * string)) : list (string * string) :=
  match sections with
  | [] => [("general", Markdown.content doc)]
  | _ => sections
  end.

(** Step 2 of [main] for one document; [sections] is what
    [doc.get_sections()] returned, in iteration order.  [None] when a
    [chunk_text] call runs out of fuel. *)
Definition document_chunks (chunker : TextChunker) (fuel : nat)
    (doc : Markdown.MarkdownDocument) (sections : list (string * string))
    : option (IngestError + list Embedding.DocumentChunk) :=
  option_map (make_chunks doc)
    (chunk_document_sections chunker fuel (sections_or_general doc sections)).

(** [for chunk, embedding in zip(all_chunks, embeddings):
    chunk.embedding = embedding] *)
Fixpoint assign_embeddings (all_chunks : list Embedding.DocumentChunk)
    (embeddings : list (list Q)) : list Embedding.DocumentChunk :=
  match all_chunks, embeddings with
  | chunk :: chunks, embedding :: rest =>
      Embedding.set_embedding chunk embedding :: assign_embeddings chunks rest
  | _, _ => all_chunks
  end.

Section IngestScript.
Variable embed_batch_remote : list string -> list (list Q).
Variable py_hash : string -> Z.

(** Steps 3 and 4 of [main], with the embedder's default batch size: the
    outcome, the embedding requests made and the batches upserted.  The
    collection is taken to exist or to be created without error, and every
    upsert to be answered. *)
Definition embed_and_store (all_chunks : list Embedding.DocumentChunk)
    : (IngestError + unit) * list (list string) * list (list Qdrant.PointStruct) :=
  let texts := List.map Embedding.text all_chunks in
  match generate_embeddings_async embed_batch_remote 100 texts with
  | (inl e, requests) => (inl e, requests, [])
  | (inr embeddings, requests) =>
      let all_chunks := assign_embeddings all_chunks embeddings in
      (fst (upsert_chunks py_hash (fun _ => None) all_chunks), requests,
       snd (upsert_chunks py_hash (fun _ => None) all_chunks))
  end.

End IngestScript.

(* ===================================================================== *)
(** * Standalone ingestion script ([backend/scripts/simple_ingest.py]) *)
(* ===================================================================== *)

Module SimpleIngest.

(** [chunk_text] of the standalone script. *)
Definition chunk_text (text : string) (chunk_size overlap : Z)
    : IngestError + list string :=
  let words := PyStr.split text in
  match py_range 0 (PySeq.len words) (chunk_size - overlap) with
  | inl e => inl e
  | inr starts =>
      inr (flat_map
             (fun i =>
                let chunk := PyStr.join " " (PySeq.slice words i (i + chunk_size)) in
                match PyStr.strip chunk with
                | EmptyString => []
                | stripped => [stripped]
                end)
             starts)
  end.

End SimpleIngest.
(* ===================================================================== *)
(** * Markdown parser ([backend/ingestion/markdown_parser.py]) *)
(* ===================================================================== *)

(** [MarkdownDocument._normalize_section_type] *)
Definition _normalize_section_type (title : string) : option string :=
  let title_lower := PyStr.lower title in
  let has (word : string) := PyStr.contains word title_lower in
  if has "concept" || has "foundation" || has "introduction" then Some "concepts"
  else if has "architecture" || has "design" || has "structure" then Some "architectures"
  else if has "algorithm" || has "implementation" || has "technique" then Some "algorithms"
  else if has "real-world" || has "practical" || has "application" || has "consideration"
  then Some "real-world"
  else None.

(** One match of the H2 pattern, as [re.finditer] yields it: the text of
    group 1 and the offsets [match.start()] and [match.end()]. *)
Record H2Match : Type := {
  group1 : string;
  match_start : nat;
  match_end : nat
}.

(** [d[key] = value] on a dict given by its items in iteration order: a key
    that is present keeps its place. *)
Fixpoint dict_set (d : list (string * string)) (key value : string)
    : list (string * string) :=
  match d with
  | [] => [(key, value)]
  | (k, v) :: rest =>
      if bool_decide (k = key) then (key, value) :: rest
      else (k, v) :: dict_set rest key value
  end.

(** The section type that one iteration of [get_sections] computes. *)
Definition section_type_of (m : H2Match) : option string :=
  let section_title := PyStr.lower (PyStr.strip (group1 m)) in
  _normalize_section_type section_title.

(** The section content that it computes; [later] are the matches after [m]. *)
Definition section_content_of (content : string) (m : H2Match) (later : list H2Match)
    : string :=
  let start_pos := match_end m in
  let end_pos :=
    match later with
    | next :: _ => match_start next
    | [] => PyStr.len content
    end in
  PyStr.strip (substring start_pos (end_pos - start_pos) content).

(** The loop of [MarkdownDocument.get_sections] over the matches of the H2
    pattern in [content]. *)
Fixpoint get_sections_loop (content : string) (matches : list H2Match)
    (sections : list (string * string)) : list (string * string) :=
  match matches with
  | [] => sections
  | m :: later =>
      let section_content := section_content_of content m later in
      let sections :=
        match section_type_of m with
        | Some section_type => dict_set sections section_type section_content
        | None => sections
        end in
      get_sections_loop content later sections
  end.

(** [MarkdownDocument.get_sections], given the matches of the H2 pattern. *)
Definition get_sections (content : string) (matches : list H2Match)
    : list (string * string) :=
  get_sections_loop content matches [].

(** The four standard section types. *)
Definition standard_section_types : list string :=
  ["concepts"; "architectures"; "algorithms"; "real-world"].

(* ===================================================================== *)
(** * The selection handler in Python float arithmetic *)
(* ===================================================================== *)

(** Python floats are IEEE 754 binary64 numbers.  A finite float is the
    rational number it denotes, so floats are compared as rationals; an
    operation on floats is the exact operation followed by [round], the
    rounding to the nearest float, ties to the even significand.  The scores
    computed below from finite scores stay finite, so infinities and NaN are
    not represented and the exponent is not bounded above.

    The definitions of the selection handler above compute the scores
    exactly; the order of two candidates can depend on the rounding, so the
    ranking is described by the definitions of this module. *)
Module F64.

(** [floor(log2 q)] for [q > 0]. *)
Definition ilog2 (q : Q) : Z :=
  let l := Z.log2 (Qnum q) - Z.log2 (Z.pos (Qden q)) in
  if Qle_bool (2 ^ l) q then l else l - 1.

(** The nearest integer, ties to even. *)
Definition round_half_even (q : Q) : Z :=
  let f := Qnum q / Z.pos (Qden q) in
  match (q - inject_Z f ?= 1 # 2)%Q with
  | Lt => f
  | Gt => f + 1
  | Eq => if Z.even f then f else f + 1
  end.

(** The nearest binary64 number: 53 significant bits, and below [2^-1022]
    the fixed spacing [2^-1074] of the subnormal numbers. *)
Definition round (q : Q) : Q :=
  if Qeq_bool q 0 then 0
  else
    let a := if Qle_bool 0 q then q else Qopp q in
    let e := Z.max (ilog2 a) (-1022) in
    let ulp := (2 ^ (e - 52))%Q in
    let m := round_half_even (a / ulp) in
    let r := Qred (inject_Z m * ulp) in
    if Qle_bool 0 q then r else Qopp r.

(** [x * y] and [x + y] on floats. *)
Definition mul (x y : Q) : Q := round (x * y).
Definition add (x y : Q) : Q := round (x + y).

(** [i / u] on integers, [u <> 0]: the correctly rounded quotient. *)
Definition true_div (i u : Z) : Q := round (inject_Z i / inject_Z u).

(** [SelectionHandler()], with the float [0.3] as threshold. *)
Definition SelectionHandler_default : SelectionHandler :=
  {| similarity_threshold := round (3 # 10) |}.

(** [SelectionHandler._calculate_overlap_score] *)
Definition _calculate_overlap_score (chunk_text : string)
    (selected_keywords : gset string) : Q :=
  if bool_decide (selected_keywords = ∅) then 0
  else
    let chunk_words := token_set chunk_text in
    let intersection := size (chunk_words ∩ selected_keywords) in
    let union := size (chunk_words ∪ selected_keywords) in
    if (union =? 0)%nat then 0
    else true_div (Z.of_nat intersection) (Z.of_nat union).

(** One iteration of the scoring loop:
    [combined_score = (vector_score * 0.6) + (overlap_score * 0.4)]. *)
Definition score_chunk (selected_words : gset string) (chunk : Chunk) : Chunk :=
  let chunk_text := payload_get (payload chunk) "chunk_text" "" in
  let overlap_score := _calculate_overlap_score chunk_text selected_words in
  let vector_score := score chunk in
  let combined :=
    add (mul vector_score (round (6 # 10))) (mul overlap_score (round (4 # 10))) in
  {| chunk_id := chunk_id chunk; score := score chunk; payload := payload chunk;
     combined_score := Some combined; text_overlap := Some overlap_score |}.

(** [SelectionHandler.filter_chunks_by_selection] *)
Definition filter_chunks_by_selection (h : SelectionHandler)
    (retrieved_chunks : list Chunk) (selected_text : string) (max_results : Z)
    : list Chunk :=
  if bool_decide (selected_text = "") || is_nil retrieved_chunks
  then PySeq.prefix retrieved_chunks max_results
  else
    let selected_words := _extract_keywords selected_text in
    let scored_chunks := List.map (score_chunk selected_words) retrieved_chunks in
    let scored_chunks := sort_desc combined_of scored_chunks in
    let filtered_chunks := List.filter (meets_threshold h) scored_chunks in
    let filtered_chunks :=
      if is_nil filtered_chunks && negb (is_nil scored_chunks)
      then PySeq.prefix scored_chunks max_results
      else filtered_chunks in
    PySeq.prefix filtered_chunks max_results.

(** The float quotient [|a ∩ b| / |a ∪ b|], 0 when both sets are empty. *)
Definition jaccard (a b : gset string) : Q :=
  if (size (a ∪ b) =? 0)%nat then 0
  else true_div (Z.of_nat (size (a ∩ b))) (Z.of_nat (size (a ∪ b))).

(** The combined score the specification assigns to a candidate,
    [0.6 * vector_score + 0.4 * overlap_score], evaluated in floats. *)
Definition combined_spec (sel : string) (c : Chunk) : Q :=
  add (mul (score c) (round (6 # 10)))
      (mul (jaccard (token_set (chunk_text_of c)) (_extract_keywords sel))
           (round (4 # 10))).

(** The ranking of [filter_chunks_by_selection] before filtering. *)
Definition ranked_chunks (retrieved : list Chunk) (sel : string) : list Chunk :=
  sort_desc combined_of (List.map (score_chunk (_extract_keywords sel)) retrieved).

End F64.

(** Two candidates whose exact combined scores differ in one order and
    whose float scores differ in the other: the float [0.1] with overlap
    3/5, and 0 with overlap 3/4. *)
Definition near_tie_selection : string := "alpha beta gamma".

Definition near_tie_candidates : list Chunk :=
  [tchunk 1 (F64.round (1 # 10)) "alpha beta gamma delta epsilon";
   tchunk 2 0 "alpha beta gamma delta"].

(** Two candidates that share at most two tokens with [sel20]: none reaches
    the float threshold 0.3. *)
Definition off_topic_float_candidates : list Chunk :=
  [tchunk 1 (F64.round (7 # 10)) "alpha beta other words here";
   tchunk 2 (F64.round (9 # 10)) "nothing in common"].

(* ===================================================================== *)
(** * Properties of the text primitives *)
(* ===================================================================== *)

Lemma lstrip_empty_iff (s : string) : PyStr.lstrip s = "" <-> blank s = true.
Proof.
  induction s as [|c s IH]; simpl; [tauto|].
  destruct (PyStr.isspace c); simpl; [exact IH|].
  split; discriminate.
Qed.

Lemma lstrip_blank_or_head (s : string) :
  PyStr.lstrip s = ""
  \/ exists c s', PyStr.lstrip s = String c s' /\ PyStr.isspace c = false.
Proof.
  induction s as [|c s IH]; simpl; [now left|].
  destruct (PyStr.isspace c) eqn:E; [exact IH|].
  right. now exists c, s.
Qed.

Lemma blank_rev_app (s1 s2 : string) :
  blank (String.rev_app s1 s2) = blank s1 && blank s2.
Proof.
  revert s2. induction s1 as [|c s1 IH]; intros s2; simpl; [reflexivity|].
  rewrite IH. simpl. destruct (PyStr.isspace c), (blank s1), (blank s2); reflexivity.
Qed.

Lemma rev_app_nonempty (s1 s2 : string) :
  s2 <> "" -> String.rev_app s1 s2 <> "".
Proof.
  revert s2. induction s1 as [|c s1 IH]; intros s2 H; simpl; [exact H|].
  apply IH. discriminate.
Qed.

Lemma rev_empty_iff (s : string) : String.rev s = "" <-> s = "".
Proof.
  split; [|intros ->; reflexivity].
  destruct s as [|c s]; [reflexivity|].
  intros H. exfalso. revert H. unfold String.rev. simpl.
  apply rev_app_nonempty. discriminate.
Qed.

(** [not text.strip()] holds exactly for blank text. *)
Lemma strip_empty_iff (s : string) : PyStr.strip s = "" <-> blank s = true.
Proof.
  unfold PyStr.strip, PyStr.rstrip. rewrite rev_empty_iff, lstrip_empty_iff.
  unfold String.rev. rewrite blank_rev_app. simpl. rewrite andb_true_r.
  split.
  - intros H. destruct (lstrip_blank_or_head s) as [E|(c & s' & E & Hc)].
    + now apply lstrip_empty_iff.
    + rewrite E in H. simpl in H. rewrite Hc in H. discriminate.
  - intros H. apply lstrip_empty_iff in H. now rewrite H.
Qed.

Lemma split_go_blank (s : string) : blank s = true -> PyStr.split_go "" s = [].
Proof.
  induction s as [|c s IH]; simpl; [reflexivity|].
  intros [Hc Hs]%andb_true_iff. rewrite Hc. auto.
Qed.

Lemma split_blank (s : string) : blank s = true -> PyStr.split s = [].
Proof. apply split_go_blank. Qed.

(* ===================================================================== *)
(** * Properties of the chunker *)
(* ===================================================================== *)

Section ChunkerFacts.
Variable c : TextChunker.

Lemma chunk_loop_windows (fuel : nat) (words : list string) (start : Z)
    (acc : list string) :
  chunk_loop c fuel words start acc
  = option_map (fun ws => acc ++ List.map (emit_window c words) ws)
      (chunk_windows c fuel (PySeq.len words) start).
Proof.
  revert start acc. induction fuel as [|fuel IH]; intros start acc; simpl.
  - reflexivity.
  - destruct (start <? PySeq.len words) eqn:Hlt; simpl.
    2:{ now rewrite app_nil_r. }
    set (e := Z.min (start + chunk_size c) (PySeq.len words)).
    destruct (e >=? PySeq.len words) eqn:Hge; simpl.
    + reflexivity.
    + rewrite IH. destruct (chunk_windows c fuel _ _); simpl; [|reflexivity].
      now rewrite <- app_assoc.
Qed.

(** More fuel never changes a result. *)
Lemma chunk_windows_more_fuel (fuel fuel' : nat) (n start : Z) (ws : list (Z * Z)) :
  chunk_windows c fuel n start = Some ws -> (fuel <= fuel')%nat ->
  chunk_windows c fuel' n start = Some ws.
Proof.
  revert fuel' start ws. induction fuel as [|fuel IH]; intros fuel' start ws H Hle.
  - discriminate.
  - destruct fuel' as [|fuel']; [lia|]. simpl in *.
    destruct (start <? n); [|exact H].
    destruct (Z.min (start + chunk_size c) n >=? n); [exact H|].
    destruct (chunk_windows c fuel n _) as [ws'|] eqn:E; [|discriminate].
    rewrite (IH fuel' _ ws' E); [exact H|lia].
Qed.

Hypothesis gap : 0 <= overlap_size c < chunk_size c.

(** With a positive step the loop ends within [n - start] iterations. *)
Lemma chunk_windows_chain (fuel : nat) (n start : Z) :
  start < n -> n - start <= Z.of_nat fuel ->
  exists ws, chunk_windows c fuel n start = Some ws /\ window_chain c n start ws.
Proof.
  revert start. induction fuel as [|fuel IH]; intros start Hs Hf; [lia|].
  simpl. destruct (Z.ltb_spec start n) as [_|]; [|lia].
  destruct (Z.geb_spec (Z.min (start + chunk_size c) n) n) as [Hge|Hlt].
  - exists [(start, Z.min (start + chunk_size c) n)]. split; [reflexivity|].
    replace (Z.min (start + chunk_size c) n) with n by lia.
    constructor; lia.
  - assert (E : Z.min (start + chunk_size c) n = start + chunk_size c) by lia.
    rewrite E in *.
    destruct (IH (start + chunk_size c - overlap_size c)) as (ws & Hws & Hch); [lia..|].
    exists ((start, start + chunk_size c) :: ws). rewrite Hws. split; [reflexivity|].
    constructor; [lia|exact Hch].
Qed.

Lemma chain_head (n s : Z) (ws : list (Z * Z)) :
  window_chain c n s ws ->
  exists e ws', ws = (s, e) :: ws' /\ e = Z.min (s + chunk_size c) n.
Proof.
  intros [s' H1 H2|s' ws' H1 H2].
  - exists n, []. split; [reflexivity|lia].
  - exists (s' + chunk_size c), ws'. split; [reflexivity|lia].
Qed.

Lemma chain_consecutive (n s : Z) (ws : list (Z * Z)) :
  window_chain c n s ws ->
  forall (k : nat) (s1 e1 s2 e2 : Z),
    ws !! k = Some (s1, e1) -> ws !! S k = Some (s2, e2) ->
    e1 = s1 + chunk_size c /\ e1 < n /\ s2 = e1 - overlap_size c
    /\ e2 = Z.min (s2 + chunk_size c) n.
Proof.
  induction 1 as [s H1 H2|s ws H1 H2 IH]; intros k s1 e1 s2 e2 Hk HSk.
  - destruct k; discriminate.
  - destruct k as [|k].
    + simpl in Hk, HSk. injection Hk as <- <-.
      destruct (chain_head _ _ _ H2) as (e & ws' & -> & He).
      simpl in HSk. injection HSk as <- <-. lia.
    + exact (IH k s1 e1 s2 e2 Hk HSk).
Qed.

Lemma chain_last_window (n s : Z) (ws : list (Z * Z)) :
  window_chain c n s ws -> exists s', List.last ws (0, 0) = (s', n) /\ s <= s'.
Proof.
  induction 1 as [s H1 H2|s ws H1 H2 (s' & IH & Hle)].
  - exists s. split; [reflexivity|lia].
  - exists s'. split; [|lia].
    destruct ws as [|w ws]; [inversion H2|]. exact IH.
Qed.

Lemma chain_bounds (n s : Z) (ws : list (Z * Z)) :
  window_chain c n s ws ->
  forall w, In w ws -> s <= fst w /\ fst w < snd w /\ snd w <= n
                       /\ snd w - fst w <= chunk_size c.
Proof.
  induction 1 as [s H1 H2|s ws H1 H2 IH]; intros w [<-|Hin]; simpl; try lia.
  - destruct Hin.
  - specialize (IH w Hin). lia.
Qed.

(** No word is skipped. *)
Lemma chain_cover (n s : Z) (ws : list (Z * Z)) :
  window_chain c n s ws ->
  forall i, s <= i < n -> exists w, In w ws /\ fst w <= i < snd w.
Proof.
  induction 1 as [s H1 H2|s ws H1 H2 IH]; intros i Hi.
  - exists (s, n). split; [now left|simpl; lia].
  - destruct (Z.lt_ge_cases i (s + chunk_size c)) as [Hlt|Hge].
    + exists (s, s + chunk_size c). split; [now left|simpl; lia].
    + destruct (IH i) as (w & Hin & Hw); [lia|].
      exists w. split; [now right|exact Hw].
Qed.

Lemma chain_length (n s : Z) (ws : list (Z * Z)) :
  window_chain c n s ws ->
  (PySeq.len ws - 1) * (chunk_size c - overlap_size c)
  <= Z.max 0 (n - s - overlap_size c - 1).
Proof.
  unfold PySeq.len.
  induction 1 as [s H1 H2|s ws H1 H2 IH]; simpl length.
  - simpl. lia.
  - rewrite Nat2Z.inj_succ. nia.
Qed.

End ChunkerFacts.

(** ** Slices of the word list *)

Lemma slice_inside {A} (l : list A) (s e : Z) :
  0 <= s <= e -> e <= PySeq.len l ->
  PySeq.slice l s e = firstn (Z.to_nat (e - s)) (skipn (Z.to_nat s) l)
  /\ PySeq.len (PySeq.slice l s e) = e - s.
Proof.
  intros Hs He. unfold PySeq.slice, PySeq.clamp, PySeq.len in *.
  destruct (Z.ltb_spec s 0), (Z.ltb_spec e 0); try lia.
  rewrite !Z.min_l by lia. split; [reflexivity|].
  rewrite length_firstn, length_skipn. lia.
Qed.

Lemma slice_app {A} (l : list A) (a b d : Z) :
  0 <= a <= b -> b <= d -> d <= PySeq.len l ->
  PySeq.slice l a d = PySeq.slice l a b ++ PySeq.slice l b d.
Proof.
  intros Ha Hb Hd.
  destruct (slice_inside l a d) as [-> _]; [lia..|].
  destruct (slice_inside l a b) as [-> _]; [lia..|].
  destruct (slice_inside l b d) as [-> _]; [lia..|].
  replace (Z.to_nat (d - a)) with (Z.to_nat (b - a) + Z.to_nat (d - b))%nat by lia.
  rewrite <- take_take_drop. f_equal.
  rewrite drop_drop. do 2 f_equal. lia.
Qed.

(** [l[:stop]] is an initial segment, of at most [stop] elements. *)
Lemma prefix_firstn {A} (l : list A) (stop : Z) :
  PySeq.prefix l stop = firstn (Z.to_nat (PySeq.clamp (PySeq.len l) stop)) l.
Proof.
  unfold PySeq.prefix, PySeq.slice.
  assert (E : PySeq.clamp (PySeq.len l) 0 = 0).
  { unfold PySeq.clamp, PySeq.len. simpl. lia. }
  rewrite E, Z.sub_0_r. reflexivity.
Qed.

Lemma prefix_nonneg {A} (l : list A) (stop : Z) :
  0 <= stop -> PySeq.prefix l stop = firstn (Z.to_nat stop) l.
Proof.
  intros H. rewrite prefix_firstn. unfold PySeq.clamp, PySeq.len.
  destruct (Z.ltb_spec stop 0); [lia|].
  destruct (Z.le_ge_cases stop (Z.of_nat (length l))).
  - now rewrite Z.min_l.
  - rewrite Z.min_r by lia. rewrite Nat2Z.id.
    rewrite !firstn_all2; [reflexivity|lia|lia].
Qed.

(** ** The loop without the termination precondition *)

Lemma chunk_windows_head (c : TextChunker) (fuel : nat) (n start : Z)
    (w : Z * Z) (ws : list (Z * Z)) :
  chunk_windows c fuel n start = Some (w :: ws) ->
  w = (start, Z.min (start + chunk_size c) n).
Proof.
  destruct fuel as [|fuel]; simpl; [discriminate|].
  destruct (start <? n); [|discriminate].
  destruct (_ >=? n); [congruence|].
  destruct (chunk_windows c fuel n _); simpl; congruence.
Qed.

(** Every iteration that is not the last one moves the start by exactly
    [chunk_size - overlap_size]. *)
Lemma chunk_windows_advance (c : TextChunker) (fuel : nat) (n start : Z)
    (ws : list (Z * Z)) :
  chunk_windows c fuel n start = Some ws ->
  forall (k : nat) (s1 e1 s2 e2 : Z),
    ws !! k = Some (s1, e1) -> ws !! S k = Some (s2, e2) ->
    e1 = s1 + chunk_size c /\ s2 = e1 - overlap_size c.
Proof.
  revert start ws. induction fuel as [|fuel IH]; intros start ws H; [discriminate|].
  simpl in H. destruct (start <? n).
  2:{ injection H as <-. intros k; destruct k; discriminate. }
  destruct (Z.geb_spec (Z.min (start + chunk_size c) n) n) as [Hge|Hlt].
  { injection H as <-. intros [|k] ?????; discriminate. }
  destruct (chunk_windows c fuel n _) as [ws'|] eqn:E; [|discriminate].
  injection H as <-. intros [|k] s1 e1 s2 e2 Hk HSk.
  - simpl in Hk, HSk. injection Hk as <- <-.
    destruct ws' as [|w ws']; [discriminate|].
    apply chunk_windows_head in E. simpl in HSk. subst w.
    injection HSk as <- <-. lia.
  - exact (IH _ _ E k s1 e1 s2 e2 Hk HSk).
Qed.

(** When the overlap is not smaller than the chunk size the start never
    passes 0 and the loop never ends. *)
Lemma chunk_windows_diverge (c : TextChunker) (n : Z) :
  chunk_size c <= overlap_size c -> chunk_size c < n -> 0 < n ->
  forall (fuel : nat) (start : Z), start <= 0 -> chunk_windows c fuel n start = None.
Proof.
  intros Hov Hn Hpos. induction fuel as [|fuel IH]; intros start Hs; [reflexivity|].
  simpl. destruct (Z.ltb_spec start n); [|lia].
  destruct (Z.geb_spec (Z.min (start + chunk_size c) n) n); [lia|].
  rewrite IH; [reflexivity|lia].
Qed.

Lemma chunk_text_long (c : TextChunker) (fuel : nat) (text : string) :
  0 < PySeq.len (PyStr.split text) ->
  chunk_size c < PySeq.len (PyStr.split text) ->
  chunk_text c fuel text
  = option_map (List.map (emit_window c (PyStr.split text)))
      (chunk_windows c fuel (PySeq.len (PyStr.split text)) 0).
Proof.
  intros Hpos Hn. unfold chunk_text.
  destruct (PyStr.strip text) eqn:Es.
  - apply strip_empty_iff, split_blank in Es. rewrite Es in Hpos.
    unfold PySeq.len in Hpos. simpl in Hpos. lia.
  - destruct (Z.leb_spec (PySeq.len (PyStr.split text)) (chunk_size c)); [lia|].
    rewrite chunk_loop_windows. now destruct (chunk_windows c fuel _ 0).
Qed.

Lemma chunk_windows_flag (c : TextChunker) (flag : bool) (fuel : nat) (n start : Z) :
  chunk_windows (with_boundaries c flag) fuel n start = chunk_windows c fuel n start.
Proof.
  revert start. induction fuel as [|fuel IH]; intros start; simpl; [reflexivity|].
  now rewrite IH.
Qed.

Lemma chunk_text_blank (c : TextChunker) (fuel : nat) (text : string) :
  blank text = true -> chunk_text c fuel text = Some [].
Proof.
  unfold chunk_text. intros H. apply strip_empty_iff in H. now rewrite H.
Qed.

Lemma chunk_text_short (c : TextChunker) (fuel : nat) (text : string) :
  blank text = false -> get_word_count text <= chunk_size c ->
  chunk_text c fuel text = Some [text].
Proof.
  unfold chunk_text, get_word_count. intros H Hn.
  destruct (PyStr.strip text) eqn:E.
  - apply strip_empty_iff in E. congruence.
  - destruct (Z.leb_spec (PySeq.len (PyStr.split text)) (chunk_size c)); [reflexivity|lia].
Qed.

(** C5.  [chunk_text] returns the empty list for an empty or whitespace-only
    text, and the one-element list holding the whole text for a non-blank
    text of at most [chunk_size] words; no loop iteration is needed. *)
Theorem chunk_text_blank_or_short (c : TextChunker) (fuel : nat) (text : string) :
  (blank text = true -> chunk_text c fuel text = Some [])
  /\ (blank text = false -> get_word_count text <= chunk_size c ->
      chunk_text c fuel text = Some [text]).
Proof.
  split; [apply chunk_text_blank|apply chunk_text_short].
Qed.

Lemma chunk_text_blank_or_short_witness :
  (blank "  " = true /\ chunk_text TextChunker_default 0 "  " = Some [])
  /\ (blank "what is ROS" = false
      /\ get_word_count "what is ROS" <= chunk_size TextChunker_default
      /\ chunk_text TextChunker_default 0 "what is ROS" = Some ["what is ROS"]).
Proof.
  split.
  - split; [reflexivity|].
    apply (chunk_text_blank_or_short TextChunker_default 0 "  "). reflexivity.
  - split; [reflexivity|]. split; [vm_compute; discriminate|].
    apply (chunk_text_blank_or_short TextChunker_default 0 "what is ROS").
    + reflexivity.
    + vm_compute. discriminate.
Defined.

(** C4.  For a text of more than [chunk_size] words and
    [0 <= overlap_size < chunk_size], the loop ends and visits windows [ws]
    such that: the emitted chunks are the texts of these windows, with the
    same windows whether or not boundaries are respected; the first window
    starts at word 0; every window but the last has [chunk_size] words and
    the next one starts [chunk_size - overlap_size] words later, that is
    [overlap_size] words before the untrimmed end; two consecutive windows
    share exactly [overlap_size] words; the last window ends at the last
    word; and every word lies in some window. *)
Theorem chunk_text_sliding_windows (c : TextChunker) (text : string) :
  let words := PyStr.split text in
  let n := PySeq.len words in
  let fuel := S (length words) in
  0 <= overlap_size c < chunk_size c ->
  chunk_size c < n ->
  exists ws : list (Z * Z),
    chunk_windows c fuel n 0 = Some ws
    /\ (forall flag : bool,
          chunk_text (with_boundaries c flag) fuel text
          = Some (List.map (emit_window (with_boundaries c flag) words) ws))
    /\ (exists rest, ws = (0, chunk_size c) :: rest)
    /\ (forall (k : nat) (s1 e1 s2 e2 : Z),
          ws !! k = Some (s1, e1) -> ws !! S k = Some (s2, e2) ->
          e1 - s1 = chunk_size c
          /\ s2 = s1 + (chunk_size c - overlap_size c)
          /\ s2 = e1 - overlap_size c
          /\ Z.min e1 e2 - Z.max s1 s2 = overlap_size c
          /\ PySeq.slice words s1 e1
             = PySeq.slice words s1 s2 ++ PySeq.slice words s2 e1
          /\ PySeq.slice words s2 e2
             = PySeq.slice words s2 e1 ++ PySeq.slice words e1 e2
          /\ PySeq.len (PySeq.slice words s2 e1) = overlap_size c)
    /\ (exists s, List.last ws (0, 0) = (s, n))
    /\ (forall w, In w ws ->
          0 <= fst w < snd w /\ snd w <= n
          /\ PySeq.len (PySeq.slice words (fst w) (snd w)) = snd w - fst w
          /\ snd w - fst w <= chunk_size c)
    /\ (forall i, 0 <= i < n -> exists w, In w ws /\ fst w <= i < snd w).
Proof.
  intros words n fuel Hgap Hn.
  assert (Hpos : 0 < n) by lia.
  destruct (chunk_windows_chain c Hgap fuel n 0) as (ws & Hws & Hch);
    [lia|unfold fuel, n, PySeq.len; lia|].
  exists ws. split; [exact Hws|].
  pose proof (chain_bounds c Hgap n 0 ws Hch) as Hb.
  repeat split.
  - intros flag. rewrite chunk_text_long by assumption.
    fold words n. now rewrite chunk_windows_flag, Hws.
  - destruct (chain_head c n 0 ws Hch) as (e & rest & -> & He).
    exists rest. do 2 f_equal. lia.
  - destruct (chain_consecutive c n 0 ws Hch k s1 e1 s2 e2 H H0). lia.
  - destruct (chain_consecutive c n 0 ws Hch k s1 e1 s2 e2 H H0). lia.
  - destruct (chain_consecutive c n 0 ws Hch k s1 e1 s2 e2 H H0). lia.
  - destruct (chain_consecutive c n 0 ws Hch k s1 e1 s2 e2 H H0). lia.
  - destruct (chain_consecutive c n 0 ws Hch k s1 e1 s2 e2 H H0) as (? & ? & ? & ?).
    pose proof (Hb (s1, e1) (proj1 (list_elem_of_In _ _) (list_elem_of_lookup_2 _ _ _ H))).
    simpl in *. apply slice_app; fold n; lia.
  - destruct (chain_consecutive c n 0 ws Hch k s1 e1 s2 e2 H H0) as (? & ? & ? & ?).
    pose proof (Hb (s1, e1) (proj1 (list_elem_of_In _ _) (list_elem_of_lookup_2 _ _ _ H))).
    pose proof (Hb (s2, e2) (proj1 (list_elem_of_In _ _) (list_elem_of_lookup_2 _ _ _ H0))).
    simpl in *. apply slice_app; fold n; lia.
  - destruct (chain_consecutive c n 0 ws Hch k s1 e1 s2 e2 H H0) as (? & ? & ? & ?).
    pose proof (Hb (s1, e1) (proj1 (list_elem_of_In _ _) (list_elem_of_lookup_2 _ _ _ H))).
    simpl in *. destruct (slice_inside words s2 e1) as [_ ->]; fold n; lia.
  - destruct (chain_last_window c Hgap n 0 ws Hch) as (s & Hs & _). now exists s.
  - apply (Hb w H).
  - apply (Hb w H).
  - apply (Hb w H).
  - destruct (Hb w H) as (? & ? & ? & ?).
    destruct (slice_inside words (fst w) (snd w)) as [_ ->]; fold n; lia.
  - apply (Hb w H).
  - apply (chain_cover c Hgap n 0 ws Hch).
Qed.

Lemma chunk_text_sliding_windows_witness :
  0 <= overlap_size chunker_3_1 < chunk_size chunker_3_1
  /\ chunk_size chunker_3_1 < PySeq.len (PyStr.split seven_words)
  /\ exists ws : list (Z * Z),
       chunk_windows chunker_3_1 8 7 0 = Some ws
       /\ (forall i, 0 <= i < 7 -> exists w, In w ws /\ fst w <= i < snd w).
Proof.
  assert (H1 : 0 <= overlap_size chunker_3_1 < chunk_size chunker_3_1)
    by (simpl; lia).
  assert (H2 : chunk_size chunker_3_1 < PySeq.len (PyStr.split seven_words))
    by (vm_compute; reflexivity).
  split; [exact H1|]. split; [exact H2|].
  destruct (chunk_text_sliding_windows chunker_3_1 seven_words H1 H2)
    as (ws & Hws & _ & _ & _ & _ & _ & Hcover).
  exists ws. split; [exact Hws|exact Hcover].
Defined.

Example chunk_windows_seven_words :
  chunk_windows chunker_3_1 8 7 0 = Some [(0, 3); (2, 5); (4, 7)].
Proof. reflexivity. Qed.

(** C10.  With [0 <= overlap_size < chunk_size], [chunk_text] returns: one
    more iteration than there are words is always enough, more fuel gives
    the same chunks, and there are at most
    [words / (chunk_size - overlap_size) + 1] of them.  Whatever the
    configuration, an iteration that is not the last moves the window start
    by exactly [chunk_size - overlap_size], which is positive under the
    precondition.  Without the precondition the loop need not end: with
    [chunk_size <= overlap_size] it never does on a text of more than
    [chunk_size] words. *)
Theorem chunk_text_terminates (c : TextChunker) (text : string) :
  let words := PyStr.split text in
  let n := PySeq.len words in
  0 <= overlap_size c < chunk_size c ->
  (exists chunks : list string,
      chunk_text c (S (length words)) text = Some chunks
      /\ (forall fuel, (S (length words) <= fuel)%nat ->
            chunk_text c fuel text = Some chunks)
      /\ PySeq.len chunks <= n / (chunk_size c - overlap_size c) + 1)
  /\ (forall (fuel : nat) (start : Z) (ws : list (Z * Z)) (k : nat) (s1 e1 s2 e2 : Z),
        chunk_windows c fuel n start = Some ws ->
        ws !! k = Some (s1, e1) -> ws !! S k = Some (s2, e2) ->
        s2 - s1 = chunk_size c - overlap_size c /\ s1 < s2)
  /\ (forall c' : TextChunker,
        chunk_size c' <= overlap_size c' -> chunk_size c' < n -> 0 < n ->
        forall fuel, chunk_text c' fuel text = None).
Proof.
  intros words n Hgap. split; [|split].
  - assert (Hd : 0 < chunk_size c - overlap_size c) by lia.
    assert (Hq : 0 <= n / (chunk_size c - overlap_size c)).
    { apply Z.div_pos; [unfold n, PySeq.len|]; lia. }
    destruct (blank text) eqn:Hb.
    { exists []. repeat split.
      - now apply chunk_text_blank.
      - intros fuel _. now apply chunk_text_blank.
      - unfold PySeq.len at 1. simpl. lia. }
    destruct (Z.le_gt_cases (get_word_count text) (chunk_size c)) as [Hle|Hgt].
    { exists [text]. repeat split.
      - now apply chunk_text_short.
      - intros fuel _. now apply chunk_text_short.
      - unfold PySeq.len at 1. simpl. lia. }
    unfold get_word_count in Hgt. fold words n in Hgt.
    assert (Hpos : 0 < n) by lia.
    destruct (chunk_windows_chain c Hgap (S (length words)) n 0) as (ws & Hws & Hch);
      [lia|unfold n, PySeq.len; lia|].
    exists (List.map (emit_window c words) ws). repeat split.
    + rewrite chunk_text_long by assumption. fold words n. now rewrite Hws.
    + intros fuel Hf. rewrite chunk_text_long by assumption. fold words n.
      now rewrite (chunk_windows_more_fuel c _ fuel n 0 ws Hws Hf).
    + pose proof (chain_length c Hgap n 0 ws Hch) as Hl.
      unfold PySeq.len at 1. rewrite length_map. fold (PySeq.len ws).
      assert (PySeq.len ws - 1 <= n / (chunk_size c - overlap_size c)); [|lia].
      apply Z.div_le_lower_bound; [lia|]. lia.
  - intros fuel start ws k s1 e1 s2 e2 Hws Hk HSk.
    destruct (chunk_windows_advance c fuel n start ws Hws k s1 e1 s2 e2 Hk HSk). lia.
  - intros c' Hov Hn Hpos fuel. rewrite chunk_text_long by assumption.
    fold words n. now rewrite chunk_windows_diverge.
Qed.

Lemma chunk_text_terminates_witness :
  0 <= overlap_size chunker_3_1 < chunk_size chunker_3_1
  /\ exists chunks : list string,
       chunk_text chunker_3_1 8 seven_words = Some chunks
       /\ PySeq.len chunks <= 7 / (3 - 1) + 1.
Proof.
  assert (H1 : 0 <= overlap_size chunker_3_1 < chunk_size chunker_3_1)
    by (simpl; lia).
  split; [exact H1|].
  destruct (chunk_text_terminates chunker_3_1 seven_words H1)
    as ((chunks & Hrun & _ & Hlen) & _).
  exists chunks. split; [exact Hrun|exact Hlen].
Defined.

Example chunk_text_seven_words :
  chunk_text chunker_3_1 8 seven_words
  = Some ["one two three"; "three four five"; "five six seven"].
Proof. vm_compute. reflexivity. Qed.

Example chunk_text_equal_sizes_never_ends :
  forall fuel,
    chunk_text {| chunk_size := 1; overlap_size := 1; respect_boundaries := true |}
      fuel "a b" = None.
Proof.
  intros fuel. rewrite chunk_text_long by (vm_compute; reflexivity).
  rewrite chunk_windows_diverge; [reflexivity|simpl; lia|reflexivity|reflexivity|lia].
Qed.

(** ** Boundary trimming *)

Lemma all_chars_rev_app (p : ascii -> bool) (s1 s2 : string) :
  all_chars p (String.rev_app s1 s2) = all_chars p s1 && all_chars p s2.
Proof.
  revert s2. induction s1 as [|a s1 IH]; intros s2; simpl; [reflexivity|].
  rewrite IH. simpl. destruct (p a), (all_chars p s1); reflexivity.
Qed.

Lemma all_chars_app (p : ascii -> bool) (s1 s2 : string) :
  all_chars p (s1 +:+ s2) = all_chars p s1 && all_chars p s2.
Proof.
  induction s1 as [|a s1 IH]; [reflexivity|].
  change (String a s1 +:+ s2) with (String a (s1 +:+ s2)).
  simpl. now rewrite IH, andb_assoc.
Qed.

Lemma all_chars_weaken (p q : ascii -> bool) (s : string) :
  (forall a, p a = true -> q a = true) ->
  all_chars p s = true -> all_chars q s = true.
Proof.
  intros Hpq. induction s as [|a s IH]; simpl; [reflexivity|].
  intros [Ha Hs]%andb_true_iff. now rewrite (Hpq a Ha), IH.
Qed.

(** The words of [s.split()] hold no whitespace. *)
Lemma split_go_words (cur s : string) :
  all_chars not_space cur = true ->
  Forall (fun w => all_chars not_space w = true) (PyStr.split_go cur s).
Proof.
  revert cur. induction s as [|a s IH]; intros cur Hcur; simpl.
  - destruct cur; constructor; [|constructor].
    unfold String.rev. rewrite all_chars_rev_app, Hcur. reflexivity.
  - destruct (PyStr.isspace a) eqn:Ha.
    + destruct cur.
      * now apply IH.
      * constructor; [|now apply IH].
        unfold String.rev. rewrite all_chars_rev_app, Hcur. reflexivity.
    + apply IH. simpl. unfold not_space at 1. now rewrite Ha.
Qed.

Lemma split_words (s : string) :
  Forall (fun w => all_chars not_space w = true) (PyStr.split s).
Proof. now apply split_go_words. Qed.

Lemma join_space_no_newline (l : list string) :
  Forall (fun w => all_chars not_space w = true) l ->
  all_chars not_newline (PyStr.join " " l) = true.
Proof.
  assert (Hw : forall a, not_space a = true -> not_newline a = true).
  { intros a. unfold not_space, not_newline.
    destruct (Ascii.eqb_spec a "010") as [->|]; [discriminate|reflexivity]. }
  induction 1 as [|w l Hhd Htl IH]; [reflexivity|].
  unfold PyStr.join in *. simpl. destruct l as [|w' l].
  - exact (all_chars_weaken _ _ _ Hw Hhd).
  - change (all_chars not_newline (w +:+ (" " +:+ String.concat " " (w' :: l))) = true).
    rewrite !all_chars_app, IH, (all_chars_weaken _ _ _ Hw Hhd). reflexivity.
Qed.

Lemma find_paragraph_break_none (s : string) :
  all_chars not_newline s = true -> PyStr.find paragraph_break s = None.
Proof.
  induction s as [|a s IH]; [reflexivity|].
  cbn [all_chars]. intros [Ha Hs]%andb_true_iff. unfold not_newline in Ha.
  destruct (Ascii.eqb_spec a "010") as [->|Hne]; [discriminate|].
  cbn [PyStr.find]. rewrite (IH Hs).
  change paragraph_break with (String "010" PyStr.newline).
  cbn [String.prefix]. destruct (ascii_dec "010" a) as [E|_]; [congruence|reflexivity].
Qed.

(** The text of a window is rebuilt from the words joined by single spaces:
    it never holds a newline, so the paragraph rule of
    [_adjust_to_boundary] never applies to it. *)
Lemma window_text_no_paragraph_break (text : string) (s e : Z) :
  PyStr.find paragraph_break (PyStr.join " " (PySeq.slice (PyStr.split text) s e))
  = None.
Proof.
  apply find_paragraph_break_none, join_space_no_newline.
  unfold PySeq.slice. apply Forall_take, Forall_drop, split_words.
Qed.

Lemma rev_app_length (s1 s2 : string) :
  String.length (String.rev_app s1 s2) = (String.length s1 + String.length s2)%nat.
Proof.
  revert s2. induction s1 as [|a s1 IH]; intros s2; simpl; [reflexivity|].
  rewrite IH. simpl. lia.
Qed.

Lemma lstrip_length (s : string) :
  (String.length (PyStr.lstrip s) <= String.length s)%nat.
Proof.
  induction s as [|a s IH]; simpl; [lia|].
  destruct (PyStr.isspace a); simpl; lia.
Qed.

Lemma strip_length (s : string) :
  (String.length (PyStr.strip s) <= String.length s)%nat.
Proof.
  unfold PyStr.strip, PyStr.rstrip, String.rev. rewrite rev_app_length. simpl.
  pose proof (lstrip_length (String.rev_app (PyStr.lstrip s) "")) as H.
  rewrite rev_app_length in H. simpl in H.
  pose proof (lstrip_length s). lia.
Qed.

Lemma take_length (k : nat) (s : string) :
  (String.length (PyStr.take k s) <= String.length s)%nat.
Proof.
  unfold PyStr.take. revert k. induction s as [|a s IH]; intros [|k]; simpl; try lia.
  specialize (IH k). lia.
Qed.

(** Trimming never makes a chunk longer. *)
Lemma adjust_to_boundary_shortens (text : string) :
  (PyStr.len (_adjust_to_boundary text) <= PyStr.len text)%nat.
Proof.
  unfold _adjust_to_boundary, PyStr.len.
  destruct (PyStr.find paragraph_break text) as [p|].
  - destruct (String.length text <? 2 * p)%nat; [apply take_length|].
    destruct (List.find _ _); [|lia].
    etransitivity; [apply strip_length|apply take_length].
  - destruct (List.find _ _); [|lia].
    etransitivity; [apply strip_length|apply take_length].
Qed.

(** C6.  On a text whose first window of four words holds a paragraph break
    in its back half, [chunk_text] with boundaries respected emits the whole
    window: the break is lost when the window text is rebuilt from the
    words, although [_adjust_to_boundary] would trim the original span at
    it. *)
Theorem chunk_text_ignores_paragraph_break :
  chunk_text chunker_4_1 6 two_paragraphs = Some ["aaa bbb ccc ddd"; "ddd eee"]
  /\ _adjust_to_boundary ("aaa bbb ccc" +:+ paragraph_break +:+ "ddd") = "aaa bbb ccc"
  /\ (PyStr.len "aaa bbb ccc" * 2 > PyStr.len ("aaa bbb ccc" +:+ paragraph_break +:+ "ddd"))%nat.
Proof.
  split; [vm_compute; reflexivity|].
  split; [vm_compute; reflexivity|].
  vm_compute. lia.
Qed.

(** [re.search] stops at the first paragraph break: one in the front half
    hides a later one in the back half. *)
Example adjust_to_boundary_first_break_only :
  PyStr.find paragraph_break three_paragraphs = Some 1%nat
  /\ String.substring 10 2 three_paragraphs = paragraph_break
  /\ PyStr.len three_paragraphs = 13%nat
  /\ _adjust_to_boundary three_paragraphs = three_paragraphs.
Proof. vm_compute. repeat split. Qed.

(** The sentence rule: the chunk ends after the last sentence mark that is
    followed by whitespace and ends past the middle. *)
Example adjust_to_boundary_sentence :
  _adjust_to_boundary "One. Two three four. Five six" = "One. Two three four."
  /\ _adjust_to_boundary "One. Two three four five six seven" = "One. Two three four five six seven"
  /\ _adjust_to_boundary "no boundary here at all" = "no boundary here at all".
Proof. vm_compute. repeat split. Qed.

(* ===================================================================== *)
(** * Properties of the stable descending sort *)
(* ===================================================================== *)

Section StableSortFacts.
Context {A : Type} (key : A -> Q).

Lemma insert_desc_perm (x : A) (l : list A) :
  Permutation (insert_desc key x l) (x :: l).
Proof.
  induction l as [|y l IH]; simpl; [reflexivity|].
  destruct (Qle_bool (key y) (key x)); [reflexivity|].
  rewrite IH. apply perm_swap.
Qed.

Lemma sort_desc_perm (l : list A) : Permutation (sort_desc key l) l.
Proof.
  induction l as [|x l IH]; simpl; [reflexivity|].
  rewrite insert_desc_perm. now apply perm_skip.
Qed.

Lemma sort_desc_length (l : list A) : length (sort_desc key l) = length l.
Proof. apply Permutation_length, sort_desc_perm. Qed.

Lemma insert_desc_sorted (x : A) (l : list A) :
  sorted_desc key l -> sorted_desc key (insert_desc key x l).
Proof.
  unfold sorted_desc. induction 1 as [|y l Hs IH Hall]; simpl.
  - repeat constructor.
  - destruct (Qle_bool (key y) (key x)) eqn:E.
    + apply Qle_bool_iff in E. constructor; [now constructor|].
      constructor; [exact E|].
      eapply Forall_impl; [exact Hall|]. intros b Hb. cbn beta in *.
      now apply Qle_trans with (key y).
    + constructor; [exact IH|].
      apply (Permutation_Forall (Permutation_sym (insert_desc_perm x l))).
      constructor; [|exact Hall].
      destruct (Qlt_le_dec (key x) (key y)) as [Hlt|Hle].
      * now apply Qlt_le_weak.
      * apply Qle_bool_iff in Hle. congruence.
Qed.

Lemma sort_desc_sorted (l : list A) : sorted_desc key (sort_desc key l).
Proof.
  induction l as [|x l IH]; simpl; [constructor|].
  now apply insert_desc_sorted.
Qed.

Lemma insert_desc_stable (k : Q) (x : A) (l : list A) :
  with_key key k (insert_desc key x l) = with_key key k (x :: l).
Proof.
  unfold with_key. induction l as [|y l IH]; [reflexivity|].
  cbn [insert_desc]. destruct (Qle_bool (key y) (key x)) eqn:E; [reflexivity|].
  cbn [List.filter] in *. rewrite IH.
  destruct (Qeq_bool (key x) k) eqn:Ex, (Qeq_bool (key y) k) eqn:Ey; try reflexivity.
  apply Qeq_bool_iff in Ex, Ey.
  assert (Hle : (key y <= key x)%Q) by (rewrite Ex, Ey; apply Qle_refl).
  apply Qle_bool_iff in Hle. congruence.
Qed.

(** Elements with equal keys keep their relative order. *)
Lemma sort_desc_stable (k : Q) (l : list A) :
  with_key key k (sort_desc key l) = with_key key k l.
Proof.
  induction l as [|x l IH]; [reflexivity|].
  cbn [sort_desc fold_right]. rewrite insert_desc_stable.
  unfold with_key in *. cbn [List.filter]. fold (sort_desc key l). now rewrite IH.
Qed.

Lemma sorted_desc_filter (p : A -> bool) (l : list A) :
  sorted_desc key l -> sorted_desc key (List.filter p l).
Proof.
  unfold sorted_desc. induction 1 as [|y l Hs IH Hall]; simpl; [constructor|].
  destruct (p y); [|exact IH].
  constructor; [exact IH|].
  apply List.Forall_forall. intros b [Hb _]%filter_In.
  rewrite List.Forall_forall in Hall. now apply Hall.
Qed.

Lemma sorted_desc_firstn (k : nat) (l : list A) :
  sorted_desc key l -> sorted_desc key (firstn k l).
Proof.
  unfold sorted_desc. intros H. revert k.
  induction H as [|y l Hs IH Hall]; intros [|k]; simpl; try constructor.
  - apply IH.
  - apply List.Forall_forall. intros b Hb.
    rewrite List.Forall_forall in Hall. apply Hall.
    rewrite <- (firstn_skipn k l). apply in_or_app. now left.
Qed.

Lemma with_key_head (x : A) (l : list A) :
  with_key key (key x) (x :: l) = x :: with_key key (key x) l.
Proof.
  unfold with_key. cbn [List.filter].
  assert (E : Qeq_bool (key x) (key x) = true) by (apply Qeq_bool_iff; reflexivity).
  now rewrite E.
Qed.

Lemma with_key_In (k : Q) (x : A) (l : list A) :
  In x (with_key key k l) -> In x l.
Proof. unfold with_key. now intros [H _]%filter_In. Qed.

Lemma sorted_desc_head (x y : A) (l : list A) :
  sorted_desc key (x :: l) -> In y (x :: l) -> (key y <= key x)%Q.
Proof.
  intros H [<-|Hin]; [apply Qle_refl|].
  inversion H as [|a l' _ Hall]; subst.
  rewrite List.Forall_forall in Hall. now apply Hall.
Qed.

(** A descending list is determined by its classes of equal keys: the
    result of a stable descending sort does not depend on the algorithm. *)
Lemma sorted_desc_stable_unique (l1 l2 : list A) :
  sorted_desc key l1 -> sorted_desc key l2 ->
  (forall k, with_key key k l1 = with_key key k l2) ->
  l1 = l2.
Proof.
  revert l2. induction l1 as [|x l1 IH]; intros [|y l2] H1 H2 Hk.
  - reflexivity.
  - specialize (Hk (key y)). rewrite with_key_head in Hk. discriminate.
  - specialize (Hk (key x)). rewrite with_key_head in Hk. discriminate.
  - assert (Hx : In x (y :: l2)).
    { apply (with_key_In (key x)). rewrite <- Hk, with_key_head. now left. }
    assert (Hy : In y (x :: l1)).
    { apply (with_key_In (key y)). rewrite Hk, with_key_head. now left. }
    assert (Heq : (key y == key x)%Q).
    { apply Qle_antisym; [exact (sorted_desc_head _ _ _ H1 Hy)
                         |exact (sorted_desc_head _ _ _ H2 Hx)]. }
    assert (Exy : x = y).
    { pose proof (Hk (key x)) as E. rewrite with_key_head in E.
      unfold with_key in E. cbn [List.filter] in E.
      apply Qeq_bool_iff in Heq. rewrite Heq in E. now injection E. }
    subst y. f_equal. apply IH.
    + now inversion H1.
    + now inversion H2.
    + intros k. specialize (Hk k). unfold with_key in *. cbn [List.filter] in Hk.
      destruct (Qeq_bool (key x) k); [now injection Hk|exact Hk].
Qed.

Lemma sort_desc_unique (l l' : list A) :
  sorted_desc key l' ->
  (forall k, with_key key k l' = with_key key k l) ->
  l' = sort_desc key l.
Proof.
  intros Hs Hk. apply sorted_desc_stable_unique;
    [exact Hs|apply sort_desc_sorted|].
  intros k. now rewrite Hk, sort_desc_stable.
Qed.

End StableSortFacts.

(* ===================================================================== *)
(** * Properties of the selection handler *)
(* ===================================================================== *)

Lemma calculate_overlap_score_jaccard (text : string) (kw : gset string) :
  (_calculate_overlap_score text kw == jaccard (token_set text) kw)%Q.
Proof.
  unfold _calculate_overlap_score, jaccard.
  destruct (decide (kw = ∅)) as [E|E];
    [rewrite (bool_decide_true _ E); subst kw
    |rewrite (bool_decide_false _ E); reflexivity].
  destruct (size (token_set text ∪ ∅) =? 0)%nat; [reflexivity|].
  rewrite intersection_empty_r_L, size_empty. unfold Qdiv. simpl. now rewrite Qmult_0_l.
Qed.

Lemma score_chunk_combined (kw : gset string) (c : Chunk) :
  (combined_of (score_chunk kw c)
   == (6 # 10) * score c + (4 # 10) * overlap_of (score_chunk kw c))%Q.
Proof. unfold combined_of, overlap_of, score_chunk. simpl. ring. Qed.

Lemma prefix_nil {A} (m : Z) : PySeq.prefix (@nil A) m = [].
Proof. rewrite prefix_firstn. apply firstn_nil. Qed.

Lemma is_nil_true {A} (l : list A) : is_nil l = true <-> l = [].
Proof. destruct l; simpl; split; congruence. Qed.

(** The function past its guard. *)
Lemma filter_chunks_by_selection_body (h : SelectionHandler)
    (retrieved : list Chunk) (sel : string) (m : Z) :
  sel <> "" ->
  let ranked := ranked_chunks retrieved sel in
  let kept := List.filter (meets_threshold h) ranked in
  filter_chunks_by_selection h retrieved sel m
  = PySeq.prefix (if is_nil kept then PySeq.prefix ranked m else kept) m.
Proof.
  intros Hsel ranked kept. unfold filter_chunks_by_selection.
  rewrite bool_decide_false by exact Hsel. cbn [orb].
  destruct retrieved as [|c0 retrieved].
  - cbn [is_nil]. subst kept ranked. unfold ranked_chunks. cbn.
    now rewrite !prefix_nil.
  - cbn [is_nil]. fold (ranked_chunks (c0 :: retrieved) sel). fold ranked. fold kept.
    destruct (is_nil kept) eqn:Ek; [|reflexivity].
    destruct (is_nil ranked) eqn:Er; [|reflexivity].
    apply is_nil_true in Ek, Er. cbn [negb andb]. rewrite Ek, Er.
    now rewrite !prefix_nil.
Qed.

Lemma filter_chunks_by_selection_firstn (h : SelectionHandler)
    (retrieved : list Chunk) (sel : string) (m : Z) :
  sel <> "" -> 0 <= m ->
  let ranked := ranked_chunks retrieved sel in
  let kept := List.filter (meets_threshold h) ranked in
  filter_chunks_by_selection h retrieved sel m
  = firstn (Z.to_nat m) (if is_nil kept then ranked else kept).
Proof.
  intros Hsel Hm ranked kept.
  rewrite filter_chunks_by_selection_body by exact Hsel.
  fold ranked. fold kept. rewrite !prefix_nonneg by exact Hm.
  destruct (is_nil kept); [|reflexivity].
  rewrite take_take. f_equal. lia.
Qed.

Lemma prefix_sorted {A} (key : A -> Q) (l : list A) (m : Z) :
  sorted_desc key l -> sorted_desc key (PySeq.prefix l m).
Proof. intros H. rewrite prefix_firstn. now apply sorted_desc_firstn. Qed.

Lemma prefix_In {A} (l : list A) (m : Z) (x : A) :
  In x (PySeq.prefix l m) -> In x l.
Proof.
  rewrite prefix_firstn. intros H.
  rewrite <- (firstn_skipn (Z.to_nat (PySeq.clamp (PySeq.len l) m)) l).
  apply in_or_app. now left.
Qed.

Lemma prefix_length {A} (l : list A) (m : Z) :
  0 <= m -> PySeq.len (PySeq.prefix l m) <= m.
Proof.
  intros H. rewrite prefix_nonneg by exact H. unfold PySeq.len.
  rewrite length_firstn. lia.
Qed.

Example filter_chunks_by_selection_two_candidates :
  List.map (fun c => (chunk_id c, text_overlap c))
    (filter_chunks_by_selection SelectionHandler_default two_candidates sel20 3)
  = [(2, Some (10 # 16))].
Proof. vm_compute. reflexivity. Qed.

Example filter_chunks_by_selection_fallback :
  List.map chunk_id
    (filter_chunks_by_selection SelectionHandler_default off_topic_candidates sel20 1)
  = [2]
  /\ List.filter (meets_threshold SelectionHandler_default)
       (ranked_chunks off_topic_candidates sel20) = [].
Proof. vm_compute. split; reflexivity. Qed.

(* ===================================================================== *)
(** * Properties of the confidence heuristic *)
(* ===================================================================== *)

Lemma estimate_confidence_value (response context : string) :
  let cites :=
    PyStr.contains "Source" response || PyStr.contains "According to" response in
  let unsure :=
    existsb (fun phrase => PyStr.contains (PyStr.lower phrase) (PyStr.lower response))
            uncertainty_phrases in
  let substantial := (500 <? PyStr.len context)%nat in
  _estimate_confidence response context
  = let c0 := (5 # 10)%Q in
    let c1 := if cites then (c0 + (2 # 10))%Q else c0 in
    let c2 := if unsure then (c1 - (3 # 10))%Q else c1 in
    let c3 := if substantial then (c2 + (1 # 10))%Q else c2 in
    Qmax 0 (Qmin 1 c3).
Proof.
  intros cites unsure substantial. unfold _estimate_confidence.
  fold cites. fold unsure.
  assert (E : negb (bool_decide (context = "")) && (500 <? PyStr.len context)%nat
              = substantial).
  { destruct context; [reflexivity|]. now rewrite bool_decide_false by discriminate. }
  rewrite E. now destruct cites, unsure, substantial.
Qed.

Lemma estimate_confidence_bounds (response context : string) :
  (0 <= _estimate_confidence response context <= 1)%Q.
Proof.
  rewrite estimate_confidence_value.
  destruct (_ || _), (existsb _ _), (_ <? _)%nat;
    split; vm_compute; discriminate.
Qed.

(** C9.  The confidence score is the clamp to [0, 1] of 0.5, plus 0.2 when
    the response holds the text "Source" or "According to", minus 0.3 when
    it holds one of the four uncertainty phrases (compared in lower case),
    plus 0.1 when the context is longer than 500 characters; it always lies
    between 0 and 1. *)
Theorem estimate_confidence_clamped (response context : string) :
  let cites :=
    PyStr.contains "Source" response || PyStr.contains "According to" response in
  let unsure :=
    existsb (fun phrase => PyStr.contains (PyStr.lower phrase) (PyStr.lower response))
            ["I don't have enough information"; "I'm not sure"; "unclear";
             "cannot answer"] in
  let substantial := (500 <? PyStr.len context)%nat in
  (_estimate_confidence response context
   == Qmax 0 (Qmin 1 ((5 # 10)
                      + (if cites then 2 # 10 else 0)
                      - (if unsure then 3 # 10 else 0)
                      + (if substantial then 1 # 10 else 0))))%Q
  /\ (0 <= _estimate_confidence response context <= 1)%Q.
Proof.
  intros cites unsure substantial. split; [|apply estimate_confidence_bounds].
  rewrite estimate_confidence_value. fold cites. fold unsure. fold substantial.
  fold uncertainty_phrases in unsure. fold unsure.
  destruct cites, unsure, substantial; vm_compute; reflexivity.
Qed.

Example estimate_confidence_cited :
  (_estimate_confidence "According to Source 1, ROS 2 is middleware." "short" == 7 # 10)%Q.
Proof. vm_compute. reflexivity. Qed.

Example estimate_confidence_unsure :
  (_estimate_confidence "I'M NOT SURE about that." "" == 2 # 10)%Q.
Proof. vm_compute. reflexivity. Qed.

(* ===================================================================== *)
(** * Properties of retrieval, validation and orchestration *)
(* ===================================================================== *)


Section PipelineFacts.
Variable embed_remote : string -> list Q.
Variable search_remote : list Q -> Z -> option Q -> list Chunk.
Variable complete_remote : string -> string -> Z -> string.
Variable format_2f : Q -> string.
Variable default_system_prompt : string.
Variable selected_text_system_prompt : string.

Abbreviation retrieve_sel := (retrieve_for_selected_text embed_remote search_remote).
Abbreviation retrieve_step' := (retrieve_step embed_remote search_remote).
Abbreviation process_query' :=
  (process_query embed_remote search_remote complete_remote format_2f
     default_system_prompt selected_text_system_prompt).
Abbreviation handle_search_textbook' :=
  (handle_search_textbook embed_remote search_remote complete_remote format_2f
     default_system_prompt selected_text_system_prompt).

(** What [retrieve_for_selected_text] does from any trace. *)
Lemma retrieve_for_selected_text_run (question sel : string) (m : Z)
    (t : list Call) :
  let se := embed_remote (embedding_input sel) in
  let qe := embed_remote (embedding_input question) in
  let candidates := search_remote (blend qe se) m (Some (6 # 10)) in
  retrieve_sel question sel m t
  = (inr (PySeq.prefix (List.filter (shares_words sel) candidates) m),
     t ++ [CallEmbed (embedding_input sel); CallEmbed (embedding_input question);
           CallSearch (blend qe se) m (Some (6 # 10))]).
Proof.
  intros se qe candidates.
  unfold retrieve_for_selected_text, generate_embedding, search, bind, remote, ret.
  simpl. now rewrite <- !app_assoc.
Qed.


(** ** Citations *)

Lemma extract_source_citations_ok (chunks : list Chunk) (t : list Call) :
  Forall (fun c => (0 <= score c <= 1)%Q) chunks ->
  _extract_source_citations chunks t = (inr (List.map citation_of chunks), t).
Proof.
  unfold _extract_source_citations.
  induction 1 as [|c chunks [Hlo Hhi] _ IH]; [reflexivity|].
  assert (E : SourceCitation_new (citation_of c) = inr (citation_of c)).
  { unfold SourceCitation_new. cbn [relevance_score citation_of].
    apply Qle_bool_iff in Hlo, Hhi. now rewrite Hlo, Hhi. }
  cbn [mapM List.map]. unfold bind. rewrite E. cbn [lift ret].
  rewrite IH. reflexivity.
Qed.

Lemma generate_run (request : QueryRequest) (context : string) (t : list Call) :
  exists (text : string) (call : Call),
    match selection_of request with
    | Some sel =>
        generate_response_with_selected_text complete_remote
          selected_text_system_prompt (query_text request) context sel
    | None =>
        generate_response complete_remote default_system_prompt
          (query_text request) context
    end t
    = (inr (text, _estimate_confidence text context), t ++ [call]).
Proof.
  destruct (selection_of request);
    unfold generate_response_with_selected_text, generate_response, bind, remote, ret;
    eexists _, _; reflexivity.
Qed.


(** ** Validation *)

Lemma field_selected_text_rejects (mode : option string) (selected : string) :
  get_word_count selected < 20 \/ 2000 < get_word_count selected ->
  field_selected_text mode (Given (Some selected)) = None.
Proof.
  intros Hwc. unfold field_selected_text.
  destruct selected as [|a selected]; [reflexivity|].
  destruct (_ && _); [|reflexivity].
  unfold validate_selected_text, get_word_count in *.
  destruct (bool_decide _ && _); [reflexivity|].
  destruct (Z.ltb_spec (PySeq.len (PyStr.split (String a selected))) 20);
    [reflexivity|].
  destruct (Z.gtb_spec (PySeq.len (PyStr.split (String a selected))) 2000);
    [reflexivity|lia].
Qed.

(** C8.  A selected passage of fewer than 20 or more than 2000 words is
    rejected: the field validator raises in selected-text mode, no
    [QueryRequest] can be built from an input that carries the passage, and
    [handle_search_textbook] answers with the error without having made
    any embedding, search or completion call. *)
Theorem selected_text_word_count_rejected (query selected : string)
    (max_results : Z) :
  get_word_count selected < 20 \/ 2000 < get_word_count selected ->
  (exists e, validate_selected_text (Some "selected-text") (Some selected) = inl e)
  /\ (forall i : QueryInput,
        in_selected_text i = Given (Some selected) ->
        exists e, QueryRequest_new i = inl e)
  /\ (exists e,
        run (handle_search_textbook' query (Some selected) max_results)
        = (inr (ToolError e), [])).
Proof.
  intros Hwc. split; [|split].
  - unfold validate_selected_text, get_word_count in *.
    destruct selected as [|a selected]; [now eexists|].
    rewrite bool_decide_true by reflexivity. cbn [andb].
    destruct (Z.ltb_spec (PySeq.len (PyStr.split (String a selected))) 20);
      [now eexists|].
    destruct (Z.gtb_spec (PySeq.len (PyStr.split (String a selected))) 2000);
      [now eexists|lia].
  - intros i Hi. unfold QueryRequest_new. rewrite Hi.
    rewrite (field_selected_text_rejects _ _ Hwc).
    destruct (field_query_text _); [destruct (field_query_mode _)|]; now eexists.
  - unfold run, handle_search_textbook, QueryRequest_new.
    cbn [in_query_text in_query_mode in_selected_text in_max_results in_session_id].
    rewrite (field_selected_text_rejects _ _ Hwc).
    destruct (field_query_text _); [destruct (field_query_mode _)|]; now eexists.
Qed.

End PipelineFacts.

(** ** A concrete run *)

Example demo_step :
  run (retrieve_step demo_embed demo_search demo_request) = (inr demo_final, demo_trace).
Proof. vm_compute. reflexivity. Qed.






Lemma selected_text_word_count_rejected_witness :
  (get_word_count "too short" < 20 \/ 2000 < get_word_count "too short")
  /\ exists e,
       run (handle_search_textbook demo_embed demo_search demo_complete demo_format
              "system" "system" "what is this about?" (Some "too short") 3)
       = (inr (ToolError e), []).
Proof.
  assert (H : get_word_count "too short" < 20 \/ 2000 < get_word_count "too short")
    by (left; vm_compute; reflexivity).
  split; [exact H|].
  apply (selected_text_word_count_rejected demo_embed demo_search demo_complete
           demo_format "system" "system" "what is this about?" "too short" 3 H).
Defined.

Example handle_search_textbook_accepts_twenty_words :
  match run (handle_search_textbook demo_embed demo_search demo_complete demo_format
               "system" "system" "what is this about?" (Some sel20) 3) with
  | (inr (ToolSuccess answer), t) =>
      length t = 4%nat /\ retrieved_chunks answer = 1
      /\ List.map chapter_title (source_citations answer) = ["Unknown Chapter"]
  | _ => False
  end.
Proof. vm_compute. repeat split. Qed.

(* ===================================================================== *)
(** * Further properties of the text primitives *)
(* ===================================================================== *)

Lemma str_app_assoc (a b d : string) : (a +:+ b) +:+ d = a +:+ (b +:+ d).
Proof.
  induction a as [|x a IH]; [reflexivity|].
  change (String x ((a +:+ b) +:+ d) = String x (a +:+ (b +:+ d))). now rewrite IH.
Qed.

Lemma str_app_nil_r (a : string) : a +:+ "" = a.
Proof.
  induction a as [|x a IH]; [reflexivity|].
  change (String x (a +:+ "") = String x a). now rewrite IH.
Qed.

Lemma str_app_cons (x : ascii) (a b : string) :
  String x a +:+ b = String x (a +:+ b).
Proof. reflexivity. Qed.

Lemma rev_app_spec (s acc : string) :
  String.rev_app s acc = String.rev s +:+ acc.
Proof.
  unfold String.rev. revert acc. induction s as [|x s IH]; intros acc; [reflexivity|].
  cbn [String.rev_app]. rewrite IH, (IH (String x "")), str_app_assoc. reflexivity.
Qed.

Lemma rev_cons (x : ascii) (s : string) :
  String.rev (String x s) = String.rev s +:+ String x "".
Proof. unfold String.rev at 1. cbn [String.rev_app]. apply rev_app_spec. Qed.

Lemma rev_app_app (s t acc : string) :
  String.rev_app (s +:+ t) acc = String.rev_app t (String.rev_app s acc).
Proof.
  revert acc. induction s as [|x s IH]; intros acc; [reflexivity|].
  rewrite str_app_cons. cbn [String.rev_app]. apply IH.
Qed.

Lemma rev_snoc (s : string) (x : ascii) :
  String.rev (s +:+ String x "") = String x (String.rev s).
Proof. unfold String.rev. now rewrite rev_app_app. Qed.

Lemma rev_rev_app (s a b : string) :
  String.rev_app (String.rev_app s a) b = String.rev_app a (s +:+ b).
Proof.
  revert a b. induction s as [|x s IH]; intros a b; [reflexivity|].
  cbn [String.rev_app]. rewrite IH. reflexivity.
Qed.

Lemma rev_involutive (s : string) : String.rev (String.rev s) = s.
Proof. unfold String.rev. rewrite rev_rev_app. cbn. apply str_app_nil_r. Qed.

Lemma blank_rev (s : string) : blank (String.rev s) = blank s.
Proof. unfold String.rev. rewrite blank_rev_app. cbn. apply andb_true_r. Qed.

Lemma blank_app (a b : string) : blank (a +:+ b) = blank a && blank b.
Proof.
  induction a as [|x a IH]; [reflexivity|].
  rewrite str_app_cons. cbn [blank]. now rewrite IH, andb_assoc.
Qed.

Lemma lstrip_app (a b : string) :
  PyStr.lstrip (a +:+ b)
  = if blank a then PyStr.lstrip b else PyStr.lstrip a +:+ b.
Proof.
  induction a as [|x a IH]; [reflexivity|].
  rewrite str_app_cons. cbn [PyStr.lstrip blank].
  destruct (PyStr.isspace x); [exact IH|reflexivity].
Qed.

(** [rstrip], read from the left. *)
Lemma rstrip_cons (x : ascii) (s : string) :
  PyStr.rstrip (String x s)
  = if blank (String x s) then "" else String x (PyStr.rstrip s).
Proof.
  unfold PyStr.rstrip. rewrite rev_cons, lstrip_app, blank_rev.
  cbn [blank]. destruct (blank s) eqn:Hs.
  - rewrite andb_true_r. cbn [PyStr.lstrip].
    assert (E : PyStr.lstrip (String.rev s) = "").
    { apply lstrip_empty_iff. now rewrite blank_rev. }
    rewrite E. destruct (PyStr.isspace x); reflexivity.
  - rewrite andb_false_r. apply rev_snoc.
Qed.

Lemma rstrip_nil : PyStr.rstrip "" = "".
Proof. reflexivity. Qed.

Lemma rstrip_blank (s : string) : blank s = true -> PyStr.rstrip s = "".
Proof.
  intros H. destruct s as [|x s]; [reflexivity|]. now rewrite rstrip_cons, H.
Qed.

Lemma lstrip_split (s : string) :
  exists ws, blank ws = true /\ s = ws +:+ PyStr.lstrip s.
Proof.
  induction s as [|x s (ws & Hws & IH)]; [now exists ""|].
  cbn [PyStr.lstrip]. destruct (PyStr.isspace x) eqn:Hx.
  - exists (String x ws). split; [cbn; now rewrite Hx|].
    rewrite str_app_cons. now rewrite <- IH.
  - now exists "".
Qed.

Lemma rstrip_split (s : string) :
  exists ws, blank ws = true /\ s = PyStr.rstrip s +:+ ws.
Proof.
  induction s as [|x s (ws & Hws & IH)]; [now exists ""|].
  rewrite rstrip_cons. destruct (blank (String x s)) eqn:Hb.
  - now exists (String x s).
  - exists ws. split; [exact Hws|]. rewrite str_app_cons. now rewrite <- IH.
Qed.

(** A text that does not begin with whitespace. *)
Lemma lstrip_id (x : ascii) (s : string) :
  PyStr.isspace x = false -> PyStr.lstrip (String x s) = String x s.
Proof. intros H. cbn. now rewrite H. Qed.

Lemma take_split (k : nat) (s : string) :
  exists rest, s = PyStr.take k s +:+ rest.
Proof.
  unfold PyStr.take. revert k. induction s as [|x s IH]; intros [|k]; cbn.
  - now exists "".
  - now exists "".
  - now exists (String x s).
  - destruct (IH k) as (rest & E). exists rest. rewrite str_app_cons. now rewrite <- E.
Qed.

Lemma take_cons (k : nat) (x : ascii) (s : string) :
  PyStr.take (S k) (String x s) = String x (PyStr.take k s).
Proof. reflexivity. Qed.

(** ** Splitting *)

Lemma split_go_lead (ws s : string) :
  blank ws = true -> PyStr.split_go "" (ws +:+ s) = PyStr.split_go "" s.
Proof.
  induction ws as [|x ws IH]; [reflexivity|].
  cbn [blank]. intros [Hx Hws]%andb_true_iff.
  rewrite str_app_cons. cbn [PyStr.split_go]. rewrite Hx. now apply IH.
Qed.

Lemma split_go_end (cur ws : string) :
  blank ws = true -> PyStr.split_go cur ws = PyStr.split_go cur "".
Proof.
  destruct ws as [|x ws]; [reflexivity|].
  cbn [blank]. intros [Hx Hws]%andb_true_iff.
  cbn [PyStr.split_go]. rewrite Hx, (split_go_blank ws Hws). now destruct cur.
Qed.

Lemma split_go_trail (cur s ws : string) :
  blank ws = true -> PyStr.split_go cur (s +:+ ws) = PyStr.split_go cur s.
Proof.
  intros Hws. revert cur. induction s as [|x s IH]; intros cur.
  - now apply split_go_end.
  - rewrite str_app_cons. cbn [PyStr.split_go]. now rewrite !IH.
Qed.

(** Stripping does not change the words. *)
Lemma split_strip (s : string) : PyStr.split (PyStr.strip s) = PyStr.split s.
Proof.
  unfold PyStr.split, PyStr.strip.
  destruct (lstrip_split s) as (ws1 & H1 & E1).
  destruct (rstrip_split (PyStr.lstrip s)) as (ws2 & H2 & E2).
  rewrite E1 at 2. rewrite (split_go_lead _ _ H1).
  rewrite E2 at 2. now rewrite (split_go_trail _ _ _ H2).
Qed.

Lemma split_go_nonempty_cur (x : ascii) (cur s : string) :
  PyStr.split_go (String x cur) s <> [].
Proof.
  revert x cur. induction s as [|y s IH]; intros x cur; cbn [PyStr.split_go].
  - discriminate.
  - destruct (PyStr.isspace y); [discriminate|apply IH].
Qed.

Lemma split_go_not_blank (cur s : string) :
  blank s = false -> PyStr.split_go cur s <> [].
Proof.
  revert cur. induction s as [|y s IH]; intros cur; [discriminate|].
  cbn [blank PyStr.split_go]. destruct (PyStr.isspace y); cbn [andb].
  - intros Hs. destruct cur; [now apply IH|discriminate].
  - intros _. apply split_go_nonempty_cur.
Qed.

(** A prefix never has more words. *)
Lemma split_go_prefix_le (cur a b : string) :
  (length (PyStr.split_go cur a) <= length (PyStr.split_go cur (a +:+ b)))%nat.
Proof.
  revert cur. induction a as [|x a IH]; intros cur.
  - cbn [String.app PyStr.split_go]. change ("" +:+ b) with b.
    destruct cur as [|y cur]; [cbn; lia|].
    pose proof (split_go_nonempty_cur y cur b) as H.
    destruct (PyStr.split_go (String y cur) b); [congruence|cbn; lia].
  - rewrite str_app_cons. cbn [PyStr.split_go].
    destruct (PyStr.isspace x); [|apply IH].
    destruct cur; [apply IH|]. cbn [length]. specialize (IH ""). lia.
Qed.

Lemma split_go_word (w cur s : string) :
  all_chars not_space w = true ->
  PyStr.split_go cur (w +:+ s) = PyStr.split_go (String.rev_app w cur) s.
Proof.
  revert cur. induction w as [|x w IH]; intros cur; [reflexivity|].
  cbn [all_chars]. intros [Hx Hw]%andb_true_iff.
  rewrite str_app_cons. cbn [PyStr.split_go String.rev_app].
  unfold not_space in Hx. apply negb_true_iff in Hx. rewrite Hx. now apply IH.
Qed.

Lemma rev_app_cur_nonempty (w cur : string) :
  w <> "" -> exists x r, String.rev_app w cur = String x r.
Proof.
  intros Hw. destruct (String.rev_app w cur) as [|x r] eqn:E; [|now exists x, r].
  exfalso. destruct w as [|y w]; [congruence|].
  cbn in E. revert E. apply rev_app_nonempty. discriminate.
Qed.

(** Round trip: joining clean words by single spaces and splitting again
    gives the words back. *)
Lemma split_join (ws : list string) :
  Forall clean_word ws -> PyStr.split (PyStr.join " " ws) = ws.
Proof.
  unfold PyStr.split, PyStr.join.
  induction 1 as [|w ws [Hne Hw] Hrest IH]; [reflexivity|].
  destruct (rev_app_cur_nonempty w "" Hne) as (x & r & Hr).
  assert (Hrev : String.rev (String x r) = w).
  { rewrite <- Hr. apply rev_involutive. }
  destruct ws as [|w' ws].
  - cbn [String.concat]. rewrite <- (str_app_nil_r w) at 1.
    rewrite (split_go_word _ _ _ Hw), Hr.
    cbn [PyStr.split_go]. now rewrite Hrev.
  - change (String.concat " " (w :: w' :: ws))
      with (w +:+ String " " (String.concat " " (w' :: ws))).
    rewrite (split_go_word _ _ _ Hw), Hr. cbn [PyStr.split_go].
    change (PyStr.isspace " ") with true. cbn iota. now rewrite Hrev, IH.
Qed.

Lemma split_go_clean (cur s : string) :
  all_chars not_space cur = true ->
  Forall clean_word (PyStr.split_go cur s).
Proof.
  intros Hcur. pose proof (split_go_words cur s Hcur) as Hw.
  assert (Hne : Forall (fun w => w <> "") (PyStr.split_go cur s)).
  { clear. revert cur. induction s as [|x s IH]; intros cur; cbn [PyStr.split_go].
    - destruct cur as [|y cur]; constructor; [|constructor].
      rewrite rev_cons. destruct (String.rev cur); discriminate.
    - destruct (PyStr.isspace x); [|apply IH].
      destruct cur as [|y cur]; [apply IH|]. constructor; [|apply IH].
      rewrite rev_cons. destruct (String.rev cur); discriminate. }
  apply List.Forall_forall. intros w Hin. split.
  - rewrite List.Forall_forall in Hne. now apply Hne.
  - rewrite List.Forall_forall in Hw. now apply Hw.
Qed.

Lemma split_clean (s : string) : Forall clean_word (PyStr.split s).
Proof. now apply split_go_clean. Qed.

Lemma slice_clean (s : string) (a b : Z) :
  Forall clean_word (PySeq.slice (PyStr.split s) a b).
Proof. unfold PySeq.slice. apply Forall_take, Forall_drop, split_clean. Qed.

(** The text of a window has exactly the window's words. *)
Lemma split_window_text (s : string) (a b : Z) :
  PyStr.split (PyStr.join " " (PySeq.slice (PyStr.split s) a b))
  = PySeq.slice (PyStr.split s) a b.
Proof. apply split_join, slice_clean. Qed.

(* ===================================================================== *)
(** * Further properties of the chunker *)
(* ===================================================================== *)

Lemma sentence_end_not_space (x : ascii) :
  is_sentence_end x = true -> PyStr.isspace x = false.
Proof.
  unfold is_sentence_end.
  destruct (Ascii.eqb_spec x ".") as [->|_]; [reflexivity|].
  destruct (Ascii.eqb_spec x "!") as [->|_]; [reflexivity|].
  destruct (Ascii.eqb_spec x "?") as [->|_]; [reflexivity|discriminate].
Qed.

(** A sentence match ends after its start, and the text up to its end is
    not blank. *)
Lemma sentence_match_take (k : nat) (s : string) (i e : nat) :
  In (i, e) (sentence_matches_from k s) ->
  (k <= i < e)%nat /\ blank (PyStr.take (e - k) s) = false.
Proof.
  revert k. induction s as [|x s IH]; intros k; [intros []|].
  cbn [sentence_matches_from].
  destruct (is_sentence_end x && (0 <? PyStr.span_space s)%nat) eqn:Hm.
  - intros [E|Hin].
    + injection E as <- <-. apply andb_true_iff in Hm. destruct Hm as [Hx _].
      split; [lia|].
      replace (k + 1 + PyStr.span_space s - k)%nat with (S (PyStr.span_space s)) by lia.
      rewrite take_cons. cbn [blank]. now rewrite (sentence_end_not_space x Hx).
    + destruct (IH (S k) Hin) as [Hk Hb]. split; [lia|].
      replace (e - k)%nat with (S (e - S k)) by lia.
      rewrite take_cons. cbn [blank]. rewrite Hb. apply andb_false_r.
  - intros Hin. destruct (IH (S k) Hin) as [Hk Hb]. split; [lia|].
    replace (e - k)%nat with (S (e - S k)) by lia.
    rewrite take_cons. cbn [blank]. rewrite Hb. apply andb_false_r.
Qed.

(** The three outcomes of [_adjust_to_boundary]. *)
Lemma adjust_to_boundary_cases (text : string) :
  _adjust_to_boundary text = text
  \/ (exists p, PyStr.find paragraph_break text = Some p
               /\ (PyStr.len text < 2 * p)%nat
               /\ _adjust_to_boundary text = PyStr.take p text)
  \/ (exists i e, In (i, e) (sentence_matches text)
                 /\ (PyStr.len text < 2 * e)%nat
                 /\ _adjust_to_boundary text = PyStr.strip (PyStr.take e text)).
Proof.
  unfold _adjust_to_boundary.
  set (found := List.find _ (rev (sentence_matches text))).
  assert (Hs : (exists i e, found = Some (i, e) /\ In (i, e) (sentence_matches text)
                            /\ (PyStr.len text < 2 * e)%nat)
               \/ found = None).
  { destruct found as [[i e]|] eqn:E; [left|now right].
    apply find_some in E. destruct E as [Hin Hp].
    exists i, e. split; [reflexivity|]. split; [now apply in_rev|].
    cbn in Hp. now apply Nat.ltb_lt in Hp. }
  assert (Hsent : match found with
                  | Some m => PyStr.strip (PyStr.take (snd m) text)
                  | None => text
                  end = text
                  \/ exists i e, In (i, e) (sentence_matches text)
                       /\ (PyStr.len text < 2 * e)%nat
                       /\ match found with
                          | Some m => PyStr.strip (PyStr.take (snd m) text)
                          | None => text
                          end = PyStr.strip (PyStr.take e text)).
  { destruct Hs as [(i & e & -> & Hin & He) | -> ]; [right|now left].
    now exists i, e. }
  destruct (PyStr.find paragraph_break text) as [p|].
  - destruct (Nat.ltb_spec (PyStr.len text) (2 * p)) as [Hp|_].
    + right. left. now exists p.
    + destruct Hsent as [->|H]; [now left|right; now right].
  - destruct Hsent as [->|H]; [now left|right; now right].
Qed.

Lemma is_prefix_of_refl (s : string) : is_prefix_of s s.
Proof. exists "". now rewrite str_app_nil_r. Qed.

Lemma is_prefix_of_trans (a b d : string) :
  is_prefix_of a b -> is_prefix_of b d -> is_prefix_of a d.
Proof.
  intros (t1 & ->) (t2 & ->). exists (t1 +:+ t2). apply str_app_assoc.
Qed.

Lemma take_is_prefix (k : nat) (s : string) : is_prefix_of (PyStr.take k s) s.
Proof. destruct (take_split k s) as (rest & E). now exists rest. Qed.

Lemma rstrip_is_prefix (s : string) : is_prefix_of (PyStr.rstrip s) s.
Proof. destruct (rstrip_split s) as (ws & _ & E). now exists ws. Qed.

Lemma join_head (ws : list string) :
  Forall clean_word ws -> ws <> [] ->
  exists x r, PyStr.join " " ws = String x r /\ PyStr.isspace x = false.
Proof.
  intros Hall Hne. destruct Hall as [|w ws [Hw Hc] _]; [congruence|].
  destruct w as [|x w]; [congruence|].
  cbn [all_chars] in Hc. apply andb_true_iff in Hc. destruct Hc as [Hx _].
  unfold not_space in Hx. apply negb_true_iff in Hx.
  unfold PyStr.join. destruct ws as [|w' ws].
  - now exists x, w.
  - exists x, (w +:+ String " " (String.concat " " (w' :: ws))). now split.
Qed.

(** On the text of a window, trimming cuts a tail off and leaves at least
    one word. *)
Lemma adjust_window_text (ws : list string) :
  Forall clean_word ws ->
  let t := PyStr.join " " ws in
  is_prefix_of (_adjust_to_boundary t) t
  /\ (length (PyStr.split (_adjust_to_boundary t)) <= length ws)%nat
  /\ (ws <> [] -> PyStr.split (_adjust_to_boundary t) <> []).
Proof.
  intros Hall t.
  assert (Hsplit : PyStr.split t = ws) by now apply split_join.
  destruct (adjust_to_boundary_cases t) as [->|[(p & Hp & _)|(i & e & Hin & _ & ->)]].
  - split; [apply is_prefix_of_refl|]. rewrite Hsplit. split; [lia|auto].
  - exfalso. unfold t in Hp.
    rewrite find_paragraph_break_none in Hp; [discriminate|].
    apply join_space_no_newline.
    eapply Forall_impl; [exact Hall|]. now intros w [_ Hw].
  - destruct (sentence_match_take 0 t i e Hin) as [Hie Hb].
    rewrite Nat.sub_0_r in Hb.
    assert (Hcount : (length (PyStr.split (PyStr.take e t)) <= length ws)%nat).
    { rewrite <- Hsplit. destruct (take_split e t) as (rest & E).
      rewrite E at 2. apply split_go_prefix_le. }
    rewrite split_strip. split; [|split; [exact Hcount|]].
    + destruct ws as [|w0 ws0]; [destruct Hin|].
      destruct (join_head (w0 :: ws0) Hall) as (x & r & Ht & Hx); [discriminate|].
      fold t in Ht. unfold PyStr.strip.
      destruct e as [|e]; [lia|]. rewrite Ht, take_cons, (lstrip_id _ _ Hx).
      rewrite <- take_cons, <- Ht.
      eapply is_prefix_of_trans; [apply rstrip_is_prefix|apply take_is_prefix].
    + intros _. now apply split_go_not_blank.
Qed.

(** A result of the loop comes from a chain of windows. *)
Lemma chunk_windows_result_chain (c : TextChunker) (fuel : nat) (n start : Z)
    (ws : list (Z * Z)) :
  0 <= overlap_size c < chunk_size c -> start < n ->
  chunk_windows c fuel n start = Some ws -> window_chain c n start ws.
Proof.
  intros Hgap Hs Hws.
  destruct (chunk_windows_chain c Hgap (fuel + Z.to_nat (n - start)) n start)
    as (ws' & Hws' & Hch); [lia|lia|].
  rewrite (chunk_windows_more_fuel c fuel _ n start ws Hws) in Hws' by lia.
  now injection Hws' as <-.
Qed.

(** The word count of a chunk lies between 1 and [chunk_size]. *)
Lemma chunk_text_word_counts (c : TextChunker) (fuel : nat)
    (text : string) (chunks : list string) :
  0 <= overlap_size c < chunk_size c ->
  chunk_text c fuel text = Some chunks ->
  forall chunk, In chunk chunks -> 1 <= get_word_count chunk <= chunk_size c.
Proof.
  intros Hgap Hrun chunk Hin.
  destruct (blank text) eqn:Hb.
  { rewrite chunk_text_blank in Hrun by exact Hb. injection Hrun as <-. destruct Hin. }
  assert (Hpos : 0 < get_word_count text).
  { unfold get_word_count, PySeq.len.
    pose proof (split_go_not_blank "" text Hb) as Hne. fold (PyStr.split text) in Hne.
    destruct (PyStr.split text); [congruence|cbn; lia]. }
  destruct (Z.le_gt_cases (get_word_count text) (chunk_size c)) as [Hle|Hgt].
  { rewrite chunk_text_short in Hrun by assumption. injection Hrun as <-.
    destruct Hin as [<-|[]]. lia. }
  unfold get_word_count in *.
  rewrite chunk_text_long in Hrun by lia.
  destruct (chunk_windows c fuel _ 0) as [ws|] eqn:Hws; [|discriminate].
  injection Hrun as <-. apply in_map_iff in Hin. destruct Hin as (w & <- & Hw).
  pose proof (chunk_windows_result_chain c fuel _ 0 ws Hgap Hpos Hws) as Hch.
  destruct (chain_bounds c Hgap _ 0 ws Hch w Hw) as (H0 & H1 & H2 & H3).
  destruct (slice_inside (PyStr.split text) (fst w) (snd w)) as [_ Hlen]; [lia..|].
  pose proof (slice_clean text (fst w) (snd w)) as Hclean.
  assert (Hne : PySeq.slice (PyStr.split text) (fst w) (snd w) <> []).
  { intros E. rewrite E in Hlen. unfold PySeq.len in Hlen. cbn in Hlen. lia. }
  unfold emit_window, PySeq.len in *.
  destruct (respect_boundaries c && (snd w <? _)).
  - destruct (adjust_window_text _ Hclean) as (_ & Hle & Hnz).
    specialize (Hnz Hne).
    destruct (PyStr.split (_adjust_to_boundary _)); [congruence|]. cbn [length] in *. lia.
  - rewrite split_window_text. lia.
Qed.

(** X1.  With [0 <= overlap_size < chunk_size], every chunk that
    [chunk_text] returns holds at least one word and at most [chunk_size]
    words, trimmed or not. *)
Theorem chunk_text_chunk_word_counts (c : TextChunker) (fuel : nat)
    (text : string) (chunks : list string) :
  0 <= overlap_size c < chunk_size c ->
  chunk_text c fuel text = Some chunks ->
  forall chunk, In chunk chunks -> 1 <= get_word_count chunk <= chunk_size c.
Proof.
  exact (chunk_text_word_counts c fuel text chunks).
Qed.

Lemma chunk_text_chunk_word_counts_witness :
  0 <= overlap_size chunker_3_1 < chunk_size chunker_3_1
  /\ chunk_text chunker_3_1 8 seven_words
     = Some ["one two three"; "three four five"; "five six seven"]
  /\ 1 <= get_word_count "three four five" <= chunk_size chunker_3_1.
Proof.
  assert (H1 : 0 <= overlap_size chunker_3_1 < chunk_size chunker_3_1) by (cbn; lia).
  assert (H2 : chunk_text chunker_3_1 8 seven_words
               = Some ["one two three"; "three four five"; "five six seven"])
    by (vm_compute; reflexivity).
  split; [exact H1|]. split; [exact H2|].
  apply (chunk_text_chunk_word_counts chunker_3_1 8 seven_words _ H1 H2).
  right. left. reflexivity.
Defined.

(** X2.  The text emitted for a window of [text.split()] is an initial part
    of the window's words joined by single spaces: boundary trimming only
    cuts a tail off, and it cuts nothing when boundaries are not respected or
    the window reaches the end of the text. *)
Theorem emit_window_is_prefix (c : TextChunker) (text : string) (w : Z * Z) :
  let words := PyStr.split text in
  let window_text := PyStr.join " " (PySeq.slice words (fst w) (snd w)) in
  is_prefix_of (emit_window c words w) window_text
  /\ (PyStr.len (emit_window c words w) <= PyStr.len window_text)%nat
  /\ (respect_boundaries c = false \/ PySeq.len words <= snd w ->
      emit_window c words w = window_text).
Proof.
  intros words window_text. unfold emit_window. fold words. fold window_text.
  split; [|split].
  - destruct (respect_boundaries c && _); [|apply is_prefix_of_refl].
    apply (adjust_window_text _ (slice_clean text (fst w) (snd w))).
  - destruct (respect_boundaries c && _); [|lia].
    apply adjust_to_boundary_shortens.
  - intros [->|Hend]; [reflexivity|].
    destruct (Z.ltb_spec (snd w) (PySeq.len words)); [lia|].
    now rewrite andb_false_r.
Qed.

Lemma emit_window_is_prefix_witness :
  (respect_boundaries (with_boundaries chunker_3_1 false) = false
   \/ PySeq.len (PyStr.split seven_words) <= 3)
  /\ emit_window (with_boundaries chunker_3_1 false) (PyStr.split seven_words) (0, 3)
     = PyStr.join " " (PySeq.slice (PyStr.split seven_words) 0 3).
Proof.
  assert (H : respect_boundaries (with_boundaries chunker_3_1 false) = false
              \/ PySeq.len (PyStr.split seven_words) <= 3) by (left; reflexivity).
  split; [exact H|].
  apply (emit_window_is_prefix (with_boundaries chunker_3_1 false) seven_words (0, 3)).
  exact H.
Defined.

Lemma rebuild_tail (c : TextChunker) (words : list string) (n s : Z)
    (ws : list (Z * Z)) :
  0 <= overlap_size c < chunk_size c -> n = PySeq.len words ->
  window_chain c n s ws -> 0 <= s -> s + overlap_size c <= n ->
  List.concat (List.map (skipn (Z.to_nat (overlap_size c)))
                 (List.map (fun w => PySeq.slice words (fst w) (snd w)) ws))
  = PySeq.slice words (s + overlap_size c) n.
Proof.
  intros Hgap -> Hch. induction Hch as [s H1 H2|s ws H1 H2 IH]; intros Hs Hov.
  - cbn [List.map List.concat fst snd]. rewrite app_nil_r.
    destruct (slice_inside words s (PySeq.len words)) as [-> _]; [lia..|].
    destruct (slice_inside words (s + overlap_size c) (PySeq.len words)) as [-> _]; [lia..|].
    rewrite skipn_firstn_comm, drop_drop.
    f_equal; [lia|f_equal; lia].
  - cbn [List.map List.concat fst snd]. rewrite IH by lia.
    replace (s + chunk_size c - overlap_size c + overlap_size c)
      with (s + chunk_size c) by lia.
    rewrite (slice_app words (s + overlap_size c) (s + chunk_size c) (PySeq.len words))
      by lia.
    f_equal.
    destruct (slice_inside words s (s + chunk_size c)) as [-> _]; [lia..|].
    destruct (slice_inside words (s + overlap_size c) (s + chunk_size c)) as [-> _]; [lia..|].
    rewrite skipn_firstn_comm, drop_drop.
    f_equal; [lia|f_equal; lia].
Qed.

(** X3.  Round trip without boundary trimming: for a text of more than
    [chunk_size] words and [0 <= overlap_size < chunk_size], splitting every
    chunk into words, dropping the first [overlap_size] words of every chunk
    but the first and concatenating gives back the words of the text. *)
Theorem chunk_text_rebuilds_words (c : TextChunker) (text : string) :
  0 <= overlap_size c < chunk_size c ->
  chunk_size c < get_word_count text ->
  respect_boundaries c = false ->
  exists chunks : list string,
    chunk_text c (S (length (PyStr.split text))) text = Some chunks
    /\ rebuild_words (Z.to_nat (overlap_size c)) (List.map PyStr.split chunks)
       = PyStr.split text.
Proof.
  intros Hgap Hn Hflag. unfold get_word_count in Hn.
  set (words := PyStr.split text) in *. set (n := PySeq.len words) in *.
  destruct (chunk_windows_chain c Hgap (S (length words)) n 0) as (ws & Hws & Hch);
    [lia|unfold n, PySeq.len; lia|].
  exists (List.map (emit_window c words) ws). split.
  - rewrite chunk_text_long by (fold words n; lia). fold words n. now rewrite Hws.
  - assert (E : List.map PyStr.split (List.map (emit_window c words) ws)
                = List.map (fun w => PySeq.slice words (fst w) (snd w)) ws).
    { rewrite List.map_map. apply List.map_ext. intros w.
      unfold emit_window. rewrite Hflag. cbn [andb]. apply split_window_text. }
    rewrite E. inversion Hch as [s H1 H2 Es|s ws' H1 H2 Es]; subst; [lia|].
    cbn [List.map rebuild_words fst snd].
    rewrite (rebuild_tail c words n _ ws' Hgap eq_refl H2) by lia.
    replace (0 + chunk_size c - overlap_size c + overlap_size c) with (chunk_size c) by lia.
    replace (0 + chunk_size c) with (chunk_size c) by lia.
    rewrite <- (slice_app words 0 (chunk_size c) n) by (fold n; lia).
    destruct (slice_inside words 0 n) as [-> _]; [lia|fold n; lia|].
    unfold n, PySeq.len. rewrite Z.sub_0_r, Nat2Z.id. cbn [Z.to_nat skipn].
    apply firstn_all.
Qed.

Lemma chunk_text_rebuilds_words_witness :
  0 <= overlap_size (with_boundaries chunker_3_1 false)
    < chunk_size (with_boundaries chunker_3_1 false)
  /\ chunk_size (with_boundaries chunker_3_1 false) < get_word_count seven_words
  /\ respect_boundaries (with_boundaries chunker_3_1 false) = false
  /\ exists chunks : list string,
       chunk_text (with_boundaries chunker_3_1 false) 8 seven_words = Some chunks
       /\ rebuild_words 1 (List.map PyStr.split chunks) = PyStr.split seven_words.
Proof.
  assert (H1 : 0 <= overlap_size (with_boundaries chunker_3_1 false)
               < chunk_size (with_boundaries chunker_3_1 false)) by (cbn; lia).
  assert (H2 : chunk_size (with_boundaries chunker_3_1 false) < get_word_count seven_words)
    by (vm_compute; reflexivity).
  assert (H3 : respect_boundaries (with_boundaries chunker_3_1 false) = false)
    by reflexivity.
  split; [exact H1|]. split; [exact H2|]. split; [exact H3|].
  exact (chunk_text_rebuilds_words (with_boundaries chunker_3_1 false) seven_words H1 H2 H3).
Defined.

Lemma chain_count (c : TextChunker) (n s : Z) (ws : list (Z * Z)) :
  0 <= overlap_size c < chunk_size c ->
  window_chain c n s ws ->
  PySeq.len ws
  = Z.max 0 ((n - s - chunk_size c + (chunk_size c - overlap_size c) - 1)
             / (chunk_size c - overlap_size c)) + 1.
Proof.
  intros Hgap. set (d := chunk_size c - overlap_size c). assert (Hd : 0 < d) by (unfold d; lia).
  unfold PySeq.len. induction 1 as [s H1 H2|s ws H1 H2 IH].
  - cbn [length]. assert ((n - s - chunk_size c + d - 1) / d <= 0); [|lia].
    assert ((n - s - chunk_size c + d - 1) / d < 1); [|lia].
    apply Z.div_lt_upper_bound; lia.
  - cbn [length]. rewrite Nat2Z.inj_succ, IH.
    replace (n - (s + chunk_size c - overlap_size c) - chunk_size c + d - 1)
      with (n - s - chunk_size c - 1) by (unfold d; lia).
    replace (n - s - chunk_size c + d - 1) with (n - s - chunk_size c - 1 + 1 * d) by lia.
    rewrite Z.div_add by lia.
    assert (0 <= (n - s - chunk_size c - 1) / d) by (apply Z.div_pos; lia).
    lia.
Qed.

(** X4.  With [0 <= overlap_size < chunk_size], [chunk_text] returns, and
    the number of chunks depends on the word count [n] alone: none for a text
    without words, one for at most [chunk_size] words, and otherwise
    [ceil((n - chunk_size) / (chunk_size - overlap_size)) + 1]. *)
Theorem chunk_text_chunk_count (c : TextChunker) (text : string) :
  0 <= overlap_size c < chunk_size c ->
  exists chunks : list string,
    chunk_text c (S (length (PyStr.split text))) text = Some chunks
    /\ PySeq.len chunks = chunk_count c (get_word_count text)
    /\ (chunks = [] <-> blank text = true).
Proof.
  intros Hgap. unfold chunk_count, get_word_count.
  set (words := PyStr.split text). set (n := PySeq.len words).
  destruct (blank text) eqn:Hb.
  { exists []. split; [now apply chunk_text_blank|].
    assert (E : n = 0) by (unfold n, words; now rewrite split_blank).
    rewrite E. now split. }
  assert (Hpos : 0 < n).
  { unfold n, PySeq.len.
    pose proof (split_go_not_blank "" text Hb) as Hne. fold (PyStr.split text) in Hne.
    fold words in Hne. destruct words; [congruence|cbn; lia]. }
  destruct (Z.eqb_spec n 0); [lia|].
  destruct (Z.leb_spec n (chunk_size c)) as [Hle|Hgt].
  { exists [text]. split; [now apply chunk_text_short|]. split; [reflexivity|].
    split; discriminate. }
  destruct (chunk_windows_chain c Hgap (S (length words)) n 0) as (ws & Hws & Hch);
    [lia|unfold n, PySeq.len; lia|].
  exists (List.map (emit_window c words) ws). split; [|split].
  - rewrite chunk_text_long by (fold words n; lia). fold words n. now rewrite Hws.
  - unfold PySeq.len. rewrite length_map. fold (PySeq.len ws).
    rewrite (chain_count c n 0 ws Hgap Hch). rewrite Z.sub_0_r.
    assert (0 <= (n - chunk_size c + (chunk_size c - overlap_size c) - 1)
                 / (chunk_size c - overlap_size c)) by (apply Z.div_pos; lia).
    lia.
  - split; [|discriminate]. intros E. inversion Hch; subst; discriminate.
Qed.

Lemma chunk_text_chunk_count_witness :
  0 <= overlap_size chunker_3_1 < chunk_size chunker_3_1
  /\ exists chunks : list string,
       chunk_text chunker_3_1 8 seven_words = Some chunks
       /\ PySeq.len chunks = 3.
Proof.
  assert (H1 : 0 <= overlap_size chunker_3_1 < chunk_size chunker_3_1) by (cbn; lia).
  split; [exact H1|].
  destruct (chunk_text_chunk_count chunker_3_1 seven_words H1) as (chunks & Hrun & Hlen & _).
  exists chunks. split; [exact Hrun|exact Hlen].
Defined.

(** ** Sections *)

Lemma enumerate_fst {A} (l : list A) :
  List.map fst (enumerate l) = seq 0 (length l).
Proof.
  unfold enumerate. generalize 0%nat. induction l as [|x l IH]; intros k; [reflexivity|].
  cbn. now rewrite IH.
Qed.

Lemma enumerate_snd {A} (l : list A) : List.map snd (enumerate l) = l.
Proof.
  unfold enumerate. generalize 0%nat. induction l as [|x l IH]; intros k; [reflexivity|].
  cbn. now rewrite IH.
Qed.

Lemma chunk_document_sections_keys (c : TextChunker) (fuel : nat)
    (sections : list (string * string)) (out : list (string * string * nat)) :
  chunk_document_sections c fuel sections = Some out ->
  forall t, In t out -> In (fst (fst t)) (List.map fst sections).
Proof.
  revert out. induction sections as [|[st content] rest IH]; intros out Hrun t Hin.
  - injection Hrun as <-. destruct Hin.
  - cbn [chunk_document_sections] in Hrun.
    destruct (chunk_text c fuel content) as [chunks|]; [|discriminate].
    destruct (chunk_document_sections c fuel rest) as [out'|]; [|discriminate].
    injection Hrun as <-. apply in_app_or in Hin. destruct Hin as [Hin|Hin].
    + apply in_map_iff in Hin. destruct Hin as (ic & <- & _). now left.
    + right. now apply (IH out').
Qed.

Lemma filter_all {A} (p : A -> bool) (l : list A) :
  (forall x, In x l -> p x = true) -> List.filter p l = l.
Proof.
  induction l as [|x l IH]; intros H; [reflexivity|].
  cbn. rewrite (H x) by now left. f_equal. apply IH. intros y Hy. apply H. now right.
Qed.

Lemma filter_none {A} (p : A -> bool) (l : list A) :
  (forall x, In x l -> p x = false) -> List.filter p l = [].
Proof.
  induction l as [|x l IH]; intros H; [reflexivity|].
  cbn. rewrite (H x) by now left. apply IH. intros y Hy. apply H. now right.
Qed.

Lemma NoDup_tagged {A} (tag : A) (l : list nat) :
  List.NoDup l -> List.NoDup (List.map (fun i => (tag, i)) l).
Proof.
  induction 1 as [|i l Hi Hl IH]; cbn; constructor; [|exact IH].
  intros Hin. apply in_map_iff in Hin. destruct Hin as (j & E & Hj).
  injection E as ->. contradiction.
Qed.

(** X5.  When [chunk_document_sections] returns for sections with distinct
    names, the triples of a section, in order, are the chunks of
    [chunk_text] on its content numbered from 0, and no two triples share a
    section name and an index. *)
Theorem chunk_document_sections_numbering (c : TextChunker) (fuel : nat)
    (sections : list (string * string)) (out : list (string * string * nat)) :
  chunk_document_sections c fuel sections = Some out ->
  List.NoDup (List.map fst sections) ->
  List.NoDup (List.map (fun t => (fst (fst t), snd t)) out)
  /\ forall section_type content,
       In (section_type, content) sections ->
       exists chunks,
         chunk_text c fuel content = Some chunks
         /\ List.filter (fun t => bool_decide (fst (fst t) = section_type)) out
            = List.map (fun ic => (section_type, snd ic, fst ic)) (enumerate chunks)
         /\ List.map (fun t => snd (fst t))
              (List.filter (fun t => bool_decide (fst (fst t) = section_type)) out)
            = chunks
         /\ List.map snd
              (List.filter (fun t => bool_decide (fst (fst t) = section_type)) out)
            = seq 0 (length chunks).
Proof.
  revert out. induction sections as [|[st content] rest IH]; intros out Hrun Hnd.
  - injection Hrun as <-. split; [constructor|]. intros ? ? [].
  - cbn [chunk_document_sections] in Hrun.
    destruct (chunk_text c fuel content) as [chunks|] eqn:Hc; [|discriminate].
    destruct (chunk_document_sections c fuel rest) as [out'|] eqn:Hr; [|discriminate].
    injection Hrun as <-. cbn [List.map fst] in Hnd. apply List.NoDup_cons_iff in Hnd.
    destruct Hnd as [Hfresh Hnd]. destruct (IH out' eq_refl Hnd) as (IH1 & IH3).
    set (head := List.map (fun ic => (st, snd ic, fst ic)) (enumerate chunks)).
    assert (Hhead_keys : forall t, In t head -> fst (fst t) = st).
    { intros t Ht. apply in_map_iff in Ht. now destruct Ht as (ic & <- & _). }
    assert (Hrest_keys : forall t, In t out' -> fst (fst t) <> st).
    { intros t Ht E. apply Hfresh. rewrite <- E.
      now apply (chunk_document_sections_keys c fuel rest out'). }
    split.
    + rewrite List.map_app. apply List.NoDup_app.
      * unfold head. rewrite List.map_map. cbn [fst snd].
        rewrite <- (List.map_map fst (fun i => (st, i))), enumerate_fst.
        apply NoDup_tagged, List.seq_NoDup.
      * exact IH1.
      * intros p Hp Hp'. apply in_map_iff in Hp, Hp'.
        destruct Hp as (t & <- & Ht), Hp' as (t' & E & Ht').
        injection E as E _. apply (Hrest_keys t' Ht'). now rewrite E, (Hhead_keys t Ht).
    + intros k content' [E|Hin].
      * injection E as <- <-. exists chunks. split; [exact Hc|].
        assert (Hf : List.filter (fun t => bool_decide (fst (fst t) = st)) (head ++ out')
                     = head).
        { rewrite List.filter_app, filter_all, filter_none; [apply app_nil_r| |].
          - intros t Ht. apply bool_decide_eq_false. now apply Hrest_keys.
          - intros t Ht. apply bool_decide_eq_true. now apply Hhead_keys. }
        rewrite Hf. split; [reflexivity|].
        unfold head. rewrite !List.map_map. cbn [fst snd].
        split; [apply enumerate_snd|apply enumerate_fst].
      * destruct (IH3 k content' Hin) as (chunks' & Hc' & Hf' & Hm').
        exists chunks'. split; [exact Hc'|].
        assert (Hk : st <> k).
        { intros ->. apply Hfresh. apply in_map_iff. now exists (k, content'). }
        rewrite List.filter_app, (filter_none _ head); [now split|].
        intros t Ht. apply bool_decide_eq_false. now rewrite (Hhead_keys t Ht).
Qed.

Lemma chunk_document_sections_numbering_witness :
  chunk_document_sections chunker_3_1 8
    [("concepts", seven_words); ("algorithms", "one two")]
  = Some [("concepts", "one two three", 0%nat); ("concepts", "three four five", 1%nat);
          ("concepts", "five six seven", 2%nat); ("algorithms", "one two", 0%nat)]
  /\ List.NoDup (List.map fst [("concepts", seven_words); ("algorithms", "one two")])
  /\ List.NoDup
       [("concepts", 0%nat); ("concepts", 1%nat); ("concepts", 2%nat); ("algorithms", 0%nat)].
Proof.
  assert (H1 : chunk_document_sections chunker_3_1 8
                 [("concepts", seven_words); ("algorithms", "one two")]
               = Some [("concepts", "one two three", 0%nat);
                       ("concepts", "three four five", 1%nat);
                       ("concepts", "five six seven", 2%nat);
                       ("algorithms", "one two", 0%nat)])
    by (vm_compute; reflexivity).
  assert (H2 : List.NoDup (List.map fst [("concepts", seven_words); ("algorithms", "one two")])).
  { repeat constructor; cbn; intuition discriminate. }
  split; [exact H1|]. split; [exact H2|].
  exact (proj1 (chunk_document_sections_numbering chunker_3_1 8 _ _ H1 H2)).
Defined.

(* ===================================================================== *)
(** * Further properties of the selection handler *)
(* ===================================================================== *)

From Stdlib Require Import Qpower Lqa.

(** A ratio of two counts, the first not above the second. *)
Lemma count_ratio (i u : nat) :
  (0 < u)%nat -> (i <= u)%nat ->
  let r := (inject_Z (Z.of_nat i) / inject_Z (Z.of_nat u))%Q in
  (0 <= r <= 1)%Q /\ (r == 0 <-> i = 0%nat)%Q /\ (r == 1 <-> i = u)%Q.
Proof.
  intros Hu Hi r. subst r.
  destruct u as [|u]; [lia|].
  unfold Qdiv, Qinv, Qmult, Qle, Qeq, inject_Z.
  change (Z.of_nat (S u)) with (Z.pos (Pos.of_succ_nat u)).
  cbn [Qnum Qden]. rewrite !Pos.mul_1_l, !Z.mul_1_r, !Z.mul_1_l, !Z.mul_0_l.
  repeat split; lia.
Qed.

Lemma gset_size_pos (X : gset string) : X <> ∅ -> (0 < size X)%nat.
Proof.
  intros H. destruct (size X) eqn:E; [|lia].
  exfalso. apply H. apply leibniz_equiv. now apply size_empty_inv.
Qed.

Lemma overlap_score_ratio (text : string) (kw : gset string) :
  kw <> ∅ ->
  (0 < size (token_set text ∪ kw))%nat
  /\ (size (token_set text ∩ kw) <= size (token_set text ∪ kw))%nat
  /\ _calculate_overlap_score text kw
     = (inject_Z (Z.of_nat (size (token_set text ∩ kw)))
        / inject_Z (Z.of_nat (size (token_set text ∪ kw))))%Q.
Proof.
  intros Hkw.
  assert (Hu : (0 < size (token_set text ∪ kw))%nat).
  { pose proof (gset_size_pos kw Hkw).
    pose proof (subseteq_size kw (token_set text ∪ kw)) as Hs.
    assert (kw ⊆ token_set text ∪ kw) as Hsub by (apply union_subseteq_r).
    specialize (Hs Hsub). lia. }
  split; [exact Hu|]. split.
  - apply subseteq_size. etransitivity; [apply intersection_subseteq_l|apply union_subseteq_l].
  - unfold _calculate_overlap_score. rewrite bool_decide_false by exact Hkw.
    destruct (Nat.eqb_spec (size (token_set text ∪ kw)) 0); [lia|reflexivity].
Qed.

Lemma overlap_score_bounds (text : string) (kw : gset string) :
  (0 <= _calculate_overlap_score text kw <= 1)%Q.
Proof.
  destruct (decide (kw = ∅)) as [->|Hkw].
  - unfold _calculate_overlap_score. rewrite bool_decide_true by reflexivity.
    split; unfold Qle; cbn; lia.
  - destruct (overlap_score_ratio text kw Hkw) as (Hu & Hi & ->).
    apply (count_ratio _ _ Hu Hi).
Qed.

(** X6.  The overlap score lies between 0 and 1; it is 0 exactly when the
    chunk shares no token with the keywords, and 1 exactly when the keyword
    set is not empty and the chunk's token set equals it. *)
Theorem calculate_overlap_score_range (text : string) (kw : gset string) :
  (0 <= _calculate_overlap_score text kw <= 1)%Q
  /\ ((_calculate_overlap_score text kw == 0)%Q <-> token_set text ∩ kw = ∅)
  /\ ((_calculate_overlap_score text kw == 1)%Q <-> kw <> ∅ /\ token_set text = kw).
Proof.
  split; [apply overlap_score_bounds|].
  destruct (decide (kw = ∅)) as [->|Hkw].
  - unfold _calculate_overlap_score. rewrite bool_decide_true by reflexivity. split.
    + split; [intros _; apply intersection_empty_r_L|reflexivity].
    + split; [intros H; discriminate H|intros [H _]; congruence].
  - destruct (overlap_score_ratio text kw Hkw) as (Hu & Hi & ->).
    destruct (count_ratio _ _ Hu Hi) as (_ & H0 & H1). split.
    + rewrite H0. split.
      * intros E. apply leibniz_equiv. now apply size_empty_inv.
      * intros ->. apply size_empty.
    + rewrite H1. split.
      * intros E. split; [exact Hkw|].
        assert (Hsub : token_set text ∩ kw ⊆ token_set text ∪ kw).
        { etransitivity; [apply intersection_subseteq_l|apply union_subseteq_l]. }
        pose proof (set_subseteq_size_eq _ _ Hsub) as Heq.
        assert (Hiu : token_set text ∩ kw = token_set text ∪ kw) by (apply Heq; lia).
        apply leibniz_equiv. apply set_equiv. intros x. split; intros Hx.
        -- assert (x ∈ token_set text ∪ kw) as Hx' by (apply elem_of_union; now left).
           rewrite <- Hiu in Hx'. now apply elem_of_intersection in Hx'.
        -- assert (x ∈ token_set text ∪ kw) as Hx' by (apply elem_of_union; now right).
           rewrite <- Hiu in Hx'. now apply elem_of_intersection in Hx'.
      * intros [_ ->]. now rewrite intersection_idemp_L, union_idemp_L.
Qed.

(** X7.  For a candidate whose vector score lies in [0, 1], the combined
    score lies between [0.6 * score] and [0.6 * score + 0.4], hence in
    [0, 1], and the recorded text overlap lies in [0, 1]. *)
Theorem score_chunk_combined_range (kw : gset string) (c : Chunk) :
  (0 <= score c <= 1)%Q ->
  ((6 # 10) * score c <= combined_of (score_chunk kw c)
     <= (6 # 10) * score c + (4 # 10))%Q
  /\ (0 <= combined_of (score_chunk kw c) <= 1)%Q
  /\ (0 <= overlap_of (score_chunk kw c) <= 1)%Q.
Proof.
  intros [Hlo Hhi].
  pose proof (overlap_score_bounds (payload_get (payload c) "chunk_text" "") kw) as [Ho1 Ho2].
  pose proof (score_chunk_combined kw c) as Hc.
  assert (Eo : overlap_of (score_chunk kw c)
               = _calculate_overlap_score (payload_get (payload c) "chunk_text" "") kw)
    by reflexivity.
  rewrite Eo in *.
  set (o := _calculate_overlap_score _ kw) in *.
  set (x := combined_of (score_chunk kw c)) in *.
  set (v := score c) in *.
  repeat split; lra.
Qed.

Lemma score_chunk_combined_range_witness :
  (0 <= score (tchunk 1 (7 # 10) "alpha beta") <= 1)%Q
  /\ (0 <= combined_of (score_chunk (_extract_keywords sel20)
                          (tchunk 1 (7 # 10) "alpha beta")) <= 1)%Q.
Proof.
  assert (H : (0 <= score (tchunk 1 (7 # 10) "alpha beta") <= 1)%Q).
  { split; unfold Qle; cbn; lia. }
  split; [exact H|].
  apply (score_chunk_combined_range (_extract_keywords sel20)
           (tchunk 1 (7 # 10) "alpha beta") H).
Defined.

(** ** Keywords *)

Lemma char_lower_idem (x : ascii) :
  PyStr.char_lower (PyStr.char_lower x) = PyStr.char_lower x.
Proof. destruct x as [[] [] [] [] [] [] [] []]; reflexivity. Qed.

Lemma lower_all_lower (s : string) : all_chars is_lower (PyStr.lower s) = true.
Proof.
  induction s as [|x s IH]; [reflexivity|].
  cbn [PyStr.lower all_chars]. rewrite IH, andb_true_r.
  unfold is_lower. rewrite char_lower_idem. apply Ascii.eqb_refl.
Qed.

Lemma lower_fixed (s : string) : all_chars is_lower s = true -> PyStr.lower s = s.
Proof.
  induction s as [|x s IH]; [reflexivity|].
  cbn [PyStr.lower all_chars]. intros [Hx Hs]%andb_true_iff.
  unfold is_lower in Hx. apply Ascii.eqb_eq in Hx. now rewrite Hx, IH.
Qed.

Lemma lower_idem (s : string) : PyStr.lower (PyStr.lower s) = PyStr.lower s.
Proof. apply lower_fixed, lower_all_lower. Qed.

Lemma split_go_all_chars (p : ascii -> bool) (cur s : string) :
  all_chars p cur = true -> all_chars p s = true ->
  Forall (fun w => all_chars p w = true) (PyStr.split_go cur s).
Proof.
  revert cur. induction s as [|x s IH]; intros cur Hcur Hs; cbn [PyStr.split_go].
  - destruct cur; constructor; [|constructor].
    unfold String.rev. rewrite all_chars_rev_app, Hcur. reflexivity.
  - cbn [all_chars] in Hs. apply andb_true_iff in Hs. destruct Hs as [Hx Hs].
    destruct (PyStr.isspace x).
    + destruct cur.
      * now apply IH.
      * constructor; [|now apply IH].
        unfold String.rev. rewrite all_chars_rev_app, Hcur. reflexivity.
    + apply IH; [|exact Hs]. cbn [all_chars]. now rewrite Hx, Hcur.
Qed.

(** The tokens of a text are clean lower-case words. *)
Lemma token_set_elem (text w : string) :
  w ∈ token_set text -> clean_word w /\ PyStr.lower w = w.
Proof.
  unfold token_set. rewrite elem_of_list_to_set, list_elem_of_In. intros Hin. split.
  - pose proof (split_clean (PyStr.lower text)) as H.
    rewrite List.Forall_forall in H. now apply H.
  - apply lower_fixed.
    pose proof (split_go_all_chars is_lower "" (PyStr.lower text) eq_refl
                  (lower_all_lower text)) as H.
    rewrite List.Forall_forall in H. now apply H.
Qed.

Lemma extract_keywords_elem (text w : string) :
  w ∈ _extract_keywords text
  <-> w ∈ token_set text /\ (w ∉ stop_words) /\ (2 < PyStr.len w)%nat.
Proof.
  unfold _extract_keywords, token_set.
  rewrite !elem_of_list_to_set, !list_elem_of_In, filter_In.
  rewrite andb_true_iff, negb_true_iff, bool_decide_eq_false, Nat.ltb_lt.
  tauto.
Qed.

(** X8.  Every keyword of a text is one of its lower-case tokens, is not a
    stop word, has more than two characters, holds no whitespace and is in
    lower case; and the keywords do not depend on the case of the text. *)
Theorem extract_keywords_are_tokens (text : string) :
  (forall w, w ∈ _extract_keywords text ->
             w ∈ token_set text /\ (w ∉ stop_words) /\ (2 < PyStr.len w)%nat
             /\ clean_word w /\ PyStr.lower w = w)
  /\ _extract_keywords text ⊆ token_set text
  /\ _extract_keywords (PyStr.lower text) = _extract_keywords text
  /\ token_set (PyStr.lower text) = token_set text.
Proof.
  split; [|split; [|split]].
  - intros w Hw. apply extract_keywords_elem in Hw. destruct Hw as (Ht & Hs & Hl).
    repeat split; try assumption; now apply (token_set_elem text w).
  - intros w Hw. now apply extract_keywords_elem in Hw.
  - unfold _extract_keywords. now rewrite lower_idem.
  - unfold token_set. now rewrite lower_idem.
Qed.

(** ** Focus score *)

Lemma validate_selection_focus_ratio (response selected : string) :
  _extract_keywords selected <> ∅ ->
  let kw := _extract_keywords selected in
  let found := size (kw ∩ token_set response) in
  (0 < size kw)%nat /\ (found <= size kw)%nat
  /\ (validate_selection_focus response selected
      == inject_Z (Z.of_nat found) / inject_Z (Z.of_nat (size kw)))%Q.
Proof.
  intros Hkw kw found. fold kw in Hkw.
  assert (Hpos : (0 < size kw)%nat) by now apply gset_size_pos.
  assert (Hle : (found <= size kw)%nat).
  { apply subseteq_size, intersection_subseteq_l. }
  split; [exact Hpos|]. split; [exact Hle|].
  unfold validate_selection_focus. fold kw. rewrite bool_decide_false by exact Hkw.
  fold found. apply Q.min_r. apply (count_ratio _ _ Hpos Hle).
Qed.

(** X9.  The focus score lies between 0 and 1, so its cap at 1 never
    applies; it is 0.5 when the selection has no keyword; otherwise it is 1
    exactly when every keyword occurs among the response's tokens, and 0
    exactly when none does.  A response that repeats the selection scores
    1. *)
Theorem validate_selection_focus_range (response selected : string) :
  let kw := _extract_keywords selected in
  (0 <= validate_selection_focus response selected <= 1)%Q
  /\ (kw = ∅ -> validate_selection_focus response selected = 5 # 10)
  /\ (kw <> ∅ ->
      ((validate_selection_focus response selected == 1)%Q <-> kw ⊆ token_set response)
      /\ ((validate_selection_focus response selected == 0)%Q
          <-> kw ∩ token_set response = ∅)
      /\ (validate_selection_focus selected selected == 1)%Q).
Proof.
  intros kw.
  assert (Hone : forall r, kw <> ∅ ->
            ((validate_selection_focus r selected == 1)%Q <-> kw ⊆ token_set r)).
  { intros r Hkw. destruct (validate_selection_focus_ratio r selected Hkw) as (Hp & Hl & ->).
    destruct (count_ratio _ _ Hp Hl) as (_ & _ & H1). rewrite H1. fold kw. split.
    - intros E x Hx.
      assert (Heq : kw ∩ token_set r = kw).
      { apply set_subseteq_size_eq; [apply intersection_subseteq_l|lia]. }
      rewrite <- Heq in Hx. now apply elem_of_intersection in Hx.
    - intros Hsub. f_equal. apply leibniz_equiv. apply set_equiv. intros x.
      rewrite elem_of_intersection. split; [tauto|]. intros Hx. split; [exact Hx|now apply Hsub]. }
  split; [|split].
  - destruct (decide (kw = ∅)) as [E|Hkw].
    + unfold validate_selection_focus. fold kw. rewrite bool_decide_true by exact E.
      split; unfold Qle; cbn; lia.
    + destruct (validate_selection_focus_ratio response selected Hkw) as (Hp & Hl & E).
      destruct (count_ratio _ _ Hp Hl) as ([H0 H1] & _). rewrite E. now split.
  - intros E. unfold validate_selection_focus. fold kw. now rewrite bool_decide_true.
  - intros Hkw. split; [now apply Hone|]. split.
    + destruct (validate_selection_focus_ratio response selected Hkw) as (Hp & Hl & ->).
      destruct (count_ratio _ _ Hp Hl) as (_ & H0 & _). rewrite H0. fold kw. split.
      * intros E. apply leibniz_equiv. now apply size_empty_inv.
      * intros ->. apply size_empty.
    + apply Hone; [exact Hkw|]. intros w Hw. now apply extract_keywords_elem in Hw.
Qed.

Example validate_selection_focus_half :
  (validate_selection_focus "alpha beta and nothing else" "alpha beta gamma delta"
   == 1 # 2)%Q.
Proof. vm_compute. reflexivity. Qed.

(** ** The handler as an operation on result lists *)

Lemma score_chunk_idem (kw : gset string) (c : Chunk) :
  score_chunk kw (score_chunk kw c) = score_chunk kw c.
Proof. reflexivity. Qed.

Lemma sort_desc_sorted_id {A} (key : A -> Q) (l : list A) :
  sorted_desc key l -> sort_desc key l = l.
Proof. intros H. symmetry. now apply sort_desc_unique. Qed.

Lemma ranked_chunks_elem (retrieved : list Chunk) (sel : string) (r : Chunk) :
  In r (ranked_chunks retrieved sel) ->
  exists c, In c retrieved /\ r = score_chunk (_extract_keywords sel) c.
Proof.
  unfold ranked_chunks. intros Hin.
  apply (Permutation_in _ (sort_desc_perm combined_of _)) in Hin.
  apply in_map_iff in Hin. destruct Hin as (c & <- & Hc). now exists c.
Qed.

Lemma selection_pool_elem (h : SelectionHandler) (retrieved : list Chunk)
    (sel : string) (r : Chunk) :
  let ranked := ranked_chunks retrieved sel in
  let kept := List.filter (meets_threshold h) ranked in
  In r (if is_nil kept then ranked else kept) -> In r ranked.
Proof.
  intros ranked kept. destruct (is_nil kept); [tauto|].
  unfold kept. now intros [H _]%filter_In.
Qed.

(** X10.  For [max_results >= 0] the handler is idempotent: filtering its
    own result again, with the same selection and bound, changes nothing. *)
Theorem filter_chunks_by_selection_idempotent (h : SelectionHandler)
    (retrieved : list Chunk) (sel : string) (m : Z) :
  0 <= m ->
  filter_chunks_by_selection h (filter_chunks_by_selection h retrieved sel m) sel m
  = filter_chunks_by_selection h retrieved sel m.
Proof.
  intros Hm. destruct (decide (sel = "")) as [->|Hsel].
  { unfold filter_chunks_by_selection. cbn [bool_decide orb].
    rewrite bool_decide_true by reflexivity. cbn [orb].
    rewrite !prefix_nonneg by exact Hm. rewrite take_take. f_equal. lia. }
  set (out := filter_chunks_by_selection h retrieved sel m).
  set (ranked := ranked_chunks retrieved sel).
  set (kept := List.filter (meets_threshold h) ranked).
  assert (Hout : out = firstn (Z.to_nat m) (if is_nil kept then ranked else kept)).
  { now apply filter_chunks_by_selection_firstn. }
  assert (Hpool : forall r, In r out -> In r ranked).
  { intros r Hr. rewrite Hout in Hr.
    apply (selection_pool_elem h retrieved sel r).
    rewrite <- (firstn_skipn (Z.to_nat m)). apply in_or_app. now left. }
  assert (Hsorted : sorted_desc combined_of out).
  { rewrite Hout. apply sorted_desc_firstn. destruct (is_nil kept).
    - apply sort_desc_sorted.
    - apply sorted_desc_filter, sort_desc_sorted. }
  assert (Hranked2 : ranked_chunks out sel = out).
  { unfold ranked_chunks.
    assert (E : List.map (score_chunk (_extract_keywords sel)) out = out).
    { rewrite <- (List.map_id out) at 2. apply List.map_ext_in. intros r Hr.
      destruct (ranked_chunks_elem retrieved sel r (Hpool r Hr)) as (c & _ & ->).
      apply score_chunk_idem. }
    rewrite E. now apply sort_desc_sorted_id. }
  assert (Hlen : (length out <= Z.to_nat m)%nat).
  { rewrite Hout. rewrite length_firstn. lia. }
  rewrite filter_chunks_by_selection_firstn by assumption.
  rewrite Hranked2.
  assert (Hpool2 : (if is_nil (List.filter (meets_threshold h) out) then out
                    else List.filter (meets_threshold h) out) = out).
  { destruct (is_nil kept) eqn:Ek.
    - assert (Hnone : List.filter (meets_threshold h) out = []).
      { apply filter_none. intros r Hr.
        destruct (meets_threshold h r) eqn:Er; [|reflexivity].
        exfalso. apply is_nil_true in Ek.
        assert (Hin : In r kept) by (apply filter_In; split; [now apply Hpool|exact Er]).
        rewrite Ek in Hin. destruct Hin. }
      now rewrite Hnone.
    - assert (Hall : List.filter (meets_threshold h) out = out).
      { apply filter_all. intros r Hr. rewrite Hout in Hr.
        assert (Hin : In r kept).
        { rewrite <- (firstn_skipn (Z.to_nat m) kept). apply in_or_app. now left. }
        now apply filter_In in Hin. }
      rewrite Hall. now destruct (is_nil out). }
  rewrite Hpool2. now apply firstn_all2.
Qed.

Lemma filter_chunks_by_selection_idempotent_witness :
  0 <= 3
  /\ filter_chunks_by_selection SelectionHandler_default
       (filter_chunks_by_selection SelectionHandler_default two_candidates sel20 3)
       sel20 3
     = filter_chunks_by_selection SelectionHandler_default two_candidates sel20 3.
Proof.
  assert (H : 0 <= 3) by lia. split; [exact H|].
  exact (filter_chunks_by_selection_idempotent SelectionHandler_default
           two_candidates sel20 3 H).
Defined.

Lemma filter_sublist {A} (p : A -> bool) (l : list A) :
  sublist (List.filter p l) l.
Proof.
  induction l as [|x l IH]; [constructor|].
  cbn. destruct (p x); now constructor.
Qed.

Lemma prefix_sublist {A} (l : list A) (m : Z) : sublist (PySeq.prefix l m) l.
Proof. rewrite prefix_firstn. apply sublist_take. Qed.

Lemma chunk_core_score_chunk (kw : gset string) (c : Chunk) :
  chunk_core (score_chunk kw c) = chunk_core c.
Proof. reflexivity. Qed.

(** X11.  Whatever the selection and the bound, the results the handler
    returns are drawn from the candidates without repetition: their ids,
    scores and payloads, as a list, are part of a rearrangement of those of
    the candidates, so no result is invented, altered or returned twice. *)
Theorem filter_chunks_by_selection_draws_from_candidates (h : SelectionHandler)
    (retrieved : list Chunk) (sel : string) (m : Z) :
  let out := filter_chunks_by_selection h retrieved sel m in
  (exists rest, Permutation (List.map chunk_core out ++ rest)
                            (List.map chunk_core retrieved))
  /\ (length out <= length retrieved)%nat
  /\ (forall r, In r out -> exists c, In c retrieved /\ chunk_core r = chunk_core c).
Proof.
  intros out.
  assert (Hsub : List.map chunk_core out ⊆+ List.map chunk_core retrieved).
  { unfold out. destruct (decide (sel = "")) as [->|Hsel].
    - unfold filter_chunks_by_selection. rewrite bool_decide_true by reflexivity.
      cbn [orb]. apply sublist_submseteq, (fmap_sublist chunk_core), prefix_sublist.
    - rewrite filter_chunks_by_selection_body by exact Hsel.
      assert (Hperm : List.map chunk_core (ranked_chunks retrieved sel)
                      ≡ₚ List.map chunk_core retrieved).
      { unfold ranked_chunks. rewrite (sort_desc_perm combined_of).
        rewrite List.map_map. apply Permutation_refl'.
        apply List.map_ext. intros c. apply chunk_core_score_chunk. }
      rewrite <- Hperm. apply sublist_submseteq, (fmap_sublist chunk_core).
      etransitivity; [apply prefix_sublist|].
      destruct (is_nil _); [apply prefix_sublist|apply filter_sublist]. }
  split; [|split].
  - apply submseteq_Permutation in Hsub. destruct Hsub as (rest & Hp).
    exists rest. now symmetry.
  - apply submseteq_length in Hsub. now rewrite !length_map in Hsub.
  - intros r Hr.
    assert (Hin : chunk_core r ∈ List.map chunk_core retrieved).
    { eapply elem_of_submseteq; [|exact Hsub].
      apply list_elem_of_In, in_map. exact Hr. }
    apply list_elem_of_In, in_map_iff in Hin. destruct Hin as (c & E & Hc).
    now exists c.
Qed.

(* ===================================================================== *)
(** * Properties of the selection handler in float arithmetic *)
(* ===================================================================== *)

Lemma F64_true_div_zero (u : Z) : F64.true_div 0 u = 0%Q.
Proof.
  unfold F64.true_div, F64.round.
  assert (E : Qeq_bool (inject_Z 0 / inject_Z u) 0 = true).
  { apply Qeq_bool_iff. unfold Qdiv. apply Qmult_0_l. }
  now rewrite E.
Qed.

(** The overlap score is the float Jaccard quotient. *)
Lemma F64_overlap_score_jaccard (text : string) (kw : gset string) :
  F64._calculate_overlap_score text kw = F64.jaccard (token_set text) kw.
Proof.
  unfold F64._calculate_overlap_score, F64.jaccard.
  destruct (decide (kw = ∅)) as [E|E];
    [rewrite (bool_decide_true _ E); subst kw
    |rewrite (bool_decide_false _ E); reflexivity].
  destruct (size (token_set text ∪ ∅) =? 0)%nat; [reflexivity|].
  rewrite intersection_empty_r_L, size_empty. cbn [Z.of_nat].
  now rewrite F64_true_div_zero.
Qed.

(** What the scoring loop attaches to a candidate. *)
Lemma F64_score_chunk_spec (sel : string) (c : Chunk) :
  let c' := F64.score_chunk (_extract_keywords sel) c in
  let overlap := F64.jaccard (token_set (chunk_text_of c)) (_extract_keywords sel) in
  text_overlap c' = Some overlap
  /\ combined_score c'
     = Some (F64.add (F64.mul (score c) (F64.round (6 # 10)))
                     (F64.mul overlap (F64.round (4 # 10))))
  /\ combined_score c' = Some (F64.combined_spec sel c)
  /\ chunk_id c' = chunk_id c /\ score c' = score c /\ payload c' = payload c.
Proof.
  cbn zeta. unfold F64.score_chunk, F64.combined_spec, chunk_text_of.
  cbn [text_overlap combined_score chunk_id score payload].
  rewrite F64_overlap_score_jaccard. repeat split.
Qed.

(** The float handler past its guard. *)
Lemma F64_filter_chunks_by_selection_body (h : SelectionHandler)
    (retrieved : list Chunk) (sel : string) (m : Z) :
  sel <> "" ->
  let ranked := F64.ranked_chunks retrieved sel in
  let kept := List.filter (meets_threshold h) ranked in
  F64.filter_chunks_by_selection h retrieved sel m
  = PySeq.prefix (if is_nil kept then PySeq.prefix ranked m else kept) m.
Proof.
  intros Hsel ranked kept. unfold F64.filter_chunks_by_selection.
  rewrite bool_decide_false by exact Hsel. cbn [orb].
  destruct retrieved as [|c0 retrieved].
  - cbn [is_nil]. subst kept ranked. unfold F64.ranked_chunks. cbn.
    now rewrite !prefix_nil.
  - cbn [is_nil]. fold (F64.ranked_chunks (c0 :: retrieved) sel). fold ranked. fold kept.
    destruct (is_nil kept) eqn:Ek; [|reflexivity].
    destruct (is_nil ranked) eqn:Er; [|reflexivity].
    apply is_nil_true in Ek, Er. cbn [negb andb]. rewrite Ek, Er.
    now rewrite !prefix_nil.
Qed.

Lemma F64_filter_chunks_by_selection_firstn (h : SelectionHandler)
    (retrieved : list Chunk) (sel : string) (m : Z) :
  sel <> "" -> 0 <= m ->
  let ranked := F64.ranked_chunks retrieved sel in
  let kept := List.filter (meets_threshold h) ranked in
  F64.filter_chunks_by_selection h retrieved sel m
  = firstn (Z.to_nat m) (if is_nil kept then ranked else kept).
Proof.
  intros Hsel Hm ranked kept.
  rewrite F64_filter_chunks_by_selection_body by exact Hsel.
  fold ranked. fold kept. rewrite !prefix_nonneg by exact Hm.
  destruct (is_nil kept); [|reflexivity].
  rewrite take_take. f_equal. lia.
Qed.

(** In a descending list, the first [n] elements are the top [n]. *)
Lemma sorted_desc_firstn_top {A} (key : A -> Q) (l : list A) (n : nat) :
  sorted_desc key l ->
  forall r c, In r (firstn n l) -> In c (skipn n l) -> (key c <= key r)%Q.
Proof.
  intros Hs. revert n. induction Hs as [|a l Hs IH Ha]; intros n r c Hr Hc.
  - rewrite firstn_nil in Hr. destruct Hr.
  - destruct n as [|n]; [destruct Hr|]. cbn in Hr, Hc. destruct Hr as [<-|Hr].
    + apply (proj1 (List.Forall_forall _ _) Ha).
      rewrite <- (firstn_skipn n l). apply in_or_app. now right.
    + now apply (IH n).
Qed.

(** Float arithmetic at work: the literals are the nearest floats, and
    [0.1 + 0.2] is not [0.3]. *)
Example F64_round_literals :
  (F64.round (1 # 10) == 3602879701896397 # 36028797018963968
   /\ F64.round (3 # 10) == 5404319552844595 # 18014398509481984
   /\ F64.round (4 # 10) == 3602879701896397 # 9007199254740992
   /\ F64.round (6 # 10) == 5404319552844595 # 9007199254740992
   /\ F64.add (F64.round (1 # 10)) (F64.round (2 # 10))
      == 5404319552844596 # 18014398509481984
   /\ F64.round (9007199254740993 # 1) == 9007199254740992 # 1
   /\ F64.round (9007199254740995 # 1) == 9007199254740996 # 1
   /\ F64.round (1 # 3) == 6004799503160661 # 18014398509481984
   /\ F64.round (2 ^ (-1075)) == 0
   /\ F64.round ((3 # 4) * 2 ^ (-1074)) == 2 ^ (-1074))%Q.
Proof. vm_compute. repeat split. Qed.

(** ** Rounding error *)

Lemma floor_bounds (q : Q) :
  (inject_Z (Qnum q / Z.pos (Qden q)) <= q
   /\ q < inject_Z (Qnum q / Z.pos (Qden q)) + 1)%Q.
Proof.
  destruct q as [n d]. cbn [Qnum Qden]. split.
  - unfold Qle. cbn [Qnum Qden inject_Z]. rewrite Z.mul_1_r.
    rewrite Z.mul_comm. apply Z.mul_div_le. lia.
  - unfold Qlt, Qplus. cbn [Qnum Qden inject_Z Qplus].
    change (Z.pos (1 * 1)) with 1.
    pose proof (Z.mul_succ_div_gt n (Z.pos d) ltac:(lia)). nia.
Qed.

(** The nearest integer lies within 1/2. *)
Lemma round_half_even_close (q : Q) :
  (- (1 # 2) <= inject_Z (F64.round_half_even q) - q <= 1 # 2)%Q.
Proof.
  unfold F64.round_half_even.
  destruct (floor_bounds q) as [Hlo Hhi].
  set (f := Qnum q / Z.pos (Qden q)) in *.
  assert (Hs : inject_Z (f + 1) = (inject_Z f + 1)%Q) by apply inject_Z_plus.
  destruct (q - inject_Z f ?= 1 # 2)%Q eqn:E.
  - apply Qeq_alt in E. destruct (Z.even f); [|rewrite Hs]; lra.
  - apply Qlt_alt in E. lra.
  - apply Qgt_alt in E. rewrite Hs. lra.
Qed.

Lemma two_power_pos (k : Z) : (0 < 2 ^ k)%Q.
Proof. apply Qpower_0_lt. reflexivity. Qed.

Lemma two_power_half (k : Z) : (2 ^ (k - 1) == 2 ^ k / 2)%Q.
Proof. rewrite Qpower_minus by discriminate. reflexivity. Qed.

(** [ilog2] does not overshoot. *)
Lemma ilog2_lower (a : Q) : (0 < a)%Q -> (2 ^ F64.ilog2 a <= a)%Q.
Proof.
  intros Ha. unfold F64.ilog2.
  set (ln := Z.log2 (Qnum a)). set (ld := Z.log2 (Z.pos (Qden a))).
  destruct (Qle_bool (2 ^ (ln - ld)) a) eqn:E; [now apply Qle_bool_iff|].
  assert (Hn : 0 < Qnum a).
  { destruct a as [n d]. unfold Qlt in Ha. cbn in *. lia. }
  destruct (Z.log2_spec (Qnum a) Hn) as [Hn1 _]. fold ln in Hn1.
  destruct (Z.log2_spec (Z.pos (Qden a)) ltac:(lia)) as [_ Hd2]. fold ld in Hd2.
  assert (Hln : 0 <= ln) by apply Z.log2_nonneg.
  assert (Hld : 0 <= ld) by apply Z.log2_nonneg.
  replace (ln - ld - 1) with (ln - (ld + 1)) by lia.
  rewrite Qpower_minus by discriminate.
  assert (HA : (2 ^ ln <= inject_Z (Qnum a))%Q).
  { change 2%Q with (inject_Z 2). rewrite <- Zpower_Qpower by exact Hln.
    rewrite <- Zle_Qle. exact Hn1. }
  assert (HB : (inject_Z (Z.pos (Qden a)) <= 2 ^ (ld + 1))%Q).
  { change 2%Q with (inject_Z 2). rewrite <- Zpower_Qpower by lia.
    rewrite <- Zle_Qle. replace (ld + 1) with (Z.succ ld) by lia. lia. }
  assert (HD : (0 < inject_Z (Z.pos (Qden a)))%Q) by reflexivity.
  assert (Ea : (a == inject_Z (Qnum a) / inject_Z (Z.pos (Qden a)))%Q).
  { destruct a as [n d]. cbn [Qnum Qden]. apply Qmake_Qdiv. }
  pose proof (two_power_pos ln) as PA. pose proof (two_power_pos (ld + 1)) as PB.
  rewrite Ea.
  apply Qle_shift_div_l; [exact HD|].
  apply Qle_trans with (2 ^ ln)%Q; [|exact HA].
  set (A := (2 ^ ln)%Q) in *. set (B := (2 ^ (ld + 1))%Q) in *.
  set (D := inject_Z (Z.pos (Qden a))) in *.
  assert (Hdiv : (A / B * D <= A / B * B)%Q).
  { apply Qmult_le_l; [|exact HB]. apply Qlt_shift_div_l; [exact PB|]. lra. }
  assert (Hcancel : (A / B * B == A)%Q) by (field; lra).
  lra.
Qed.

(** The rounding error is at most half a unit in the last place. *)
Lemma round_close (q : Q) (k : Z) :
  -1022 <= k ->
  (- 2 ^ (k + 1) < q < 2 ^ (k + 1))%Q ->
  (- 2 ^ (k - 53) <= F64.round q - q <= 2 ^ (k - 53))%Q.
Proof.
  intros Hk Hq. unfold F64.round.
  pose proof (two_power_pos (k - 53)) as Pk.
  destruct (Qeq_bool q 0) eqn:E0.
  { apply Qeq_bool_iff in E0. lra. }
  apply Qeq_bool_neq in E0.
  set (a := if Qle_bool 0 q then q else (- q)%Q).
  assert (Ha : (0 < a)%Q /\ (a < 2 ^ (k + 1))%Q).
  { unfold a. destruct (Qle_bool 0 q) eqn:Es.
    - apply Qle_bool_iff in Es. split; [|lra].
      destruct (Qlt_le_dec 0 q); [assumption|]. exfalso. apply E0. lra.
    - assert (~ (0 <= q)%Q) by (rewrite <- Qle_bool_iff; congruence).
      split; lra. }
  destruct Ha as [Ha0 Ha1].
  assert (He : Z.max (F64.ilog2 a) (-1022) <= k).
  { apply Z.max_lub; [|exact Hk].
    assert (H : (2 ^ F64.ilog2 a < 2 ^ (k + 1))%Q).
    { eapply Qle_lt_trans; [apply ilog2_lower; exact Ha0|exact Ha1]. }
    apply Qpower_lt_compat_l_inv in H; [lia|reflexivity]. }
  set (e := Z.max (F64.ilog2 a) (-1022)) in *.
  set (ulp := (2 ^ (e - 52))%Q).
  assert (Pu : (0 < ulp)%Q) by apply two_power_pos.
  assert (Hu : (ulp / 2 <= 2 ^ (k - 53))%Q).
  { unfold ulp. rewrite <- two_power_half.
    apply Qpower_le_compat_l; [lia|discriminate]. }
  pose proof (round_half_even_close (a / ulp)) as Hm.
  set (m := F64.round_half_even (a / ulp)) in *.
  assert (Hr : (- (ulp / 2) <= inject_Z m * ulp - a <= ulp / 2)%Q).
  { assert (Ea : (a == a / ulp * ulp)%Q) by (field; lra).
    set (x := (a / ulp)%Q) in *. destruct Hm as [Hm1 Hm2].
    assert (H1 : ((inject_Z m - x) * ulp <= (1 # 2) * ulp)%Q)
      by (apply Qmult_le_compat_r; lra).
    assert (H2 : (- (1 # 2) * ulp <= (inject_Z m - x) * ulp)%Q)
      by (apply Qmult_le_compat_r; lra).
    assert (Ed : ((inject_Z m - x) * ulp == inject_Z m * ulp - x * ulp)%Q) by ring.
    assert (Eh : (ulp / 2 == (1 # 2) * ulp)%Q) by (field).
    lra. }
  pose proof (Qred_correct (inject_Z m * ulp)) as Ered.
  fold a. fold e. fold ulp. fold m.
  unfold a in Hr. destruct (Qle_bool 0 q); lra.
Qed.

Lemma round_close_below_one (q : Q) :
  (-1 < q < 1)%Q ->
  (- (1 # 18014398509481984) <= F64.round q - q <= 1 # 18014398509481984)%Q.
Proof.
  intros Hq. apply (round_close q (-1)); [lia|exact Hq].
Qed.

Lemma round_close_below_two (q : Q) :
  (-2 < q < 2)%Q ->
  (- (1 # 9007199254740992) <= F64.round q - q <= 1 # 9007199254740992)%Q.
Proof.
  intros Hq. apply (round_close q 0); [lia|exact Hq].
Qed.

(** The float Jaccard quotient lies within [2^-53] of the exact one. *)
Lemma F64_jaccard_close (a b : gset string) :
  (0 <= jaccard a b <= 1)%Q
  /\ (- (1 # 9007199254740992) <= F64.jaccard a b - jaccard a b
      <= 1 # 9007199254740992)%Q.
Proof.
  unfold F64.jaccard, jaccard.
  destruct (size (a ∪ b) =? 0)%nat eqn:E; [lra|].
  apply Nat.eqb_neq in E.
  assert (Hi : (size (a ∩ b) <= size (a ∪ b))%nat).
  { apply subseteq_size. etransitivity;
      [apply intersection_subseteq_l|apply union_subseteq_l]. }
  destruct (count_ratio (size (a ∩ b)) (size (a ∪ b)) ltac:(lia) Hi) as (Hr & _ & _).
  cbn zeta in Hr. split; [exact Hr|].
  unfold F64.true_div. apply round_close_below_two. lra.
Qed.

(** For a vector score in [0, 1], the float combined score lies within
    [2^-51] of the exact value of [0.6 * vector_score + 0.4 * overlap]. *)
Lemma F64_combined_spec_close (sel : string) (c : Chunk) :
  (0 <= score c <= 1)%Q ->
  (- (1 # 2251799813685248) <= F64.combined_spec sel c - combined_spec sel c
   <= 1 # 2251799813685248)%Q.
Proof.
  intros Hv. unfold F64.combined_spec, combined_spec, F64.add, F64.mul.
  destruct (F64_jaccard_close (token_set (chunk_text_of c)) (_extract_keywords sel))
    as [HJ Ho].
  set (J := jaccard (token_set (chunk_text_of c)) (_extract_keywords sel)) in *.
  set (o := F64.jaccard (token_set (chunk_text_of c)) (_extract_keywords sel)) in *.
  set (v := score c) in *.
  assert (E6 : F64.round (6 # 10) = 5404319552844595 # 9007199254740992)
    by (vm_compute; reflexivity).
  assert (E4 : F64.round (4 # 10) = 3602879701896397 # 9007199254740992)
    by (vm_compute; reflexivity).
  rewrite E6, E4.
  pose proof (round_close_below_one (v * (5404319552844595 # 9007199254740992))
                ltac:(lra)) as H1.
  pose proof (round_close_below_one (o * (3602879701896397 # 9007199254740992))
                ltac:(lra)) as H2.
  set (p1 := F64.round (v * (5404319552844595 # 9007199254740992))) in *.
  set (p2 := F64.round (o * (3602879701896397 # 9007199254740992))) in *.
  pose proof (round_close_below_two (p1 + p2) ltac:(lra)) as H3.
  lra.
Qed.

(** C2, as stated, fails for the empty selection: the guard at the top of
    [filter_chunks_by_selection] returns the candidates as they came, without
    scores and not in descending order of the combined score. *)
Lemma filter_chunks_by_selection_empty_selection_unranked :
  let c1 := tchunk 1 (F64.round (1 # 10)) "x" in
  let c2 := tchunk 2 (F64.round (9 # 10)) "y" in
  let out := F64.filter_chunks_by_selection F64.SelectionHandler_default [c1; c2] "" 3 in
  out = [c1; c2]
  /\ Forall (fun c => combined_score c = None) out
  /\ ~ sorted_desc (F64.combined_spec "") out.
Proof.
  intros c1 c2 out.
  assert (E : out = [c1; c2]) by reflexivity.
  split; [exact E|]. split.
  - rewrite E. repeat constructor.
  - rewrite E. intros H. inversion H as [|a l Hs Hall]; subst.
    inversion Hall as [|b l' Hle _]; subst.
    apply Qle_bool_iff in Hle. vm_compute in Hle. discriminate.
Qed.

(** C2 (amended).  For a non-empty selection, [filter_chunks_by_selection]
    gives every candidate the combined score
    [0.6 * vector_score + 0.4 * overlap_score] as Python evaluates it, in
    floats, the overlap score being the float quotient of the Jaccard
    similarity of the chunk's lowercase tokens and the selection's keywords
    (for a vector score in [0, 1] that float lies within [2^-51] of the
    exact value of the formula);
    ranks the scored candidates in descending order of that float, equal
    floats keeping their original order; keeps the candidates whose overlap
    score reaches the threshold (the float 0.3 by default), or the whole
    ranking when none does; and returns the first [max_results] of them.  The
    result is in descending order, and unless the fallback was taken every
    returned item reaches the threshold.  For the empty selection the
    candidates come back as they are, cut to [max_results]. *)
Theorem filter_chunks_by_selection_ranking (h : SelectionHandler)
    (retrieved : list Chunk) (sel : string) (m : Z) :
  let kw := _extract_keywords sel in
  let scored := List.map (F64.score_chunk kw) retrieved in
  let ranked := sort_desc combined_of scored in
  let kept := List.filter (meets_threshold h) ranked in
  let out := F64.filter_chunks_by_selection h retrieved sel m in
  (sel = "" -> out = PySeq.prefix retrieved m)
  /\ (sel <> "" ->
      (forall c : Chunk,
          let c' := F64.score_chunk kw c in
          let overlap := F64.jaccard (token_set (chunk_text_of c)) kw in
          text_overlap c' = Some overlap
          /\ combined_score c'
             = Some (F64.add (F64.mul (score c) (F64.round (6 # 10)))
                             (F64.mul overlap (F64.round (4 # 10))))
          /\ combined_score c' = Some (F64.combined_spec sel c)
          /\ chunk_id c' = chunk_id c /\ score c' = score c /\ payload c' = payload c)
      /\ Permutation ranked scored
      /\ sorted_desc combined_of ranked
      /\ (forall k : Q, with_key combined_of k ranked = with_key combined_of k scored)
      /\ (forall c, In c kept <-> In c ranked /\ (similarity_threshold h <= overlap_of c)%Q)
      /\ out = PySeq.prefix (if is_nil kept then PySeq.prefix ranked m else kept) m
      /\ (0 <= m ->
          out = firstn (Z.to_nat m) (if is_nil kept then ranked else kept)
          /\ PySeq.len out <= m)
      /\ sorted_desc combined_of out
      /\ (forall r, In r out -> exists c, In c retrieved /\ r = F64.score_chunk kw c)
      /\ (kept <> [] -> forall c, In c out -> (similarity_threshold h <= overlap_of c)%Q)
      /\ similarity_threshold F64.SelectionHandler_default = F64.round (3 # 10)
      /\ (forall c : Chunk,
            (0 <= score c <= 1)%Q ->
            (- (1 # 2251799813685248)
             <= F64.combined_spec sel c - combined_spec sel c
             <= 1 # 2251799813685248)%Q)).
Proof.
  intros kw scored ranked kept out.
  split; [intros E; unfold out; rewrite E; reflexivity|]. intros Hsel.
  assert (Hbody : out = PySeq.prefix (if is_nil kept then PySeq.prefix ranked m else kept) m).
  { apply F64_filter_chunks_by_selection_body. exact Hsel. }
  assert (Hranked : sorted_desc combined_of ranked) by apply sort_desc_sorted.
  assert (Hkept : forall c, In c kept <-> In c ranked /\ (similarity_threshold h <= overlap_of c)%Q).
  { intros c. unfold kept. rewrite filter_In. unfold meets_threshold.
    now rewrite Qle_bool_iff. }
  split; [|split; [|split; [|split; [|split; [|split; [|split; [|split; [|split; [|split; [|split]]]]]]]]]].
  - intros c. exact (F64_score_chunk_spec sel c).
  - apply sort_desc_perm.
  - exact Hranked.
  - intros k. apply sort_desc_stable.
  - exact Hkept.
  - exact Hbody.
  - intros Hm. split.
    + now apply F64_filter_chunks_by_selection_firstn.
    + rewrite Hbody. now apply prefix_length.
  - rewrite Hbody. apply prefix_sorted.
    destruct (is_nil kept).
    + now apply prefix_sorted.
    + now apply sorted_desc_filter.
  - intros r Hr. rewrite Hbody in Hr. apply prefix_In in Hr.
    assert (Hin : In r ranked).
    { destruct (is_nil kept); [now apply prefix_In in Hr|now apply Hkept in Hr]. }
    apply (Permutation_in _ (sort_desc_perm combined_of scored)) in Hin.
    apply in_map_iff in Hin. destruct Hin as (c & <- & Hc). now exists c.
  - intros Hne c Hc. rewrite Hbody in Hc. apply prefix_In in Hc.
    destruct (is_nil kept) eqn:Ek.
    + apply is_nil_true in Ek. contradiction.
    + now apply Hkept in Hc.
  - reflexivity.
  - intros c Hc. now apply F64_combined_spec_close.
Qed.

Lemma filter_chunks_by_selection_ranking_witness :
  near_tie_selection <> ""
  /\ sorted_desc combined_of
       (F64.filter_chunks_by_selection F64.SelectionHandler_default
          near_tie_candidates near_tie_selection 3).
Proof.
  assert (H : near_tie_selection <> "") by discriminate.
  split; [exact H|].
  apply (filter_chunks_by_selection_ranking F64.SelectionHandler_default
           near_tie_candidates near_tie_selection 3).
  exact H.
Defined.

(** The rounding decides the order: the float scores of the two candidates
    are [0.3] and [0.30000000000000004], so the second comes first, although
    the exact value of the first formula is the larger one. *)
Example filter_chunks_by_selection_near_tie :
  List.map (fun c => (chunk_id c, combined_score c))
    (F64.filter_chunks_by_selection F64.SelectionHandler_default
       near_tie_candidates near_tie_selection 3)
  = [(2, Some (1351079888211149 # 4503599627370496));
     (1, Some (5404319552844595 # 18014398509481984))]
  /\ List.map chunk_id
       (filter_chunks_by_selection SelectionHandler_default
          near_tie_candidates near_tie_selection 3)
     = [1; 2].
Proof. vm_compute. split; reflexivity. Qed.

(** C3.  For a non-empty candidate list and [max_results >= 1] the result is
    never empty; past the guard, when no candidate reaches the overlap
    threshold the result is the top [max_results] of the candidates by
    combined score: the first [max_results] of the ranking of all scored
    candidates, in descending order of the float
    [0.6 * vector_score + 0.4 * overlap_score], so that no candidate left
    out has a larger combined score than one returned. *)
Theorem filter_chunks_by_selection_nonempty (h : SelectionHandler)
    (retrieved : list Chunk) (sel : string) (m : Z) :
  retrieved <> [] -> 1 <= m ->
  let kw := _extract_keywords sel in
  let ranked := F64.ranked_chunks retrieved sel in
  let out := F64.filter_chunks_by_selection h retrieved sel m in
  out <> []
  /\ (sel <> "" ->
      List.filter (meets_threshold h) ranked = [] ->
      out = firstn (Z.to_nat m) ranked
      /\ Permutation ranked (List.map (F64.score_chunk kw) retrieved)
      /\ sorted_desc combined_of ranked
      /\ (forall c, combined_score (F64.score_chunk kw c) = Some (F64.combined_spec sel c))
      /\ (forall r c, In r out -> In c (skipn (Z.to_nat m) ranked) ->
            (combined_of c <= combined_of r)%Q)
      /\ PySeq.len out = Z.min m (PySeq.len retrieved)).
Proof.
  intros Hne Hm kw ranked out.
  assert (Hfirst : forall l : list Chunk, l <> [] -> firstn (Z.to_nat m) l <> []).
  { intros [|x l] Hl; [congruence|].
    destruct (Z.to_nat m) as [|k] eqn:E; [lia|]. discriminate. }
  assert (Hlen : length ranked = length retrieved).
  { unfold ranked, F64.ranked_chunks. now rewrite sort_desc_length, length_map. }
  split.
  - unfold out. destruct (decide (sel = "")) as [->|Hsel].
    + unfold F64.filter_chunks_by_selection. simpl.
      rewrite prefix_nonneg by lia. now apply Hfirst.
    + rewrite F64_filter_chunks_by_selection_firstn by (assumption || lia).
      apply Hfirst. fold ranked.
      assert (Hr : ranked <> []).
      { intros E. rewrite E in Hlen. destruct retrieved; [congruence|discriminate]. }
      destruct (is_nil _) eqn:Ek; [exact Hr|].
      intros E. rewrite E in Ek. discriminate.
  - intros Hsel Hnone.
    assert (Hout : out = firstn (Z.to_nat m) ranked).
    { unfold out. rewrite F64_filter_chunks_by_selection_firstn by (assumption || lia).
      fold ranked. now rewrite Hnone. }
    assert (Hsorted : sorted_desc combined_of ranked) by apply sort_desc_sorted.
    split; [exact Hout|]. split; [apply sort_desc_perm|]. split; [exact Hsorted|].
    split; [|split].
    + intros c. exact (proj1 (proj2 (proj2 (F64_score_chunk_spec sel c)))).
    + intros r c Hr Hc. rewrite Hout in Hr.
      exact (sorted_desc_firstn_top combined_of ranked (Z.to_nat m) Hsorted r c Hr Hc).
    + rewrite Hout. unfold PySeq.len. rewrite length_firstn, Hlen. lia.
Qed.

Lemma filter_chunks_by_selection_nonempty_witness :
  off_topic_float_candidates <> [] /\ 1 <= 1
  /\ F64.filter_chunks_by_selection F64.SelectionHandler_default
       off_topic_float_candidates sel20 1 <> [].
Proof.
  assert (H1 : off_topic_float_candidates <> []) by discriminate.
  assert (H2 : 1 <= 1) by lia.
  split; [exact H1|]. split; [exact H2|].
  apply (filter_chunks_by_selection_nonempty F64.SelectionHandler_default
           off_topic_float_candidates sel20 1 H1 H2).
Defined.

(** The fallback at work: no candidate reaches the threshold, and the one
    returned is the candidate with the larger combined score. *)
Example filter_chunks_by_selection_float_fallback :
  List.filter (meets_threshold F64.SelectionHandler_default)
    (F64.ranked_chunks off_topic_float_candidates sel20) = []
  /\ List.map chunk_id
       (F64.filter_chunks_by_selection F64.SelectionHandler_default
          off_topic_float_candidates sel20 1)
     = [2].
Proof. vm_compute. split; reflexivity. Qed.

(* ===================================================================== *)
(** * Further properties of retrieval and orchestration *)
(* ===================================================================== *)

(** X12.  The confidence heuristic never needs its clamp: the score is the
    plain sum 0.5 (+0.2) (-0.3) (+0.1), and it always lies between 0.2 and
    0.8. *)
Theorem estimate_confidence_never_clamped (response context : string) :
  let cites :=
    PyStr.contains "Source" response || PyStr.contains "According to" response in
  let unsure :=
    existsb (fun phrase => PyStr.contains (PyStr.lower phrase) (PyStr.lower response))
            uncertainty_phrases in
  let substantial := (500 <? PyStr.len context)%nat in
  (_estimate_confidence response context
   == (5 # 10) + (if cites then 2 # 10 else 0) - (if unsure then 3 # 10 else 0)
      + (if substantial then 1 # 10 else 0))%Q
  /\ ((2 # 10) <= _estimate_confidence response context <= (8 # 10))%Q.
Proof.
  intros cites unsure substantial. rewrite estimate_confidence_value.
  fold cites. fold unsure. fold substantial.
  destruct cites, unsure, substantial; split; try split; vm_compute;
    reflexivity || discriminate.
Qed.

Lemma selection_of_nonempty (request : QueryRequest) (sel : string) :
  selection_of request = Some sel ->
  sel <> "" /\ query_mode request = "selected-text" /\ selected_text request = Some sel.
Proof.
  unfold selection_of. destruct (bool_decide_reflect (query_mode request = "selected-text"));
    [|discriminate].
  destruct (selected_text request) as [[|x s]|]; try discriminate.
  intros E. injection E as <-. repeat split; [discriminate|assumption].
Qed.

(** A response whose confidence is the heuristic's value and whose count is
    a list length passes the checks of [QueryResponse]. *)
Lemma QueryResponse_new_estimated (text context : string)
    (citations : list SourceCitation) (session : option string) (found : list Chunk) :
  QueryResponse_new
    {| response_text := text; source_citations := citations;
       confidence_score := _estimate_confidence text context;
       response_session_id := session;
       retrieved_chunks := PySeq.len found |}
  = inr {| response_text := text; source_citations := citations;
           confidence_score := _estimate_confidence text context;
           response_session_id := session;
           retrieved_chunks := PySeq.len found |}.
Proof.
  unfold QueryResponse_new. cbn [confidence_score retrieved_chunks].
  destruct (estimate_confidence_bounds text context) as [Hlo Hhi].
  apply Qle_bool_iff in Hlo, Hhi. rewrite Hlo, Hhi. cbn [andb negb].
  destruct (Z.ltb_spec (PySeq.len found) 0) as [Hneg|_];
    [unfold PySeq.len in Hneg; lia|].
  reflexivity.
Qed.

Section PipelineMoreFacts.
Variable embed_remote : string -> list Q.
Variable search_remote : list Q -> Z -> option Q -> list Chunk.
Variable complete_remote : string -> string -> Z -> string.
Variable format_2f : Q -> string.
Variable default_system_prompt : string.
Variable selected_text_system_prompt : string.

Abbreviation retrieve_step_ := (retrieve_step embed_remote search_remote).
Abbreviation process_query_ :=
  (process_query embed_remote search_remote complete_remote format_2f
     default_system_prompt selected_text_system_prompt).
Abbreviation format_context_ := (format_context_for_llm format_2f).

(** Building the citations makes no remote call. *)
Lemma extract_source_citations_trace (chunks : list Chunk) (t : list Call) :
  snd (_extract_source_citations chunks t) = t.
Proof.
  unfold _extract_source_citations. induction chunks as [|c chunks IH]; [reflexivity|].
  cbn [mapM]. unfold bind at 1.
  destruct (SourceCitation_new (citation_of c)); cbn [lift raise ret]; [reflexivity|].
  unfold bind at 1. destruct (mapM _ chunks t) as [[e|ys] t'] eqn:E;
    cbn [snd] in IH; subst t'; reflexivity.
Qed.

(** The first score outside [0, 1] makes the citation step raise. *)
Lemma extract_source_citations_raises (chunks : list Chunk) (t : list Call) :
  Exists (fun c => Qle_bool 0 (score c) && Qle_bool (score c) 1 = false) chunks ->
  _extract_source_citations chunks t = (inl (ValidationError "relevance_score"), t).
Proof.
  unfold _extract_source_citations. induction chunks as [|c chunks IH]; intros H.
  - inversion H.
  - cbn [mapM]. unfold bind at 1. unfold SourceCitation_new at 1.
    cbn [relevance_score citation_of].
    destruct (Qle_bool 0 (score c) && Qle_bool (score c) 1) eqn:Hc.
    + cbn [lift ret]. unfold bind at 1. rewrite IH; [reflexivity|].
      inversion H as [? ? Hh|? ? Ht]; subst; [congruence|exact Ht].
    + reflexivity.
Qed.

(** The full-book path of [process_query], step by step. *)
Lemma process_query_full_book_run (request : QueryRequest) :
  selection_of request = None ->
  let qe := embed_remote (embedding_input (query_text request)) in
  let results := search_remote qe (max_results request) (Some (7 # 10)) in
  let context := format_context_ results in
  let user_message := _build_user_message (query_text request) context in
  let text := complete_remote default_system_prompt user_message 1000 in
  let t := [CallEmbed (embedding_input (query_text request));
            CallSearch qe (max_results request) (Some (7 # 10));
            CallComplete default_system_prompt user_message 1000] in
  run (process_query_ request)
  = match _extract_source_citations results t with
    | (inl e, t') => (inl e, t')
    | (inr citations, t') =>
        lift (QueryResponse_new
                {| response_text := text; source_citations := citations;
                   confidence_score := _estimate_confidence text context;
                   response_session_id := session_id request;
                   retrieved_chunks := PySeq.len results |}) t'
    end.
Proof.
  intros Hsel qe results context user_message text t.
  unfold run, process_query, retrieve_step. rewrite Hsel.
  unfold retrieve_relevant_chunks, generate_embedding, search, generate_response.
  unfold bind, remote, ret. cbn [app fst snd]. reflexivity.
Qed.

(** X13.  Without a usable selection (full-book mode, or selected-text mode
    with no selected text) [process_query] makes exactly three remote calls,
    in this order: one embedding of the query text, one search with limit
    [max_results] and floor 0.7, one completion with the default prompt and
    at most 1000 tokens.  When the scores found lie in [0, 1] the answer
    carries the completion's text, one citation per search result in search
    order, and the number of search results. *)
Theorem process_query_full_book (request : QueryRequest) :
  selection_of request = None ->
  let qe := embed_remote (embedding_input (query_text request)) in
  let results := search_remote qe (max_results request) (Some (7 # 10)) in
  let context := format_context_ results in
  let user_message := _build_user_message (query_text request) context in
  let text := complete_remote default_system_prompt user_message 1000 in
  snd (run (process_query_ request))
  = [CallEmbed (embedding_input (query_text request));
     CallSearch qe (max_results request) (Some (7 # 10));
     CallComplete default_system_prompt user_message 1000]
  /\ (Forall (fun c => (0 <= score c <= 1)%Q) results ->
      fst (run (process_query_ request))
      = inr {| response_text := text;
               source_citations := List.map citation_of results;
               confidence_score := _estimate_confidence text context;
               response_session_id := session_id request;
               retrieved_chunks := PySeq.len results |}).
Proof.
  intros Hsel qe results context user_message text.
  rewrite (process_query_full_book_run request Hsel).
  fold qe. fold results. fold context. fold user_message. fold text.
  set (t := [CallEmbed _; CallSearch _ _ _; CallComplete _ _ _]).
  pose proof (extract_source_citations_trace results t) as Htr.
  split.
  - destruct (_extract_source_citations results t) as [[e|cits] t'];
      cbn [snd] in Htr; subst t'; [reflexivity|].
    unfold lift. now rewrite QueryResponse_new_estimated.
  - intros Hscores. rewrite (extract_source_citations_ok results t Hscores).
    unfold lift. now rewrite QueryResponse_new_estimated.
Qed.

(** X14.  When a result of step 1 carries a score outside [0, 1],
    [process_query] raises the validation error of the citation's
    [relevance_score]; it does so after the completion call, whose answer is
    dropped. *)
Theorem process_query_score_out_of_range (request : QueryRequest)
    (final : list Chunk) (t : list Call) :
  run (retrieve_step_ request) = (inr final, t) ->
  Exists (fun c => ~ (0 <= score c <= 1)%Q) final ->
  exists system user tokens,
    run (process_query_ request)
    = (inl (ValidationError "relevance_score"),
       t ++ [CallComplete system user tokens]).
Proof.
  intros Hstep Hbad. unfold run in *.
  assert (Hbad' : Exists (fun c => Qle_bool 0 (score c) && Qle_bool (score c) 1 = false) final).
  { eapply Exists_impl; [exact Hbad|]. intros c Hc. cbn beta in *.
    destruct (Qle_bool 0 (score c) && Qle_bool (score c) 1) eqn:E; [|reflexivity].
    exfalso. apply Hc. apply andb_true_iff in E.
    now rewrite <- !Qle_bool_iff. }
  unfold process_query. unfold bind at 1. rewrite Hstep. unfold bind at 1.
  destruct (selection_of request) as [sel|].
  - unfold generate_response_with_selected_text, bind, remote, ret.
    rewrite (extract_source_citations_raises final _ Hbad'). now eexists _, _, _.
  - unfold generate_response, bind, remote, ret.
    rewrite (extract_source_citations_raises final _ Hbad'). now eexists _, _, _.
Qed.

(** X15.  In selected-text mode with [max_results >= 1], step 1 of
    [process_query] returns at most [max_results] results; each is a search
    result that shares more than three tokens with the selection, with the
    handler's scores attached; and the list is empty only when no search
    result passes that lexical test. *)
Theorem retrieve_step_selected_text (request : QueryRequest) (sel : string) :
  selection_of request = Some sel ->
  1 <= max_results request ->
  let se := embed_remote (embedding_input sel) in
  let qe := embed_remote (embedding_input (query_text request)) in
  let results := search_remote (blend qe se) (max_results request * 2) (Some (6 # 10)) in
  exists final t,
    run (retrieve_step_ request) = (inr final, t)
    /\ PySeq.len final <= max_results request
    /\ (forall f, In f final ->
          exists r, In r results /\ shares_words sel r = true
                    /\ f = score_chunk (_extract_keywords sel) r)
    /\ (final = [] <-> forall r, In r results -> shares_words sel r = false).
Proof.
  intros Hsel Hm se qe results.
  destruct (selection_of_nonempty request sel Hsel) as (Hne & _ & _).
  set (initial := PySeq.prefix (List.filter (shares_words sel) results)
                    (max_results request * 2)).
  set (final := filter_chunks_by_selection SelectionHandler_default initial sel
                  (max_results request)).
  exists final. eexists. split.
  { unfold run, retrieve_step. rewrite Hsel. unfold bind.
    rewrite retrieve_for_selected_text_run. reflexivity. }
  assert (Hfinal : final = firstn (Z.to_nat (max_results request))
            (if is_nil (List.filter (meets_threshold SelectionHandler_default)
                          (ranked_chunks initial sel))
             then ranked_chunks initial sel
             else List.filter (meets_threshold SelectionHandler_default)
                    (ranked_chunks initial sel))).
  { apply filter_chunks_by_selection_firstn; [exact Hne|lia]. }
  assert (Hinit : initial = firstn (Z.to_nat (max_results request * 2))
                              (List.filter (shares_words sel) results)).
  { apply prefix_nonneg. lia. }
  assert (Hpool : forall f, In f final -> In f (ranked_chunks initial sel)).
  { intros f Hf. rewrite Hfinal in Hf.
    apply (selection_pool_elem SelectionHandler_default initial sel f).
    rewrite <- (firstn_skipn (Z.to_nat (max_results request))). apply in_or_app. now left. }
  split; [|split].
  - rewrite Hfinal. unfold PySeq.len. rewrite length_firstn. lia.
  - intros f Hf. destruct (ranked_chunks_elem initial sel f (Hpool f Hf)) as (r & Hr & ->).
    exists r. rewrite Hinit in Hr.
    assert (Hr' : In r (List.filter (shares_words sel) results)).
    { rewrite <- (firstn_skipn (Z.to_nat (max_results request * 2))).
      apply in_or_app. now left. }
    apply filter_In in Hr'. destruct Hr' as [Hin Hsh]. now repeat split.
  - assert (Hlen : forall l : list Chunk, (length (ranked_chunks l sel) = length l)%nat).
    { intros l. unfold ranked_chunks. now rewrite sort_desc_length, length_map. }
    split.
    + intros Hnil r Hr. destruct (shares_words sel r) eqn:Hsh; [|reflexivity]. exfalso.
      assert (Hf : In r (List.filter (shares_words sel) results)) by now apply filter_In.
      assert (Hi : initial <> []).
      { rewrite Hinit. destruct (List.filter (shares_words sel) results) as [|x l];
          [destruct Hf|].
        destruct (Z.to_nat (max_results request * 2)) eqn:E; [lia|discriminate]. }
      assert (Hr0 : ranked_chunks initial sel <> []).
      { intros E. apply Hi. apply (f_equal (@length _)) in E. rewrite Hlen in E.
        now destruct initial. }
      rewrite Hfinal in Hnil.
      destruct (is_nil _) eqn:Ek.
      * destruct (ranked_chunks initial sel); [congruence|].
        destruct (Z.to_nat (max_results request)) eqn:E; [lia|discriminate].
      * destruct (List.filter _ (ranked_chunks initial sel)); [discriminate|].
        destruct (Z.to_nat (max_results request)) eqn:E; [lia|discriminate].
    + intros Hnone.
      assert (Hf : List.filter (shares_words sel) results = []) by now apply filter_none.
      assert (Hi : initial = []) by (rewrite Hinit, Hf; apply firstn_nil).
      unfold final. rewrite Hi. unfold filter_chunks_by_selection.
      cbn [is_nil]. rewrite orb_true_r. apply prefix_nil.
Qed.

(** X16.  [format_context_for_llm] gives the empty string exactly for the
    empty result list; any other list gives a text that begins with the
    header of source 1.  Hence the user message of the default prompt uses
    its no-context wording exactly when nothing was retrieved. *)
Theorem format_context_for_llm_empty (retrieved : list Chunk) (query : string) :
  (format_context_ retrieved = "" <-> retrieved = [])
  /\ (retrieved <> [] -> is_prefix_of "[Source 1: " (format_context_ retrieved))
  /\ (is_prefix_of "Question: " (_build_user_message query (format_context_ retrieved))
      <-> retrieved = []).
Proof.
  assert (Hhead : retrieved <> [] ->
            exists rest, format_context_ retrieved = "[Source 1: " +:+ rest).
  { destruct retrieved as [|c l]; [congruence|]. intros _.
    unfold format_context_for_llm, PyStr.join. cbn [imap].
    set (first := "[Source " +:+ pretty 1%nat +:+ _).
    assert (Hf : exists r, first = "[Source 1: " +:+ r).
    { unfold first. change (pretty 1%nat) with "1". eexists. reflexivity. }
    destruct Hf as (r & Hf).
    destruct (imap _ l) as [|y ys]; cbn [String.concat].
    - now exists r.
    - exists (r +:+ (PyStr.newline +:+ "---" +:+ PyStr.newline)
                +:+ String.concat (PyStr.newline +:+ "---" +:+ PyStr.newline) (y :: ys)).
      rewrite Hf. now rewrite !str_app_assoc. }
  assert (Hiff : format_context_ retrieved = "" <-> retrieved = []).
  { split; [|intros ->; reflexivity].
    intros E. destruct retrieved as [|c l]; [reflexivity|].
    destruct Hhead as (rest & Hr); [discriminate|]. rewrite Hr in E. discriminate. }
  split; [exact Hiff|]. split; [exact Hhead|]. split.
  - intros (tail & E). destruct retrieved as [|c l]; [reflexivity|]. exfalso.
    destruct Hhead as (rest & Hr); [discriminate|]. rewrite Hr in E.
    unfold _build_user_message in E. discriminate.
  - intros ->. cbn. eexists. reflexivity.
Qed.


End PipelineMoreFacts.

Lemma process_query_full_book_witness :
  selection_of {| query_text := "What is ROS 2?"; query_mode := "full-book";
                  session_id := None; selected_text := None; max_results := 3 |} = None
  /\ length (snd (run (process_query demo_embed demo_search demo_complete demo_format
                         "system" "system"
                         {| query_text := "What is ROS 2?"; query_mode := "full-book";
                            session_id := None; selected_text := None;
                            max_results := 3 |}))) = 3%nat.
Proof.
  assert (H : selection_of {| query_text := "What is ROS 2?"; query_mode := "full-book";
                              session_id := None; selected_text := None;
                              max_results := 3 |} = None) by (vm_compute; reflexivity).
  split; [exact H|].
  pose proof (process_query_full_book demo_embed demo_search demo_complete
                    demo_format "system" "system" _ H) as [E _].
  rewrite E. reflexivity.
Defined.

Lemma retrieve_step_selected_text_witness :
  selection_of demo_request = Some sel20 /\ 1 <= max_results demo_request
  /\ exists final t,
       run (retrieve_step demo_embed demo_search demo_request) = (inr final, t)
       /\ PySeq.len final <= max_results demo_request.
Proof.
  assert (H1 : selection_of demo_request = Some sel20) by (vm_compute; reflexivity).
  assert (H2 : 1 <= max_results demo_request) by (vm_compute; discriminate).
  split; [exact H1|]. split; [exact H2|].
  destruct (retrieve_step_selected_text demo_embed demo_search demo_request sel20 H1 H2)
    as (final & t & Hrun & Hlen & _).
  exists final, t. split; assumption.
Defined.


Lemma process_query_score_out_of_range_witness :
  exists system user tokens,
    run (process_query demo_embed (fun _ _ _ => [tchunk 1 (3 # 2) "alpha"]) demo_complete
           demo_format "system" "system"
           {| query_text := "What is ROS 2?"; query_mode := "full-book";
              session_id := None; selected_text := None; max_results := 3 |})
    = (inl (ValidationError "relevance_score"),
       [CallEmbed "What is ROS 2?";
        CallSearch (demo_embed "What is ROS 2?") 3 (Some (7 # 10))]
       ++ [CallComplete system user tokens]).
Proof.
  apply (process_query_score_out_of_range demo_embed
           (fun _ _ _ => [tchunk 1 (3 # 2) "alpha"]) demo_complete demo_format
           "system" "system" _ [tchunk 1 (3 # 2) "alpha"]).
  - reflexivity.
  - apply Exists_cons_hd. intros [_ H]. vm_compute in H. apply H. reflexivity.
Defined.

(* ===================================================================== *)
(** * Properties of request validation and of the query route *)
(* ===================================================================== *)

(** A text of [n] characters has at most [(n + 1) / 2] words. *)
Lemma split_go_count (cur s : string) :
  (2 * length (PyStr.split_go cur s)
   <= String.length s + 1 + (match cur with EmptyString => 0 | _ => 1 end))%nat.
Proof.
  revert cur. induction s as [|c s IH]; intros cur.
  - destruct cur; cbn; lia.
  - cbn [PyStr.split_go String.length]. destruct (PyStr.isspace c).
    + destruct cur as [|a cur].
      * specialize (IH EmptyString). cbn in IH. lia.
      * cbn [length]. specialize (IH EmptyString). cbn in IH. lia.
    + specialize (IH (String c cur)). cbn in IH. destruct cur; lia.
Qed.

Lemma get_word_count_le_length (s : string) :
  2 * get_word_count s <= Z.of_nat (PyStr.len s) + 1.
Proof.
  unfold get_word_count, PyStr.split, PySeq.len, PyStr.len.
  pose proof (split_go_count EmptyString s) as H. cbn in H. lia.
Qed.

Lemma field_selected_text_given (mode : option string) (v st : option string) :
  field_selected_text mode (Given v) = Some st ->
  st = v
  /\ (mode = Some "selected-text" -> exists t, v = Some t /\ t <> "")
  /\ (forall t, v = Some t ->
        (20 <= PyStr.len t <= 2000)%nat /\ 20 <= get_word_count t <= 2000).
Proof.
  unfold field_selected_text. destruct v as [t|].
  - destruct (Nat.leb_spec 20 (PyStr.len t)) as [Hlo|]; [|discriminate].
    destruct (Nat.leb_spec (PyStr.len t) 2000) as [Hhi|]; [|discriminate].
    cbn [andb]. unfold validate_selected_text.
    destruct t as [|a t]; [cbn in Hlo; lia|].
    cbn [andb]. rewrite andb_false_r.
    fold (get_word_count (String a t)).
    destruct (Z.ltb_spec (get_word_count (String a t)) 20); [discriminate|].
    destruct (Z.gtb_spec (get_word_count (String a t)) 2000); [discriminate|].
    intros E. injection E as <-. split; [reflexivity|]. split.
    + intros _. eexists. split; [reflexivity|discriminate].
    + intros t' E. injection E as <-. split; lia.
  - unfold validate_selected_text. cbn [andb]. rewrite andb_true_r.
    destruct (bool_decide_reflect (mode = Some "selected-text")) as [Hm|Hm];
      [discriminate|].
    intros E. injection E as <-. split; [reflexivity|]. split.
    + intros Hm'. contradiction.
    + intros t E. discriminate.
Qed.

(** What a successful [QueryRequest(...)] says about each field. *)
Lemma QueryRequest_new_fields (i : QueryInput) (request : QueryRequest) :
  QueryRequest_new i = inr request ->
  field_query_text (in_query_text i) = Some (query_text request)
  /\ field_query_mode (in_query_mode i) = Some (query_mode request)
  /\ field_selected_text (Some (query_mode request)) (in_selected_text i)
     = Some (selected_text request)
  /\ field_max_results (in_max_results i) = Some (max_results request)
  /\ session_id request = in_session_id i.
Proof.
  unfold QueryRequest_new.
  destruct (field_query_text _) as [qt|]; [|discriminate].
  destruct (field_query_mode _) as [qm|]; [|discriminate].
  destruct (field_selected_text _ _) as [st|] eqn:Est; [|discriminate].
  destruct (field_max_results _) as [mr|]; [|discriminate].
  intros E. injection E as <-. cbn. now rewrite Est.
Qed.

(** The checks that an accepted [QueryRequest] has passed, field by field. *)
Lemma QueryRequest_new_checked (i : QueryInput) (request : QueryRequest) :
  QueryRequest_new i = inr request ->
  (1 <= PyStr.len (query_text request) <= 2000)%nat
  /\ (query_mode request = "full-book" \/ query_mode request = "selected-text")
  /\ 1 <= max_results request <= 20
  /\ session_id request = in_session_id i
  /\ (forall t, selected_text request = Some t ->
        in_selected_text i = Given (Some t)
        /\ (20 <= PyStr.len t <= 2000)%nat
        /\ 20 <= get_word_count t <= 1000)
  /\ (selected_text request = None ->
        in_selected_text i = Missing
        \/ (in_selected_text i = Given None /\ query_mode request = "full-book")).
Proof.
  intros H. destruct (QueryRequest_new_fields i request H) as (Hqt & Hqm & Hst & Hmr & Hs).
  assert (Hmode : query_mode request = "full-book" \/ query_mode request = "selected-text").
  { unfold field_query_mode in Hqm. destruct (in_query_mode i) as [|m].
    - injection Hqm as <-. now left.
    - destruct (bool_decide_reflect (m = "full-book")) as [Em|Em]; cbn [orb] in Hqm;
        [injection Hqm as <-; now left|].
      destruct (bool_decide_reflect (m = "selected-text")) as [Em'|Em'];
        [injection Hqm as <-; now right|discriminate]. }
  split; [|split; [exact Hmode|split; [|split; [exact Hs|split]]]].
  - unfold field_query_text in Hqt.
    destruct (Nat.leb_spec 1 (PyStr.len (in_query_text i))); [|discriminate].
    destruct (Nat.leb_spec (PyStr.len (in_query_text i)) 2000); [|discriminate].
    injection Hqt as <-. lia.
  - unfold field_max_results in Hmr. destruct (in_max_results i) as [|n].
    + injection Hmr as <-. lia.
    + destruct (Z.leb_spec 1 n); [|discriminate].
      destruct (Z.leb_spec n 20); [|discriminate]. injection Hmr as <-. lia.
  - intros t Ht. destruct (in_selected_text i) as [|v].
    + cbn in Hst. congruence.
    + destruct (field_selected_text_given _ _ _ Hst) as (Ev & _ & Hlen).
      rewrite Ht in Ev. subst v. destruct (Hlen t eq_refl) as [Hc Hw].
      split; [reflexivity|]. split; [exact Hc|].
      pose proof (get_word_count_le_length t). lia.
  - intros Hn. destruct (in_selected_text i) as [|v]; [now left|]. right.
    destruct (field_selected_text_given _ _ _ Hst) as (Ev & Hreq & _).
    rewrite Hn in Ev. subst v. split; [reflexivity|].
    destruct Hmode as [Hm|Hm]; [exact Hm|].
    destruct Hreq as (t & Et & _); [now rewrite Hm|discriminate].
Qed.

(** X18.  Every [QueryRequest] that the constructor accepts has a query text
    of 1 to 2000 characters, one of the two modes, [max_results] between 1
    and 20, and a selected text that, when present, has 20 to 2000
    characters and 20 to 1000 words: the validator's upper limit of 2000
    words can never be what rejects a value, the character limit comes
    first.  A request in selected-text mode carries no selected text only
    when the field was left out of the input. *)
Theorem QueryRequest_new_invariants (i : QueryInput) (request : QueryRequest) :
  QueryRequest_new i = inr request ->
  (1 <= PyStr.len (query_text request) <= 2000)%nat
  /\ (query_mode request = "full-book" \/ query_mode request = "selected-text")
  /\ 1 <= max_results request <= 20
  /\ session_id request = in_session_id i
  /\ (forall t, selected_text request = Some t ->
        in_selected_text i = Given (Some t)
        /\ (20 <= PyStr.len t <= 2000)%nat
        /\ 20 <= get_word_count t <= 1000)
  /\ (selected_text request = None ->
        in_selected_text i = Missing
        \/ (in_selected_text i = Given None /\ query_mode request = "full-book")).
Proof.
  exact (QueryRequest_new_checked i request).
Qed.

Lemma QueryRequest_new_invariants_witness :
  QueryRequest_new {| in_query_text := "what is this about?";
                      in_query_mode := Given "selected-text";
                      in_session_id := None;
                      in_selected_text := Given (Some sel20);
                      in_max_results := Given 3 |} = inr demo_request
  /\ 1 <= max_results demo_request <= 20.
Proof.
  assert (H : QueryRequest_new {| in_query_text := "what is this about?";
                                  in_query_mode := Given "selected-text";
                                  in_session_id := None;
                                  in_selected_text := Given (Some sel20);
                                  in_max_results := Given 3 |} = inr demo_request)
    by (vm_compute; reflexivity).
  split; [exact H|].
  exact (proj1 (proj2 (proj2 (QueryRequest_new_invariants _ _ H)))).
Defined.

Section RouteFacts.
Variable embed_remote : string -> list Q.
Variable search_remote : list Q -> Z -> option Q -> list Chunk.
Variable complete_remote : string -> string -> Z -> string.
Variable format_2f : Q -> string.
Variable default_system_prompt : string.
Variable selected_text_system_prompt : string.

Abbreviation rag_process_query :=
  (process_query embed_remote search_remote complete_remote format_2f
     default_system_prompt selected_text_system_prompt).
Abbreviation the_route :=
  (route_process_query embed_remote search_remote complete_remote format_2f
     default_system_prompt selected_text_system_prompt).

(** X19.  For a request built from the input [i]: when the input asks for
    selected-text mode and leaves [selected_text] out, the route answers
    status 500 without any remote call, although its guard raises status
    400; for every other accepted input the route makes the remote calls of
    [RAGService.process_query] and answers 200 with its response, or 400
    when it raises a validation error. *)
Theorem route_process_query_status (i : QueryInput) (request : QueryRequest) :
  QueryRequest_new i = inr request ->
  (in_query_mode i = Given "selected-text" /\ in_selected_text i = Missing ->
     the_route request [] = ((500, None), []))
  /\ (~ (in_query_mode i = Given "selected-text" /\ in_selected_text i = Missing) ->
      snd (the_route request []) = snd (run (rag_process_query request))
      /\ fst (the_route request [])
         = match fst (run (rag_process_query request)) with
           | inr response => (200, Some response)
           | inl _ => (400, None)
           end).
Proof.
  intros H.
  destruct (QueryRequest_new_fields i request H) as (_ & Hqm & Hst & _ & _).
  destruct (QueryRequest_new_checked i request H) as (_ & Hmode & _ & _ & Hsome & Hnone).
  split.
  - intros [Hm Hmiss]. rewrite Hm in Hqm. cbn in Hqm. injection Hqm as Hqm.
    rewrite Hmiss in Hst. cbn in Hst. injection Hst as Hst.
    unfold route_process_query, route_body. rewrite <- Hqm, <- Hst.
    rewrite bool_decide_true by reflexivity. reflexivity.
  - intros Hnot.
    assert (Hguard : bool_decide (query_mode request = "selected-text")
                     && match selected_text request with
                        | Some (String _ _) => false | _ => true end = false).
    { destruct (bool_decide_reflect (query_mode request = "selected-text")) as [Hm|];
        [|reflexivity].
      cbn [andb]. destruct (selected_text request) as [t|] eqn:Et.
      - destruct (Hsome t eq_refl) as (_ & Hlen & _).
        destruct t; [cbn in Hlen; lia|reflexivity].
      - exfalso. destruct (Hnone eq_refl) as [Hmiss|[_ Hfb]]; [|congruence].
        apply Hnot. split; [|exact Hmiss].
        unfold field_query_mode in Hqm. destruct (in_query_mode i) as [|m].
        + injection Hqm as Hqm. congruence.
        + destruct (_ || _); [|discriminate]. injection Hqm as ->. now rewrite Hm. }
    unfold route_process_query, route_body, run. rewrite Hguard.
    destruct (rag_process_query request []) as [[e|response] t]; split; reflexivity.
Qed.

End RouteFacts.

Lemma route_process_query_status_witness :
  QueryRequest_new {| in_query_text := "what is this about?";
                      in_query_mode := Given "selected-text";
                      in_session_id := None;
                      in_selected_text := Missing;
                      in_max_results := Missing |}
  = inr {| query_text := "what is this about?"; query_mode := "selected-text";
           session_id := None; selected_text := None; max_results := 5 |}
  /\ route_process_query demo_embed demo_search demo_complete demo_format
       "system" "system"
       {| query_text := "what is this about?"; query_mode := "selected-text";
          session_id := None; selected_text := None; max_results := 5 |} []
     = ((500, None), []).
Proof.
  assert (H : QueryRequest_new {| in_query_text := "what is this about?";
                                  in_query_mode := Given "selected-text";
                                  in_session_id := None;
                                  in_selected_text := Missing;
                                  in_max_results := Missing |}
              = inr {| query_text := "what is this about?";
                       query_mode := "selected-text";
                       session_id := None; selected_text := None;
                       max_results := 5 |}) by (vm_compute; reflexivity).
  split; [exact H|].
  apply (proj1 (route_process_query_status demo_embed demo_search demo_complete
                  demo_format "system" "system" _ _ H)).
  split; reflexivity.
Defined.

(* ===================================================================== *)
(** * Properties of the batching loops *)
(* ===================================================================== *)

Lemma slice_from {A} (l : list A) (a b : Z) :
  0 <= a <= PySeq.len l -> a <= b ->
  PySeq.slice l a b = firstn (Z.to_nat (b - a)) (skipn (Z.to_nat a) l).
Proof.
  intros Ha Hb. unfold PySeq.slice, PySeq.clamp, PySeq.len in *.
  destruct (Z.ltb_spec a 0), (Z.ltb_spec b 0); try lia.
  rewrite (Z.min_l a) by lia.
  destruct (Z.le_ge_cases b (Z.of_nat (length l))).
  - now rewrite Z.min_l by lia.
  - rewrite Z.min_r by lia.
    rewrite !firstn_all2; [reflexivity|rewrite length_skipn; lia|rewrite length_skipn; lia].
Qed.

Section Batches.
Context {A : Type} (l : list A) (size : Z).
Hypothesis size_pos : 0 < size.

Abbreviation batch := (batch_at l size).

Lemma batch_length (k : nat) :
  Z.of_nat k * size < PySeq.len l ->
  PySeq.len (batch k) = Z.min size (PySeq.len l - Z.of_nat k * size).
Proof.
  intros Hk. unfold batch_at. rewrite slice_from by lia.
  unfold PySeq.len in *. rewrite length_firstn, length_skipn. lia.
Qed.

Lemma batches_concat (m k0 : nat) :
  (forall k, (k0 <= k < k0 + m)%nat -> Z.of_nat k * size < PySeq.len l) ->
  PySeq.len l <= Z.of_nat (k0 + m) * size ->
  concat (List.map batch (seq k0 m)) = skipn (Z.to_nat (Z.of_nat k0 * size)) l.
Proof.
  revert k0. induction m as [|m IH]; intros k0 Hin Hend.
  - cbn. symmetry. apply skipn_all2. unfold PySeq.len in Hend.
    replace (k0 + 0)%nat with k0 in Hend by lia. lia.
  - cbn [seq List.map concat]. rewrite IH.
    + assert (Hk : Z.of_nat k0 * size < PySeq.len l) by (apply Hin; lia).
      unfold batch_at. rewrite slice_from by lia.
      replace (0 + Z.of_nat k0 * size + size - (0 + Z.of_nat k0 * size)) with size by lia.
      replace (Z.to_nat (0 + Z.of_nat k0 * size)) with (Z.to_nat (Z.of_nat k0 * size)) by lia.
      replace (Z.to_nat (Z.of_nat (S k0) * size))
        with (Z.to_nat (Z.of_nat k0 * size) + Z.to_nat size)%nat by lia.
      rewrite <- drop_drop. apply take_drop.
    + intros k Hk. apply Hin. lia.
    + replace (S k0 + m)%nat with (k0 + S m)%nat by lia. exact Hend.
Qed.

(** The loop [for i in range(0, len(l), size): l[i : i + size]] with a
    positive [size]: it cuts [l] into consecutive batches. *)
Lemma range_batches :
  exists starts : list Z,
    py_range 0 (PySeq.len l) size = inr starts
    /\ let batches := List.map (fun i => PySeq.slice l i (i + size)) starts in
       concat batches = l
       /\ Forall (fun b => 1 <= PySeq.len b <= size) batches
       /\ (forall (k : nat) (b : list A),
             batches !! k = Some b -> (S k < length batches)%nat -> PySeq.len b = size)
       /\ PySeq.len batches = (PySeq.len l + size - 1) / size.
Proof.
  set (n := PySeq.len l).
  set (m := Z.to_nat (if 0 <? n then (n - 0 - 1) / size + 1 else 0)).
  assert (Hn : 0 <= n) by (unfold n, PySeq.len; lia).
  assert (Hm : Z.of_nat m = (n + size - 1) / size).
  { unfold m. destruct (Z.ltb_spec 0 n).
    - replace (n + size - 1) with (n - 0 - 1 + 1 * size) by lia.
      rewrite Z.div_add by lia.
      assert (0 <= (n - 0 - 1) / size) by (apply Z.div_pos; lia). lia.
    - replace n with 0 by lia. rewrite Z.div_small by lia. reflexivity. }
  assert (Hlo : forall k, (k < m)%nat -> Z.of_nat k * size < n).
  { intros k Hk.
    assert (Z.of_nat k < (n + size - 1) / size) by lia.
    assert (size * ((n + size - 1) / size) <= n + size - 1)
      by (apply Z.mul_div_le; lia).
    nia. }
  assert (Hhi : n <= Z.of_nat m * size).
  { rewrite Hm. pose proof (Z.mul_succ_div_gt (n + size - 1) size size_pos). lia. }
  exists (List.map (fun k => 0 + Z.of_nat k * size) (seq 0 m)). split.
  { unfold py_range. destruct (Z.eqb_spec size 0); [lia|].
    destruct (Z.ltb_spec 0 size); [|lia]. fold n. reflexivity. }
  cbn zeta. rewrite List.map_map.
  change (List.map (fun x : nat => PySeq.slice l (0 + Z.of_nat x * size)
                                     (0 + Z.of_nat x * size + size)) (seq 0 m))
    with (List.map batch (seq 0 m)).
  split; [|split; [|split]].
  - rewrite batches_concat; [reflexivity| |exact Hhi].
    intros k Hk. apply Hlo. lia.
  - apply List.Forall_forall. intros b Hb. apply in_map_iff in Hb.
    destruct Hb as (k & <- & Hk). apply in_seq in Hk.
    rewrite batch_length by (apply Hlo; lia).
    specialize (Hlo k ltac:(lia)). fold n. lia.
  - intros k b Hk Hlast. rewrite length_map, length_seq in Hlast.
    rewrite list_lookup_fmap in Hk.
    rewrite lookup_seq_lt in Hk by lia. cbn in Hk. injection Hk as <-.
    rewrite batch_length by (apply Hlo; lia). fold n.
    specialize (Hlo (S k) Hlast). lia.
  - unfold PySeq.len at 1. rewrite length_map, length_seq. exact Hm.
Qed.

End Batches.

(** A non-positive step: [range(0, n, 0)] raises, and [range(0, n, step)]
    with a negative step is empty. *)
Lemma py_range_nonpositive (n step : Z) :
  0 <= n -> step <= 0 ->
  py_range 0 n step = if step =? 0 then inl RangeStepZero else inr [].
Proof.
  intros Hn Hs. unfold py_range. destruct (Z.eqb_spec step 0); [reflexivity|].
  destruct (Z.ltb_spec 0 step); [lia|].
  destruct (Z.ltb_spec n 0); [lia|]. reflexivity.
Qed.

(* ===================================================================== *)
(** * Properties of the embedder *)
(* ===================================================================== *)

Section EmbedderFacts.
Variable embed_batch_remote : list string -> list (list Q).

Abbreviation clean := (PyStr.replace_char "010" " ").

Lemma generate_embeddings_fold (size : Z) (texts : list string) (starts : list Z)
    (acc_e : list (list Q)) (acc_t : list (list string)) :
  let batches := List.map (fun i => List.map clean (PySeq.slice texts i (i + size))) starts in
  fold_left
    (fun (state : list (list Q) * list (list string)) (i : Z) =>
       (fst state ++ embed_batch_remote (List.map clean (PySeq.slice texts i (i + size))),
        snd state ++ [List.map clean (PySeq.slice texts i (i + size))]))
    starts (acc_e, acc_t)
  = (acc_e ++ concat (List.map embed_batch_remote batches), acc_t ++ batches).
Proof.
  cbn zeta. revert acc_e acc_t. induction starts as [|i starts IH]; intros acc_e acc_t.
  - cbn. now rewrite !app_nil_r.
  - cbn [fold_left List.map concat fst snd]. rewrite IH.
    now rewrite <- !app_assoc.
Qed.

(** The requests of [generate_embeddings_async] are the cleaned batches,
    and its result is the concatenation of the answers. *)
Lemma generate_embeddings_run (size : Z) (texts : list string) (starts : list Z) :
  py_range 0 (PySeq.len texts) size = inr starts ->
  let batches := List.map (fun i => PySeq.slice texts i (i + size)) starts in
  generate_embeddings_async embed_batch_remote size texts
  = (inr (concat (List.map embed_batch_remote (List.map (List.map clean) batches))),
     List.map (List.map clean) batches).
Proof.
  intros Hr. cbn zeta. unfold generate_embeddings_async. rewrite Hr.
  rewrite generate_embeddings_fold. cbn [fst snd app].
  now rewrite !List.map_map.
Qed.

(** X20.  With a positive batch size, [generate_embeddings_async] sends
    every text exactly once, newlines replaced by spaces, in the order
    given: the requests are consecutive batches of at most [batch_size]
    texts, none empty, all but the last full, [ceil(len / batch_size)] of
    them; and the result is the answers put end to end. *)
Theorem generate_embeddings_batches (batch_size : Z) (texts : list string) :
  0 < batch_size ->
  let out := generate_embeddings_async embed_batch_remote batch_size texts in
  let requests := snd out in
  concat requests = List.map clean texts
  /\ Forall (fun b => 1 <= PySeq.len b <= batch_size) requests
  /\ (forall (k : nat) (b : list string),
        requests !! k = Some b -> (S k < length requests)%nat ->
        PySeq.len b = batch_size)
  /\ PySeq.len requests = (PySeq.len texts + batch_size - 1) / batch_size
  /\ fst out = inr (concat (List.map embed_batch_remote requests)).
Proof.
  intros Hpos. cbn zeta.
  destruct (range_batches texts batch_size Hpos) as (starts & Hr & Hcat & Hall & Hfull & Hlen).
  rewrite (generate_embeddings_run batch_size texts starts Hr). cbn [fst snd].
  set (batches := List.map (fun i => PySeq.slice texts i (i + batch_size)) starts) in *.
  split; [|split; [|split; [|split]]].
  - rewrite <- concat_map. now rewrite Hcat.
  - apply List.Forall_forall. intros b Hb. apply in_map_iff in Hb.
    destruct Hb as (b0 & <- & Hb0).
    pose proof (proj1 (List.Forall_forall _ _) Hall b0 Hb0) as H. cbn beta in H.
    unfold PySeq.len in *. now rewrite length_map.
  - intros k b Hk Hlast. rewrite length_map in Hlast.
    rewrite list_lookup_fmap in Hk. destruct (batches !! k) as [b0|] eqn:E; [|discriminate].
    cbn in Hk. injection Hk as <-. specialize (Hfull k b0 E Hlast).
    unfold PySeq.len in *. now rewrite length_map.
  - unfold PySeq.len in *. now rewrite length_map.
  - reflexivity.
Qed.

(** X21.  When the endpoint answers a request with one embedding per input
    ([embed_one] of each), a positive batch size does not show in the
    result: it is [embed_one] of every cleaned text, in order.  A batch size
    of zero raises before any request is made; a negative one returns no
    embedding at all, without a request and without an error. *)
Theorem generate_embeddings_result (embed_one : string -> list Q)
    (batch_size : Z) (texts : list string) :
  (forall inputs, embed_batch_remote inputs = List.map embed_one inputs) ->
  let out := generate_embeddings_async embed_batch_remote batch_size texts in
  (0 < batch_size -> fst out = inr (List.map embed_one (List.map clean texts)))
  /\ (batch_size = 0 -> out = (inl RangeStepZero, []))
  /\ (batch_size < 0 -> out = (inr [], [])).
Proof.
  intros Hremote. cbn zeta. split; [|split].
  - intros Hpos.
    destruct (range_batches texts batch_size Hpos) as (starts & Hr & Hcat & _).
    rewrite (generate_embeddings_run batch_size texts starts Hr). cbn [fst].
    cbn zeta in Hcat.
    set (batches := List.map (fun i => PySeq.slice texts i (i + batch_size)) starts) in *.
    f_equal. rewrite <- Hcat. rewrite !concat_map. f_equal.
    rewrite !List.map_map. apply map_ext. intros b. apply Hremote.
  - intros ->. unfold generate_embeddings_async.
    rewrite py_range_nonpositive by (unfold PySeq.len; lia). reflexivity.
  - intros Hneg. unfold generate_embeddings_async.
    rewrite py_range_nonpositive by (unfold PySeq.len; lia).
    destruct (Z.eqb_spec batch_size 0); [lia|]. reflexivity.
Qed.

End EmbedderFacts.

Lemma generate_embeddings_batches_witness :
  0 < 2
  /\ concat (snd (generate_embeddings_async (List.map (fun _ => [1 # 2])) 2
                    ["a"; "b"; "c"]))
     = List.map (PyStr.replace_char "010" " ") ["a"; "b"; "c"].
Proof.
  split; [lia|].
  exact (proj1 (generate_embeddings_batches (List.map (fun _ => [1 # 2])) 2
                  ["a"; "b"; "c"] ltac:(lia))).
Defined.

Lemma generate_embeddings_result_witness :
  (forall inputs : list string,
      List.map (fun _ : string => [1 # 2]) inputs = List.map (fun _ => [1 # 2]) inputs)
  /\ fst (generate_embeddings_async (List.map (fun _ => [1 # 2])) 2 ["a"; "b"; "c"])
     = inr [[1 # 2]; [1 # 2]; [1 # 2]].
Proof.
  split; [reflexivity|].
  apply (proj1 (generate_embeddings_result (List.map (fun _ => [1 # 2]))
                  (fun _ => [1 # 2]) 2 ["a"; "b"; "c"] (fun _ => eq_refl))).
  lia.
Defined.

(* ===================================================================== *)
(** * Properties of the vector store *)
(* ===================================================================== *)

Section VectorStoreFacts.
Variable py_hash : string -> Z.
Variable upsert_remote : list Qdrant.PointStruct -> option string.

Abbreviation point_of_pair :=
  (fun ce : Embedding.DocumentChunk * list Q => point_of py_hash (fst ce) (snd ce)).

Lemma build_points_ok (chunks : list Embedding.DocumentChunk) (vectors : list (list Q)) :
  List.map Embedding.embedding chunks = List.map Some vectors ->
  build_points py_hash chunks = inr (List.map point_of_pair (combine chunks vectors)).
Proof.
  revert vectors. induction chunks as [|c chunks IH]; intros [|v vectors] H;
    try discriminate; [reflexivity|].
  cbn in H. injection H as Hc Hrest. cbn [build_points]. rewrite Hc.
  now rewrite (IH vectors Hrest).
Qed.

Lemma build_points_fail (before after : list Embedding.DocumentChunk)
    (c : Embedding.DocumentChunk) :
  Forall (fun d => Embedding.embedding d <> None) before ->
  Embedding.embedding c = None ->
  build_points py_hash (before ++ c :: after) = inl (NoEmbedding (Embedding.chunk_id c)).
Proof.
  intros Hb Hc. induction before as [|d before IH]; cbn [app build_points].
  - now rewrite Hc.
  - inversion Hb as [|? ? Hd Hb']; subst.
    destruct (Embedding.embedding d); [|congruence]. now rewrite IH.
Qed.

Lemma point_id_range (c : Embedding.DocumentChunk) (v : list Q) :
  0 <= Qdrant.id (point_of py_hash c v) < 2 ^ 63.
Proof. cbn [point_of Qdrant.id]. apply Z.mod_pos_bound. lia. Qed.

(** The batch loop when the client answers every batch, and when it raises
    at one. *)
Lemma upsert_batches_all (batches : list (list Qdrant.PointStruct)) :
  (forall b, In b batches -> upsert_remote b = None) ->
  upsert_batches upsert_remote batches = (inr tt, batches).
Proof.
  induction batches as [|b batches IH]; intros Hall; [reflexivity|].
  cbn [upsert_batches]. rewrite (Hall b (or_introl eq_refl)).
  rewrite IH; [reflexivity|]. intros b' Hb'. apply Hall. now right.
Qed.

Lemma upsert_batches_stop (stored rest : list (list Qdrant.PointStruct))
    (bad : list Qdrant.PointStruct) (message : string) :
  (forall b, In b stored -> upsert_remote b = None) ->
  upsert_remote bad = Some message ->
  upsert_batches upsert_remote (stored ++ bad :: rest)
  = (inl (ClientError message), stored).
Proof.
  intros Hall Hbad. induction stored as [|b stored IH]; cbn [app upsert_batches].
  - now rewrite Hbad.
  - rewrite (Hall b (or_introl eq_refl)).
    rewrite IH; [reflexivity|]. intros b' Hb'. apply Hall. now right.
Qed.

(** With an embedding on every chunk, [upsert_chunks] runs the batch loop
    on the points cut into batches of 100. *)
Lemma upsert_chunks_batches (chunks : list Embedding.DocumentChunk)
    (vectors : list (list Q)) :
  List.map Embedding.embedding chunks = List.map Some vectors ->
  let points := List.map point_of_pair (combine chunks vectors) in
  exists batches : list (list Qdrant.PointStruct),
    upsert_chunks py_hash upsert_remote chunks = upsert_batches upsert_remote batches
    /\ concat batches = points
    /\ Forall (fun b => 1 <= PySeq.len b <= 100) batches
    /\ (forall (k : nat) (b : list Qdrant.PointStruct),
          batches !! k = Some b -> (S k < length batches)%nat -> PySeq.len b = 100)
    /\ PySeq.len batches = (PySeq.len chunks + 99) / 100
    /\ Forall (fun p => 0 <= Qdrant.id p < 2 ^ 63) points.
Proof.
  intros H. cbn zeta. unfold upsert_chunks. rewrite (build_points_ok chunks vectors H).
  set (points := List.map point_of_pair (combine chunks vectors)).
  assert (Hlen : PySeq.len points = PySeq.len chunks).
  { unfold points, PySeq.len. rewrite length_map, length_combine.
    apply (f_equal (@length _)) in H. rewrite !length_map in H. lia. }
  destruct (range_batches points 100 ltac:(lia)) as (starts & -> & Hcat & Hall & Hfull & Hn).
  cbn zeta in *.
  exists (List.map (fun i => PySeq.slice points i (i + 100)) starts).
  repeat split; try assumption.
  - rewrite Hn, Hlen. f_equal. lia.
  - apply List.Forall_forall. intros p Hp. apply in_map_iff in Hp.
    destruct Hp as ([c v] & <- & _). apply point_id_range.
Qed.

(** X22.  [upsert_chunks] checks every chunk before it writes: when some
    chunk has no embedding it raises, naming the first such chunk, and
    nothing is stored, whatever the client would answer.  When every chunk
    has an embedding the points, one per chunk and in order, each with an
    identifier in [0, 2^63), are cut into batches of 100 (the last may be
    shorter, none is empty).  If the client answers every batch, all are
    stored; if it raises at a batch, the call ends with that exception, the
    batches before it stay stored and the later ones are never sent. *)
Theorem upsert_chunks_checks_then_writes (chunks : list Embedding.DocumentChunk) :
  (forall before c after,
      chunks = before ++ c :: after ->
      Forall (fun d => Embedding.embedding d <> None) before ->
      Embedding.embedding c = None ->
      upsert_chunks py_hash upsert_remote chunks
      = (inl (NoEmbedding (Embedding.chunk_id c)), []))
  /\ (forall vectors,
        List.map Embedding.embedding chunks = List.map Some vectors ->
        let points := List.map point_of_pair (combine chunks vectors) in
        let out := upsert_chunks py_hash upsert_remote chunks in
        exists batches : list (list Qdrant.PointStruct),
          concat batches = points
          /\ Forall (fun b => 1 <= PySeq.len b <= 100) batches
          /\ (forall (k : nat) (b : list Qdrant.PointStruct),
                batches !! k = Some b -> (S k < length batches)%nat ->
                PySeq.len b = 100)
          /\ PySeq.len batches = (PySeq.len chunks + 99) / 100
          /\ Forall (fun p => 0 <= Qdrant.id p < 2 ^ 63) points
          /\ ((forall b, In b batches -> upsert_remote b = None) ->
              out = (inr tt, batches))
          /\ (forall stored bad rest message,
                batches = stored ++ bad :: rest ->
                (forall b, In b stored -> upsert_remote b = None) ->
                upsert_remote bad = Some message ->
                out = (inl (ClientError message), stored))).
Proof.
  split.
  - intros before c after -> Hb Hc. unfold upsert_chunks.
    now rewrite (build_points_fail before after c Hb Hc).
  - intros vectors H. cbn zeta.
    destruct (upsert_chunks_batches chunks vectors H)
      as (batches & Hrun & Hcat & Hall & Hfull & Hn & Hid).
    exists batches. rewrite Hrun. repeat split; try assumption.
    + apply upsert_batches_all.
    + intros stored bad rest message -> Hok Hbad.
      now apply upsert_batches_stop.
Qed.

(** X23.  The ingestion side and the query side agree on the payload keys:
    for a search hit on a stored point, the citation carries the chunk's
    metadata and no default value, and the text that the context block, the
    lexical filter and the selection handler read is the chunk's text. *)
Theorem stored_chunk_citation (chunk : Embedding.DocumentChunk) (vector : list Q)
    (found_score : Q) :
  let m := Embedding.metadata chunk in
  let hit := hit_of (point_of py_hash chunk vector) found_score in
  citation_of hit
  = {| chapter_id := Embedding.chapter_id m;
       chapter_title := Embedding.chapter_title m;
       module_id := Embedding.module_id m;
       section_type := Embedding.section_type m;
       file_path := Embedding.file_path m;
       citation_text := Embedding.chunk_text m;
       relevance_score := found_score |}
  /\ payload hit !! "chunk_text" = Some (Embedding.chunk_text m)
  /\ payload hit !! "chapter_title" = Some (Embedding.chapter_title m)
  /\ payload hit !! "section_type" = Some (Embedding.section_type m)
  /\ dom (payload hit)
     = {[ "chapter_id"; "chapter_title"; "module_id"; "section_type"; "file_path";
          "chunk_text" ]}.
Proof.
  cbn zeta.
  assert (L : forall key,
    payload (hit_of (point_of py_hash chunk vector) found_score) !! key
    = Qdrant.payload (point_of py_hash chunk vector) !! key
      ≫= (fun v => match v with PStr s => Some s | _ => None end)).
  { intros key. cbn [hit_of payload]. unfold payload_strings. apply lookup_omap. }
  split; [|split; [|split; [|split]]].
  - unfold citation_of, payload_get. rewrite !L. cbn [point_of Qdrant.payload].
    repeat (rewrite lookup_insert_ne by discriminate).
    f_equal;
      repeat first [rewrite lookup_insert; reflexivity
                   |rewrite lookup_insert_ne by discriminate].
  - rewrite L. cbn [point_of Qdrant.payload].
    repeat first [rewrite lookup_insert; reflexivity
                 |rewrite lookup_insert_ne by discriminate].
  - rewrite L. cbn [point_of Qdrant.payload].
    repeat first [rewrite lookup_insert; reflexivity
                 |rewrite lookup_insert_ne by discriminate].
  - rewrite L. cbn [point_of Qdrant.payload].
    repeat first [rewrite lookup_insert; reflexivity
                 |rewrite lookup_insert_ne by discriminate].
  - apply set_eq. intros key. rewrite elem_of_dom. unfold is_Some. rewrite L.
    cbn [point_of Qdrant.payload].
    rewrite !elem_of_union, !elem_of_singleton.
    split.
    + intros [s Hs].
      repeat match type of Hs with
      | context [<[ ?k := _ ]> _ !! key] =>
          destruct (decide (k = key)) as [<-|?];
            [rewrite lookup_insert in Hs; cbn in Hs;
             first [discriminate|destruct (Embedding.word_count _); discriminate|auto 10]
            |rewrite lookup_insert_ne in Hs by assumption]
      end.
      rewrite lookup_empty in Hs. discriminate.
    + intros H. repeat destruct H as [H| ->]; try subst key;
        repeat first [rewrite lookup_insert; cbn; eexists; reflexivity
                     |rewrite lookup_insert_ne by discriminate].
Qed.

End VectorStoreFacts.

(* ===================================================================== *)
(** * Properties of the ingestion script *)
(* ===================================================================== *)

Lemma chunk_text_enough_fuel (c : TextChunker) (text : string) (fuel : nat) :
  0 <= overlap_size c < chunk_size c ->
  (S (length (PyStr.split text)) <= fuel)%nat ->
  exists chunks, chunk_text c fuel text = Some chunks.
Proof.
  intros Hgap Hfuel. destruct (blank text) eqn:Hb.
  { exists []. now apply chunk_text_blank. }
  destruct (Z.le_gt_cases (get_word_count text) (chunk_size c)) as [Hle|Hgt].
  { exists [text]. now apply chunk_text_short. }
  unfold get_word_count in Hgt.
  assert (Hpos : 0 < PySeq.len (PyStr.split text)) by lia.
  destruct (chunk_windows_chain c Hgap fuel (PySeq.len (PyStr.split text)) 0)
    as (ws & Hws & _); [lia|unfold PySeq.len; lia|].
  rewrite chunk_text_long by lia. rewrite Hws. now eexists.
Qed.

Lemma chunk_document_sections_returns (c : TextChunker)
    (sections : list (string * string)) :
  0 <= overlap_size c < chunk_size c ->
  exists fuel0 : nat, forall fuel, (fuel0 <= fuel)%nat ->
    exists items, chunk_document_sections c fuel sections = Some items.
Proof.
  intros Hgap. induction sections as [|[st content] rest (fuel0 & IH)].
  - exists 0%nat. intros fuel _. now exists [].
  - exists (Nat.max (S (length (PyStr.split content))) fuel0). intros fuel Hfuel.
    cbn [chunk_document_sections].
    destruct (chunk_text_enough_fuel c content fuel Hgap) as (chunks & ->); [lia|].
    destruct (IH fuel) as (items & ->); [lia|]. cbn. now eexists.
Qed.

Lemma chunk_document_sections_items (c : TextChunker) (fuel : nat)
    (sections : list (string * string)) (items : list (string * string * nat)) :
  chunk_document_sections c fuel sections = Some items ->
  forall item, In item items ->
    exists content chunks,
      In (fst (fst item), content) sections
      /\ chunk_text c fuel content = Some chunks
      /\ In (snd (fst item)) chunks.
Proof.
  revert items. induction sections as [|[st content] rest IH]; intros items Hrun item Hin.
  - injection Hrun as <-. destruct Hin.
  - cbn [chunk_document_sections] in Hrun.
    destruct (chunk_text c fuel content) as [chunks|] eqn:Hc; [|discriminate].
    destruct (chunk_document_sections c fuel rest) as [items'|]; [|discriminate].
    injection Hrun as <-. apply in_app_or in Hin. destruct Hin as [Hin|Hin].
    + apply in_map_iff in Hin. destruct Hin as ([i t] & <- & Hit). cbn [fst snd].
      exists content, chunks. split; [now left|]. split; [exact Hc|].
      unfold enumerate in Hit. now apply in_combine_r in Hit.
    + destruct (IH items' eq_refl item Hin) as (content' & chunks' & H1 & H2 & H3).
      exists content', chunks'. split; [now right|]. now split.
Qed.

Lemma make_chunks_valid (doc : Markdown.MarkdownDocument)
    (items : list (string * string * nat)) :
  Forall (fun item => snd (fst item) <> "") items ->
  make_chunks doc items
  = inr (List.map (fun item => chunk_of doc item (metadata_of doc item)) items).
Proof.
  induction 1 as [|[[st text] idx] items Hne _ IH]; [reflexivity|].
  cbn [fst snd] in Hne. cbn [make_chunks List.map].
  assert (Hlen : (PyStr.len text <? 1)%nat = false).
  { destruct text; [congruence|reflexivity]. }
  assert (Hwc : (get_word_count text <? 0) = false).
  { unfold get_word_count, PySeq.len. apply Z.ltb_ge. lia. }
  assert (Hidx : (Z.of_nat idx <? 0) = false) by (apply Z.ltb_ge; lia).
  unfold Embedding.EmbeddingMetadata_new, Embedding.DocumentChunk_new.
  cbn [metadata_of chunk_of Embedding.chunk_index Embedding.chunk_text
       Embedding.word_count Embedding.text].
  rewrite Hidx, Hlen, Hwc. cbn [orb]. now rewrite IH.
Qed.

(** X24.  With [0 <= overlap_size < chunk_size], step 2 of the ingestion
    script builds the chunks of a document without a validation error:
    one chunk per triple of [chunk_document_sections], in order, each with a
    non-empty text of 1 to [chunk_size] words that is also its metadata's
    [chunk_text], with that word count recorded, a section name taken from
    the sections (or "general" when there are none), and no embedding yet. *)
Theorem document_chunks_valid (chunker : TextChunker)
    (doc : Markdown.MarkdownDocument) (sections : list (string * string)) :
  0 <= overlap_size chunker < chunk_size chunker ->
  exists fuel0 : nat, forall fuel, (fuel0 <= fuel)%nat ->
    exists items chunks,
      chunk_document_sections chunker fuel (sections_or_general doc sections) = Some items
      /\ document_chunks chunker fuel doc sections = Some (inr chunks)
      /\ List.map (fun d => (Embedding.section_type (Embedding.metadata d),
                             Embedding.text d,
                             Z.to_nat (Embedding.chunk_index (Embedding.metadata d))))
                  chunks
         = items
      /\ Forall (fun d =>
                   let m := Embedding.metadata d in
                   Embedding.text d <> ""
                   /\ 1 <= get_word_count (Embedding.text d) <= chunk_size chunker
                   /\ Embedding.embedding d = None
                   /\ Embedding.chunk_text m = Embedding.text d
                   /\ Embedding.word_count m = Some (get_word_count (Embedding.text d))
                   /\ In (Embedding.section_type m)
                         (List.map fst (sections_or_general doc sections))
                   /\ Embedding.chapter_id m = Markdown.chapter_id doc
                   /\ Embedding.chunk_id d
                      = Markdown.chapter_id doc +:+ "_" +:+ Embedding.section_type m
                        +:+ "_" +:+ pretty (Z.to_nat (Embedding.chunk_index m)))
                chunks.
Proof.
  intros Hgap.
  destruct (chunk_document_sections_returns chunker (sections_or_general doc sections) Hgap)
    as (fuel0 & Hret).
  exists fuel0. intros fuel Hfuel. destruct (Hret fuel Hfuel) as (items & Hitems).
  assert (Hwords : forall item, In item items ->
            1 <= get_word_count (snd (fst item)) <= chunk_size chunker
            /\ In (fst (fst item)) (List.map fst (sections_or_general doc sections))).
  { intros item Hin.
    destruct (chunk_document_sections_items _ _ _ _ Hitems item Hin)
      as (content & chunks & Hsec & Hc & Ht).
    split; [exact (chunk_text_word_counts chunker fuel content chunks Hgap Hc _ Ht)|].
    apply in_map_iff. now exists (fst (fst item), content). }
  assert (Hne : Forall (fun item => snd (fst item) <> "") items).
  { apply List.Forall_forall. intros item Hin E.
    destruct (Hwords item Hin) as [[Hlo _] _]. rewrite E in Hlo.
    vm_compute in Hlo. now apply Hlo. }
  exists items, (List.map (fun item => chunk_of doc item (metadata_of doc item)) items).
  split; [exact Hitems|]. split; [|split].
  - unfold document_chunks. rewrite Hitems. cbn [option_map].
    now rewrite (make_chunks_valid doc items Hne).
  - rewrite List.map_map. rewrite <- (List.map_id items) at 2.
    apply map_ext. intros [[st text] idx]. cbn. now rewrite Nat2Z.id.
  - apply List.Forall_forall. intros d Hd. apply in_map_iff in Hd.
    destruct Hd as ([[st text] idx] & <- & Hin).
    destruct (Hwords _ Hin) as [Hwc Hst].
    pose proof (proj1 (List.Forall_forall _ _) Hne _ Hin) as Hn.
    cbn in *. rewrite Nat2Z.id. repeat split; try assumption; lia.
Qed.

Lemma assign_embeddings_spec (chunks : list Embedding.DocumentChunk)
    (embeddings : list (list Q)) :
  assign_embeddings chunks embeddings
  = List.map (fun ce => Embedding.set_embedding (fst ce) (snd ce)) (combine chunks embeddings)
    ++ skipn (length embeddings) chunks.
Proof.
  revert embeddings. induction chunks as [|c chunks IH]; intros [|e embeddings];
    try reflexivity.
  cbn. now rewrite IH.
Qed.

Section IngestScriptFacts.
Variable embed_batch_remote : list string -> list (list Q).
Variable py_hash : string -> Z.

Abbreviation point_of_pair' :=
  (fun ce : Embedding.DocumentChunk * list Q => point_of py_hash (fst ce) (snd ce)).

(** X25.  Steps 3 and 4 of the ingestion script, on chunks that have no
    embedding yet: every chunk text is sent to the embeddings endpoint.
    When the endpoint returned at least as many embeddings as there are
    chunks, every chunk is upserted, the k-th chunk with the k-th
    embedding.  When it returned fewer, nothing is upserted: the script
    stops with the error that names the first chunk left without one. *)
Theorem embed_and_store_outcome (all_chunks : list Embedding.DocumentChunk) :
  Forall (fun d => Embedding.embedding d = None) all_chunks ->
  let out := embed_and_store embed_batch_remote py_hash all_chunks in
  let requests := snd (fst out) in
  let embeddings := concat (List.map embed_batch_remote requests) in
  concat requests
  = List.map (PyStr.replace_char "010" " ") (List.map Embedding.text all_chunks)
  /\ ((length all_chunks <= length embeddings)%nat ->
      fst (fst out) = inr tt
      /\ concat (snd out) = List.map point_of_pair' (combine all_chunks embeddings))
  /\ (forall d, all_chunks !! length embeddings = Some d ->
        fst (fst out) = inl (NoEmbedding (Embedding.chunk_id d)) /\ snd out = []).
Proof.
  intros Hnone. cbn zeta. unfold embed_and_store.
  destruct (range_batches (List.map Embedding.text all_chunks) 100 ltac:(lia))
    as (starts & Hr & Hcat & _).
  rewrite (generate_embeddings_run embed_batch_remote 100 _ starts Hr).
  cbn zeta in Hcat. cbn [fst snd].
  set (requests := List.map (List.map (PyStr.replace_char "010" " "))
                     (List.map (fun i => PySeq.slice (List.map Embedding.text all_chunks)
                                           i (i + 100)) starts)).
  set (embeddings := concat (List.map embed_batch_remote requests)).
  split; [|split].
  - unfold requests. rewrite <- concat_map. now rewrite Hcat.
  - intros Hlen. rewrite assign_embeddings_spec.
    rewrite skipn_all2 by exact Hlen. rewrite app_nil_r.
    set (assigned := List.map (fun ce => Embedding.set_embedding (fst ce) (snd ce))
                       (combine all_chunks embeddings)).
    assert (Hemb : List.map Embedding.embedding assigned
                   = List.map Some (List.map snd (combine all_chunks embeddings))).
    { unfold assigned. rewrite !List.map_map. reflexivity. }
    destruct (upsert_chunks_batches py_hash (fun _ => None) assigned _ Hemb)
      as (batches & Hrun & Hpts & _).
    rewrite Hrun, upsert_batches_all by reflexivity. cbn [fst snd].
    split; [reflexivity|]. rewrite Hpts. unfold assigned.
    clear. generalize (combine all_chunks embeddings) as pairs.
    intros pairs. induction pairs as [|[c e] pairs IH]; [reflexivity|].
    cbn. now rewrite IH.
  - intros d Hd. rewrite assign_embeddings_spec.
    assert (Hsplit : skipn (length embeddings) all_chunks
                     = d :: skipn (S (length embeddings)) all_chunks).
    { now apply drop_S. }
    rewrite Hsplit. unfold upsert_chunks. rewrite build_points_fail.
    + split; reflexivity.
    + apply List.Forall_forall. intros c Hc. apply in_map_iff in Hc.
      destruct Hc as ([c0 e] & <- & _). discriminate.
    + apply (proj1 (List.Forall_forall _ _) Hnone).
      apply list_elem_of_In. now apply list_elem_of_lookup_2 in Hd.
Qed.

End IngestScriptFacts.

Lemma document_chunks_valid_witness :
  0 <= overlap_size chunker_3_1 < chunk_size chunker_3_1
  /\ exists fuel0 : nat, forall fuel, (fuel0 <= fuel)%nat ->
       exists chunks,
         document_chunks chunker_3_1 fuel
           {| Markdown.file_path := "module-01-ros2/intro.md";
              Markdown.content := seven_words; Markdown.title := "Intro";
              Markdown.module_id := "module-01-ros2"; Markdown.chapter_id := "intro" |} []
         = Some (inr chunks).
Proof.
  assert (H : 0 <= overlap_size chunker_3_1 < chunk_size chunker_3_1) by (cbn; lia).
  split; [exact H|].
  destruct (document_chunks_valid chunker_3_1
              {| Markdown.file_path := "module-01-ros2/intro.md";
                 Markdown.content := seven_words; Markdown.title := "Intro";
                 Markdown.module_id := "module-01-ros2"; Markdown.chapter_id := "intro" |}
              [] H) as (fuel0 & Hall).
  exists fuel0. intros fuel Hfuel.
  destruct (Hall fuel Hfuel) as (items & chunks & _ & Hrun & _).
  now exists chunks.
Defined.

Lemma embed_and_store_outcome_witness :
  Forall (fun d => Embedding.embedding d = None)
    [ {| Embedding.chunk_id := "intro_general_0"; Embedding.text := "one two";
         Embedding.embedding := None;
         Embedding.metadata :=
           metadata_of
             {| Markdown.file_path := "intro.md"; Markdown.content := "one two";
                Markdown.title := "Intro"; Markdown.module_id := "unknown-module";
                Markdown.chapter_id := "intro" |} ("general", "one two", 0%nat) |} ]
  /\ fst (fst (embed_and_store (List.map (fun _ => [1 # 2])) (fun _ => 7)
       [ {| Embedding.chunk_id := "intro_general_0"; Embedding.text := "one two";
            Embedding.embedding := None;
            Embedding.metadata :=
              metadata_of
                {| Markdown.file_path := "intro.md"; Markdown.content := "one two";
                   Markdown.title := "Intro"; Markdown.module_id := "unknown-module";
                   Markdown.chapter_id := "intro" |} ("general", "one two", 0%nat) |} ]))
     = inr tt.
Proof.
  assert (H : Forall (fun d => Embedding.embedding d = None)
    [ {| Embedding.chunk_id := "intro_general_0"; Embedding.text := "one two";
         Embedding.embedding := None;
         Embedding.metadata :=
           metadata_of
             {| Markdown.file_path := "intro.md"; Markdown.content := "one two";
                Markdown.title := "Intro"; Markdown.module_id := "unknown-module";
                Markdown.chapter_id := "intro" |} ("general", "one two", 0%nat) |} ]).
  { constructor; [reflexivity|constructor]. }
  split; [exact H|].
  destruct (embed_and_store_outcome (List.map (fun _ => [1 # 2])) (fun _ => 7) _ H)
    as (_ & Hok & _).
  apply Hok. vm_compute. apply le_n.
Defined.

(* ===================================================================== *)
(** * Properties of the standalone ingestion script *)
(* ===================================================================== *)

Lemma rstrip_word_app (w s : string) :
  all_chars not_space w = true -> PyStr.rstrip (w +:+ s) = w +:+ PyStr.rstrip s.
Proof.
  induction w as [|x w IH]; intros Hw; [reflexivity|].
  cbn [all_chars] in Hw. apply andb_true_iff in Hw. destruct Hw as [Hx Hw].
  change (String x w +:+ s) with (String x (w +:+ s)). rewrite rstrip_cons.
  cbn [blank]. unfold not_space in Hx. apply negb_true_iff in Hx. rewrite Hx.
  cbn [andb]. rewrite IH by exact Hw. reflexivity.
Qed.

Lemma rstrip_join (ws : list string) :
  Forall clean_word ws -> PyStr.rstrip (PyStr.join " " ws) = PyStr.join " " ws.
Proof.
  induction ws as [|w ws IH]; intros Hws; [reflexivity|].
  inversion Hws as [|? ? [Hne Hw] Hrest]; subst.
  destruct ws as [|w' ws'].
  - unfold PyStr.join. cbn [String.concat].
    rewrite <- (str_app_nil_r w) at 1. rewrite rstrip_word_app by exact Hw.
    now rewrite rstrip_nil, str_app_nil_r.
  - unfold PyStr.join in *.
    change (String.concat " " (w :: w' :: ws'))
      with (w +:+ String " " (String.concat " " (w' :: ws'))).
    rewrite rstrip_word_app by exact Hw. f_equal.
    rewrite rstrip_cons.
    destruct (join_head (w' :: ws') Hrest) as (x & r & Ej & Hx); [discriminate|].
    unfold PyStr.join in Ej.
    assert (Hb : blank (String " " (String.concat " " (w' :: ws'))) = false).
    { rewrite Ej. cbn [blank]. rewrite Hx. now rewrite andb_false_r. }
    rewrite Hb. f_equal. now apply IH.
Qed.

(** Words joined by single spaces carry no outer whitespace. *)
Lemma strip_join (ws : list string) :
  Forall clean_word ws -> PyStr.strip (PyStr.join " " ws) = PyStr.join " " ws.
Proof.
  intros Hws. destruct ws as [|w0 ws0]; [reflexivity|].
  destruct (join_head (w0 :: ws0) Hws) as (x & r & Ej & Hx); [discriminate|].
  unfold PyStr.strip. rewrite Ej, (lstrip_id x r Hx), <- Ej.
  now apply rstrip_join.
Qed.

(** X26.  [chunk_text] of the standalone script, with a positive step
    [chunk_size - overlap] and [0 <= overlap]: it returns
    [ceil(n / step)] chunks for [n] words, the k-th being the words from
    index [k * step], at most [chunk_size] of them, joined by single
    spaces; none is empty, and the first [step] words of the chunks, put
    end to end, are the words of the text. *)
Theorem simple_chunk_text_windows (text : string) (chunk_size overlap : Z) :
  0 <= overlap < chunk_size ->
  let words := PyStr.split text in
  let step := chunk_size - overlap in
  exists chunks : list string,
    SimpleIngest.chunk_text text chunk_size overlap = inr chunks
    /\ PySeq.len chunks = (PySeq.len words + step - 1) / step
    /\ (forall (k : nat) (chunk : string),
          chunks !! k = Some chunk ->
          chunk = PyStr.join " " (PySeq.slice words (Z.of_nat k * step)
                                    (Z.of_nat k * step + chunk_size))
          /\ 1 <= get_word_count chunk <= chunk_size)
    /\ concat (List.map (fun chunk => firstn (Z.to_nat step) (PyStr.split chunk)) chunks)
       = words.
Proof.
  intros Hgap words step.
  assert (Hstep : 0 < step) by (unfold step; lia).
  destruct (range_batches words step Hstep) as (starts & Hr & Hcat & Hall & _ & Hlen).
  cbn zeta in Hcat, Hall, Hlen.
  set (window := fun i : Z => PySeq.slice words i (i + chunk_size)).
  assert (Hstarts : forall i, In i starts -> 0 <= i < PySeq.len words).
  { intros i Hi.
    pose proof (proj1 (List.Forall_forall _ _) Hall
                  (PySeq.slice words i (i + step))
                  (in_map (fun i => PySeq.slice words i (i + step)) starts i Hi)) as Hb.
    cbn beta in Hb.
    assert (Hr' := Hr). unfold py_range in Hr'.
    destruct (Z.eqb_spec step 0); [lia|]. destruct (Z.ltb_spec 0 step); [|lia].
    injection Hr' as <-. apply in_map_iff in Hi. destruct Hi as (k & <- & _).
    assert (H0 : 0 <= 0 + Z.of_nat k * step) by nia. split; [exact H0|].
    destruct (Z.lt_ge_cases (0 + Z.of_nat k * step) (PySeq.len words)) as [|Hge];
      [assumption|].
    exfalso. unfold PySeq.slice, PySeq.clamp, PySeq.len in Hb, Hge.
    destruct (Z.ltb_spec (0 + Z.of_nat k * step) 0); [lia|].
    destruct (Z.ltb_spec (0 + Z.of_nat k * step + step) 0); [lia|].
    rewrite length_firstn, length_skipn in Hb. lia. }
  assert (Hwin : forall i, In i starts ->
            PySeq.slice words i (i + step) = firstn (Z.to_nat step) (window i)
            /\ 1 <= PySeq.len (window i) <= chunk_size).
  { intros i Hi. destruct (Hstarts i Hi) as [H0 Hn]. unfold window.
    rewrite !slice_from by lia. split.
    - replace (i + step - i) with step by lia.
      replace (i + chunk_size - i) with chunk_size by lia.
      rewrite take_take. f_equal. unfold step. lia.
    - unfold PySeq.len in *. rewrite length_firstn, length_skipn. lia. }
  assert (Hflat : flat_map
            (fun i => match PyStr.strip (PyStr.join " " (window i)) with
                      | EmptyString => []
                      | stripped => [stripped]
                      end) starts
          = List.map (fun i => PyStr.join " " (window i)) starts).
  { clear Hr Hcat Hall Hlen. induction starts as [|i starts IH]; [reflexivity|].
    cbn [flat_map List.map]. rewrite IH.
    2:{ intros j Hj. apply Hstarts. now right. }
    2:{ intros j Hj. apply Hwin. now right. }
    destruct (Hwin i (or_introl eq_refl)) as [_ Hlen].
    assert (Hc : Forall clean_word (window i)) by apply slice_clean.
    rewrite (strip_join _ Hc).
    destruct (join_head (window i) Hc) as (x & r & -> & _); [|reflexivity].
    intros E. rewrite E in Hlen. unfold PySeq.len in Hlen. cbn in Hlen. lia. }
  exists (List.map (fun i => PyStr.join " " (window i)) starts).
  split; [|split; [|split]].
  - unfold SimpleIngest.chunk_text. fold words. fold step. rewrite Hr. f_equal. exact Hflat.
  - unfold PySeq.len in *. rewrite length_map in *. exact Hlen.
  - intros k chunk Hk. rewrite list_lookup_fmap in Hk.
    destruct (starts !! k) as [i|] eqn:Ei; [|discriminate]. cbn in Hk. injection Hk as <-.
    assert (Hi : In i starts).
    { apply list_elem_of_In. now apply list_elem_of_lookup_2 in Ei. }
    assert (Hik : i = Z.of_nat k * step).
    { assert (Hr' := Hr). unfold py_range in Hr'.
      destruct (Z.eqb_spec step 0); [lia|]. destruct (Z.ltb_spec 0 step); [|lia].
      injection Hr' as <-. rewrite list_lookup_fmap in Ei.
      destruct (seq 0 _ !! k) as [k'|] eqn:Ek; [|discriminate].
      apply lookup_seq in Ek. destruct Ek as [-> _]. cbn in Ei. injection Ei as <-. lia. }
    split; [unfold window; now rewrite Hik|].
    unfold get_word_count, window, words. rewrite split_window_text.
    apply Hwin. exact Hi.
  - rewrite List.map_map. etransitivity; [|exact Hcat]. f_equal.
    apply map_ext_in. intros i Hi. unfold window, words.
    rewrite split_window_text. symmetry. apply Hwin. exact Hi.
Qed.

Lemma simple_chunk_text_windows_witness :
  0 <= 1 < 3
  /\ exists chunks,
       SimpleIngest.chunk_text seven_words 3 1 = inr chunks
       /\ PySeq.len chunks = (PySeq.len (PyStr.split seven_words) + (3 - 1) - 1) / (3 - 1).
Proof.
  split; [lia|].
  destruct (simple_chunk_text_windows seven_words 3 1 ltac:(lia))
    as (chunks & Hrun & Hlen & _).
  exists chunks. split; [exact Hrun|exact Hlen].
Defined.

(* ===================================================================== *)
(** * Properties of the Markdown parser *)
(* ===================================================================== *)

Lemma normalize_section_type_standard (title k : string) :
  _normalize_section_type title = Some k -> In k standard_section_types.
Proof.
  unfold _normalize_section_type, standard_section_types.
  repeat match goal with
         | |- context [if ?b then _ else _] => destruct b
         end; intros E; try discriminate; injection E as <-; cbn; auto.
Qed.

Lemma dict_set_keys (d : list (string * string)) (k v : string) :
  (In k (List.map fst d) -> List.map fst (dict_set d k v) = List.map fst d)
  /\ (~ In k (List.map fst d) -> List.map fst (dict_set d k v) = List.map fst d ++ [k]).
Proof.
  induction d as [|[k' v'] d [IH1 IH2]].
  - cbn. split; [intros []|reflexivity].
  - cbn [dict_set List.map fst]. destruct (bool_decide_reflect (k' = k)) as [->|Hne].
    + cbn. split; [reflexivity|]. intros H. exfalso. apply H. now left.
    + cbn [List.map fst]. split.
      * intros [E|Hin]; [congruence|]. now rewrite IH1.
      * intros Hnin. rewrite IH2; [reflexivity|]. intros Hin. apply Hnin. now right.
Qed.

Lemma dict_set_NoDup (d : list (string * string)) (k v : string) :
  List.NoDup (List.map fst d) -> List.NoDup (List.map fst (dict_set d k v)).
Proof.
  intros Hnd. destruct (dict_set_keys d k v) as [H1 H2].
  destruct (in_dec string_dec k (List.map fst d)) as [Hin|Hnin].
  - now rewrite H1.
  - rewrite H2 by exact Hnin.
    apply List.NoDup_app; [exact Hnd|repeat constructor; intros []|].
    intros x Hx [<-|[]]. contradiction.
Qed.

Lemma dict_set_other (d : list (string * string)) (k v k' v' : string) :
  k' <> k -> (In (k', v') (dict_set d k v) <-> In (k', v') d).
Proof.
  intros Hne. induction d as [|[k0 v0] d IH].
  - cbn. split; [intros [E|[]]; congruence|tauto].
  - cbn [dict_set]. destruct (bool_decide_reflect (k0 = k)) as [->|Hk].
    + cbn. split; (intros [E|H]; [congruence|now right]).
    + cbn. rewrite IH. tauto.
Qed.

Lemma dict_set_same (d : list (string * string)) (k v v' : string) :
  List.NoDup (List.map fst d) -> (In (k, v') (dict_set d k v) <-> v' = v).
Proof.
  intros Hnd. induction d as [|[k0 v0] d IH].
  - cbn. split; [intros [E|[]]; congruence|intros ->; now left].
  - cbn [List.map fst] in Hnd. apply List.NoDup_cons_iff in Hnd. destruct Hnd as [Hfresh Hnd].
    cbn [dict_set]. destruct (bool_decide_reflect (k0 = k)) as [->|Hk].
    + cbn. split; [|intros ->; now left].
      intros [E|H]; [congruence|]. exfalso. apply Hfresh.
      apply in_map_iff. now exists (k, v').
    + cbn. rewrite IH by exact Hnd. split; [|tauto]. intros [E|H]; [congruence|exact H].
Qed.

(** The loop keeps the keys distinct, and an entry of its result is the
    last section of its type among the matches, or an entry it started
    with whose type no match has. *)
Lemma get_sections_loop_spec (content : string) (matches : list H2Match)
    (acc : list (string * string)) :
  List.NoDup (List.map fst acc) ->
  List.NoDup (List.map fst (get_sections_loop content matches acc))
  /\ forall k v,
       In (k, v) (get_sections_loop content matches acc)
       <-> (exists before m later,
              matches = before ++ m :: later
              /\ section_type_of m = Some k
              /\ (forall m', In m' later -> section_type_of m' <> Some k)
              /\ v = section_content_of content m later)
           \/ (In (k, v) acc /\ forall m, In m matches -> section_type_of m <> Some k).
Proof.
  revert acc. induction matches as [|m later IH]; intros acc Hnd.
  - cbn [get_sections_loop]. split; [exact Hnd|]. intros k v. split.
    + intros H. right. split; [exact H|]. intros ? [].
    + intros [(before & m & later & E & _)|[H _]]; [|exact H].
      destruct before; discriminate.
  - cbn [get_sections_loop].
    set (acc' := match section_type_of m with
                 | Some section_type =>
                     dict_set acc section_type (section_content_of content m later)
                 | None => acc
                 end).
    assert (Hnd' : List.NoDup (List.map fst acc')).
    { unfold acc'. destruct (section_type_of m); [now apply dict_set_NoDup|exact Hnd]. }
    destruct (IH acc' Hnd') as [IH1 IH2]. split; [exact IH1|].
    intros k v. rewrite IH2. split.
    + intros [(before & m0 & later0 & E & Ht & Hlast & Hv)|[Hacc Hnone]].
      * left. exists (m :: before), m0, later0. rewrite E. now repeat split.
      * unfold acc' in Hacc. destruct (section_type_of m) as [t|] eqn:Et.
        -- destruct (decide (t = k)) as [->|Hne].
           ++ apply (dict_set_same acc k _ v Hnd) in Hacc. left.
              exists [], m, later. now repeat split.
           ++ apply dict_set_other in Hacc; [|congruence]. right. split; [exact Hacc|].
              intros m' [<-|Hm']; [congruence|now apply Hnone].
        -- right. split; [exact Hacc|].
           intros m' [<-|Hm']; [congruence|now apply Hnone].
    + intros [(before & m0 & later0 & E & Ht & Hlast & Hv)|[Hacc Hnone]].
      * destruct before as [|b before]; cbn in E; injection E as -> ->.
        -- right. split; [|exact Hlast]. unfold acc'. rewrite Ht.
           apply dict_set_same; [exact Hnd|exact Hv].
        -- left. exists before, m0, later0. now repeat split.
      * right. split; [|intros m' Hm'; apply Hnone; now right].
        unfold acc'. destruct (section_type_of m) as [t|] eqn:Et; [|exact Hacc].
        apply dict_set_other; [|exact Hacc]. intros ->.
        apply (Hnone m); [now left|exact Et].
Qed.

(** X27.  [get_sections] keeps one entry per standard section type that
    some H2 header maps to, at most four in all, under distinct names: the
    content of an entry is the stripped text after the last header of its
    type, up to the next header (or the end), so an earlier section of the
    same type, and every section whose header maps to no type, is dropped.
    Case does not matter to [_normalize_section_type]. *)
Theorem get_sections_last_of_each_type (content : string) (matches : list H2Match) :
  let sections := get_sections content matches in
  List.NoDup (List.map fst sections)
  /\ (length sections <= 4)%nat
  /\ (forall k v,
        In (k, v) sections
        <-> exists before m later,
              matches = before ++ m :: later
              /\ section_type_of m = Some k
              /\ (forall m', In m' later -> section_type_of m' <> Some k)
              /\ v = section_content_of content m later)
  /\ (forall k, In k (List.map fst sections) -> In k standard_section_types)
  /\ (forall title,
        _normalize_section_type (PyStr.lower title) = _normalize_section_type title).
Proof.
  cbn zeta. unfold get_sections.
  destruct (get_sections_loop_spec content matches [] (List.NoDup_nil _)) as [Hnd Hin].
  assert (Hkeys : forall k,
            In k (List.map fst (get_sections_loop content matches [])) ->
            In k standard_section_types).
  { intros k Hk. apply in_map_iff in Hk. destruct Hk as ([k' v] & <- & Hkv).
    apply Hin in Hkv. destruct Hkv as [(before & m & later & _ & Ht & _)|[[] _]].
    cbn [fst]. exact (normalize_section_type_standard _ _ Ht). }
  split; [exact Hnd|]. split; [|split; [|split; [exact Hkeys|]]].
  - rewrite <- (length_map fst).
    change 4%nat with (length standard_section_types).
    apply List.NoDup_incl_length; [exact Hnd|exact Hkeys].
  - intros k v. rewrite Hin. split; [|now left].
    intros [H|[[] _]]. exact H.
  - intros title. unfold _normalize_section_type. now rewrite lower_idem.
Qed.

(* ===================================================================== *)
(** * Properties of the ChatKit tool handler *)
(* ===================================================================== *)

Section ToolFacts.
Variable embed_remote : string -> list Q.
Variable search_remote : list Q -> Z -> option Q -> list Chunk.
Variable complete_remote : string -> string -> Z -> string.
Variable format_2f : Q -> string.
Variable default_system_prompt : string.
Variable selected_text_system_prompt : string.

Abbreviation rag_query :=
  (process_query embed_remote search_remote complete_remote format_2f
     default_system_prompt selected_text_system_prompt).
Abbreviation tool_search :=
  (handle_search_textbook embed_remote search_remote complete_remote format_2f
     default_system_prompt selected_text_system_prompt).

(** [process_query] always reaches the embedding provider. *)
Lemma process_query_calls (request : QueryRequest) :
  snd (run (rag_query request)) <> [].
Proof.
  unfold run, process_query. unfold bind at 1.
  assert (Hstep : exists final call rest,
            retrieve_step embed_remote search_remote request [] = (inr final, call :: rest)).
  { unfold retrieve_step. destruct (selection_of request) as [sel|].
    - unfold bind. rewrite retrieve_for_selected_text_run. cbn. now eexists _, _, _.
    - unfold retrieve_relevant_chunks, generate_embedding, search, bind, remote.
      cbn. now eexists _, _, _. }
  destruct Hstep as (final & call & rest & ->). unfold bind at 1.
  destruct (generate_run complete_remote default_system_prompt
              selected_text_system_prompt request
              match selection_of request with
              | Some sel =>
                  enhance_context_with_selection (format_context_for_llm format_2f final) sel
              | None => format_context_for_llm format_2f final
              end (call :: rest)) as (text & c & ->).
  unfold bind at 1.
  pose proof (extract_source_citations_trace final ((call :: rest) ++ [c])) as Htr.
  destruct (_extract_source_citations final _) as [[e|cits] t'];
    cbn [snd] in Htr; subst t'; [discriminate|].
  unfold lift. cbn [fst snd]. rewrite QueryResponse_new_estimated. discriminate.
Qed.

(** X28.  [handle_search_textbook] never raises, and it accepts a call
    exactly when the query has 1 to 2000 characters, [max_results] lies
    between 1 and 20, and the selected text, when one is given, has 20 to
    2000 characters and at least 20 words; an empty selected text is
    refused, although it selects full-book mode.  An accepted call runs
    [RAGService.process_query], in selected-text mode when a selected text
    is given and in full-book mode otherwise, and answers with its response
    or its error; a refused call answers with an error without any remote
    call. *)
Theorem handle_search_textbook_accepts (query : string) (selected : option string)
    (max_results : Z) :
  let acceptable :=
    (1 <= PyStr.len query <= 2000)%nat
    /\ 1 <= max_results <= 20
    /\ (forall t, selected = Some t ->
          (20 <= PyStr.len t <= 2000)%nat /\ 20 <= get_word_count t) in
  let request :=
    {| query_text := query;
       query_mode := match selected with
                     | Some _ => "selected-text"
                     | None => "full-book"
                     end;
       session_id := None; selected_text := selected; max_results := max_results |} in
  (acceptable ->
   run (tool_search query selected max_results)
   = match run (rag_query request) with
     | (inl e, t) => (inr (ToolError e), t)
     | (inr answer, t) => (inr (ToolSuccess answer), t)
     end
   /\ snd (run (tool_search query selected max_results)) <> [])
  /\ (~ acceptable ->
      exists e, run (tool_search query selected max_results) = (inr (ToolError e), []))
  /\ (acceptable \/ ~ acceptable).
Proof.
  cbn zeta.
  set (acceptable :=
    (1 <= PyStr.len query <= 2000)%nat
    /\ 1 <= max_results <= 20
    /\ (forall t, selected = Some t ->
          (20 <= PyStr.len t <= 2000)%nat /\ 20 <= get_word_count t)).
  set (request :=
    {| query_text := query;
       query_mode := match selected with
                     | Some _ => "selected-text"
                     | None => "full-book"
                     end;
       session_id := None; selected_text := selected; max_results := max_results |}).
  set (mode := if match selected with Some (String _ _) => true | _ => false end
               then "selected-text" else "full-book").
  set (input :=
    {| in_query_text := query; in_query_mode := Given mode;
       in_session_id := None; in_selected_text := Given selected;
       in_max_results := Given max_results |}).
  assert (Hmode : field_query_mode (Given mode) = Some mode).
  { unfold mode. now destruct selected as [[|? ?]|]. }
  assert (Hsel : (exists st, field_selected_text (Some mode) (Given selected) = Some st
                             /\ st = selected
                             /\ mode = match selected with
                                       | Some _ => "selected-text"
                                       | None => "full-book"
                                       end
                             /\ forall t, selected = Some t ->
                                  (20 <= PyStr.len t <= 2000)%nat /\ 20 <= get_word_count t)
                 \/ (field_selected_text (Some mode) (Given selected) = None
                     /\ exists t, selected = Some t
                                  /\ ~ ((20 <= PyStr.len t <= 2000)%nat
                                        /\ 20 <= get_word_count t))).
  { destruct (field_selected_text (Some mode) (Given selected)) as [st|] eqn:E.
    - left. exists st. destruct (field_selected_text_given _ _ _ E) as (-> & _ & Hlen).
      split; [reflexivity|]. split; [reflexivity|]. split.
      + unfold mode. destruct selected as [[|? ?]|]; try reflexivity.
        destruct (Hlen "" eq_refl) as [[Hlo _] _]. cbn in Hlo. lia.
      + intros t Ht. destruct (Hlen t Ht) as [Hc Hw]. split; [exact Hc|lia].
    - right. split; [reflexivity|]. destruct selected as [t|].
      + exists t. split; [reflexivity|]. intros [[Hlo Hhi] Hw].
        unfold field_selected_text in E.
        destruct (Nat.leb_spec 20 (PyStr.len t)); [|lia].
        destruct (Nat.leb_spec (PyStr.len t) 2000); [|lia].
        cbn [andb] in E. unfold validate_selected_text in E.
        destruct t as [|a t]; [cbn in Hlo; lia|].
        rewrite andb_false_r in E. fold (get_word_count (String a t)) in E.
        destruct (Z.ltb_spec (get_word_count (String a t)) 20); [lia|].
        pose proof (get_word_count_le_length (String a t)).
        destruct (Z.gtb_spec (get_word_count (String a t)) 2000); [lia|discriminate].
      + exfalso. unfold field_selected_text, validate_selected_text, mode in E.
        rewrite bool_decide_false in E by discriminate. discriminate. }
  assert (Hnew : (acceptable /\ QueryRequest_new input = inr request)
                 \/ (~ acceptable /\ exists e, QueryRequest_new input = inl e)).
  { unfold QueryRequest_new, input.
    cbn [in_query_text in_query_mode in_selected_text in_max_results in_session_id].
    rewrite Hmode. unfold field_query_text, field_max_results.
    destruct (Nat.leb_spec 1 (PyStr.len query));
      [|right; split; [unfold acceptable; lia|now eexists]].
    destruct (Nat.leb_spec (PyStr.len query) 2000);
      [|right; split; [unfold acceptable; lia|now eexists]].
    cbn [andb].
    destruct Hsel as [(st & -> & -> & Em & Hok)|(-> & t & Et & Hbad)].
    - destruct (Z.leb_spec 1 max_results);
        [|right; split; [unfold acceptable; lia|now eexists]].
      destruct (Z.leb_spec max_results 20);
        [|right; split; [unfold acceptable; lia|now eexists]].
      cbn [andb]. left. split; [unfold acceptable; split; [lia|split; [lia|exact Hok]]|].
      unfold request. rewrite <- Em. reflexivity.
    - right. split; [|now eexists].
      intros (_ & _ & Hall). apply Hbad. now apply Hall. }
  split; [|split].
  - intros Hacc. destruct Hnew as [[_ Hn]|[Hn _]]; [|contradiction].
    assert (Hrun : run (tool_search query selected max_results)
                   = match run (rag_query request) with
                     | (inl e, t) => (inr (ToolError e), t)
                     | (inr answer, t) => (inr (ToolSuccess answer), t)
                     end).
    { unfold run, handle_search_textbook. cbn zeta.
      change (QueryRequest_new _) with (QueryRequest_new input). now rewrite Hn. }
    split; [exact Hrun|]. rewrite Hrun.
    pose proof (process_query_calls request) as Hcalls.
    destruct (run (rag_query request)) as [[e|answer] t]; exact Hcalls.
  - intros Hnot. destruct Hnew as [[Hacc _]|[_ (e & Hn)]]; [contradiction|].
    exists e. unfold run, handle_search_textbook. cbn zeta.
    change (QueryRequest_new _) with (QueryRequest_new input). now rewrite Hn.
  - destruct Hnew as [[Hacc _]|[Hnot _]]; [now left|now right].
Qed.

End ToolFacts.
